(** * OpenHMD Rift positional tracking: frame queues, delay slots, device time

    A shallow embedding of the bookkeeping code of
    [src/drv_oculus_rift/rift-sensor.c] and
    [src/drv_oculus_rift/rift-tracker.c], with the properties the
    specification states about it.

    Conventions of the embedding.
    - C integers are [Z]; the wrap-around of the unsigned types is written
      out with [u32] and [u64].  Overflow of a signed [int] and an access
      outside an array are undefined behaviour: the operation then yields
      [Undefined].  A failed [assert] yields [AssertFailed].
    - A fixed-size C array is a [list], read with [!!] and written with
      [<[ i := x ]>].
    - A pointer into the sensor's pool of capture frames is the index of the
      frame; [NULL] is [None]. *)

From Stdlib Require Import ZArith Lia List QArith.
From Stdlib.Strings Require Import Byte.
From stdpp Require Import base list.

Local Open Scope Z_scope.

(** ** C integers and outcomes *)

Definition u32 (z : Z) : Z := z mod 2 ^ 32.
Definition u64 (z : Z) : Z := z mod 2 ^ 64.
Definition INT_MAX : Z := 2 ^ 31 - 1.

(** What running a piece of C code amounts to: a result, an [assert] that
    failed, or undefined behaviour. *)
Inductive outcome (A : Type) : Type :=
| Done (a : A)
| AssertFailed
| Undefined.
Arguments Done {A} a.
Arguments AssertFailed {A}.
Arguments Undefined {A}.

Definition outcome_bind {A B} (f : A -> outcome B) (m : outcome A) : outcome B :=
  match m with
  | Done a => f a
  | AssertFailed => AssertFailed
  | Undefined => Undefined
  end.

#[global] Instance outcome_ret : MRet outcome := fun A a => Done a.
#[global] Instance outcome_mbind : MBind outcome := fun A B f m => outcome_bind f m.

(** [assert (b)] *)
Definition c_assert (b : bool) : outcome unit :=
  if b then Done tt else AssertFailed.

(** [a[i]] for a C array [a] and a C integer [i]. *)
Definition array_get {A} (a : list A) (i : Z) : outcome A :=
  if (i <? 0) then Undefined
  else match a !! Z.to_nat i with
       | Some x => Done x
       | None => Undefined
       end.

(** [a[i] = x] *)
Definition array_set {A} (a : list A) (i : Z) (x : A) : outcome (list A) :=
  if (i <? 0) then Undefined
  else if (Z.to_nat i <? length a)%nat then Done (<[Z.to_nat i := x]> a)
  else Undefined.

(** ** The bounded frame queue of rift-sensor.c *)

Module FrameQueue.

(** We need 4 capture buffers: 1 to be capturing into, 1 captured, in the
    fast analysis thread, 1 possibly undergoing long analysis, 1 pending
    long analysis. *)
Definition NUM_CAPTURE_BUFFERS : Z := 4.
Definition QUEUE_SIZE : Z := NUM_CAPTURE_BUFFERS + 1.

(** [rift_sensor_capture_frame *]: the index of the frame in the pool. *)
Definition frame_ptr : Type := option nat.

Record rift_sensor_frame_queue : Type := mk_queue {
  data : list frame_ptr;   (* rift_sensor_capture_frame *data[QUEUE_SIZE] *)
  head : Z;                (* unsigned int *)
  tail : Z                 (* unsigned int *)
}.

Definition INIT_QUEUE (q : rift_sensor_frame_queue) : rift_sensor_frame_queue :=
  mk_queue (data q) 0 0.

Definition PUSH_QUEUE (q : rift_sensor_frame_queue) (f : frame_ptr)
  : outcome rift_sensor_frame_queue :=
  let next := u32 (tail q + 1) mod QUEUE_SIZE in
  _ ← c_assert (negb (next =? head q));      (* Check there's room *)
  _ ← c_assert (bool_decide (f ≠ None));
  d ← array_set (data q) (tail q) f;
  mret (mk_queue d (head q) next).

Definition POP_QUEUE (q : rift_sensor_frame_queue)
  : outcome (frame_ptr * rift_sensor_frame_queue) :=
  let next_head := u32 (head q + 1) mod QUEUE_SIZE in
  if tail q =? head q then mret (None, q)    (* nothing in the queue *)
  else
    f ← array_get (data q) (head q);
    mret (f, mk_queue (data q) next_head (tail q)).

(** Rewind the queue and un-push the last element *)
Definition REWIND_QUEUE (q : rift_sensor_frame_queue)
  : outcome (frame_ptr * rift_sensor_frame_queue) :=
  let prev_tail := u32 (tail q - 1) in
  let prev_tail := if prev_tail >=? QUEUE_SIZE then QUEUE_SIZE - 1 else prev_tail in
  if tail q =? head q then mret (None, q)    (* nothing in the queue *)
  else
    f ← array_get (data q) prev_tail;
    mret (f, mk_queue (data q) (head q) prev_tail).

(** The queue as the code keeps it: both indices inside the array. *)
Definition wf_queue (q : rift_sensor_frame_queue) : Prop :=
  length (data q) = Z.to_nat QUEUE_SIZE /\
  0 <= head q < QUEUE_SIZE /\ 0 <= tail q < QUEUE_SIZE.

(** Number of entries held, and the entries from the oldest to the newest. *)
Definition queue_count (q : rift_sensor_frame_queue) : Z :=
  (tail q - head q) mod QUEUE_SIZE.

Definition queue_entries (q : rift_sensor_frame_queue) : list frame_ptr :=
  map (fun i => default None (data q !! Z.to_nat ((head q + Z.of_nat i) mod QUEUE_SIZE)))
      (seq 0 (Z.to_nat (queue_count q))).

(** Two queues in the same state: the same indices and the same entries.  The
    cells outside the entries are not part of the state: no operation reads
    one before a push has written it. *)
Definition queue_equiv (q q' : rift_sensor_frame_queue) : Prop :=
  head q = head q' /\ tail q = tail q' /\ queue_entries q = queue_entries q'.

(** The same outcome, up to [R] on results. *)
Definition outcome_rel {A} (R : A -> A -> Prop) (a b : outcome A) : Prop :=
  match a, b with
  | Done x, Done y => R x y
  | AssertFailed, AssertFailed => True
  | Undefined, Undefined => True
  | _, _ => False
  end.

End FrameQueue.

(** ** Poses and the external collaborators of the tracker *)

Module Pose.

(** Floating-point scalars are idealised as exact rationals.  The code under
    study copies and compares them; the arithmetic on them happens in the
    collaborators below. *)
Definition float : Type := Q.

Record vec3f : Type := mk_vec3f { vx : float; vy : float; vz : float }.
Record quatf : Type := mk_quatf { qx : float; qy : float; qz : float; qw : float }.
Record posef : Type := mk_posef { pos : vec3f; orient : quatf }.

(** [vec3f v = { 0, }] *)
Definition vec3f_zero : vec3f := mk_vec3f 0%Q 0%Q 0%Q.

(** [a < b] on scalars. *)
Definition float_lt (a b : float) : bool := negb (Qle_bool b a).


(** One IMU sample: angular velocity, acceleration, magnetic field. *)
Record imu_sample : Type := mk_imu_sample {
  ang_vel : vec3f; accel : vec3f; mag_field : vec3f
}.

(** The 6DOF Kalman filter is driven, not implemented, by the tracker: its
    state is the history of the calls made to it, oldest first. *)
Inductive ukf_call : Type :=
| ukf_imu_update (time : Z) (s : imu_sample)
| ukf_pose_update (time : Z) (pose : posef) (slot : Z)
| ukf_prepare_delay_slot (time : Z) (slot : Z)
| ukf_release_delay_slot (slot : Z)
| ukf_get_pose_at (time : Z).

Definition rift_kalman_6dof_filter : Type := list ukf_call.

(** What [rift_kalman_6dof_get_pose_at] writes through its out pointers. *)
Record ukf_estimate : Type := mk_ukf_estimate {
  est_pose : posef; est_vel : vec3f; est_accel : vec3f;
  est_pos_error : vec3f; est_rot_error : vec3f
}.

(** Code of the repository that is not in the two files embedded here: the
    Kalman filter's answers, the pose algebra of omath and a constant of
    rift-tracker.h.  They are taken as parameters. *)
Class Collaborators : Type := {
  (* what the filter reports at a time, given all it was told so far *)
  rift_kalman_6dof_get_pose_at : rift_kalman_6dof_filter -> Z -> ukf_estimate;
  (* oposef_apply (a, b, out): out is [oposef_apply a b] *)
  oposef_apply : posef -> posef -> posef;
  oposef_apply_inverse : posef -> posef -> posef;
  oposef_inverse : posef -> posef;
  oposef_mirror_XZ : posef -> posef;
  oquatf_get_rotated : quatf -> vec3f -> vec3f;
  oquatf_get_length : quatf -> float;
  RIFT_MAX_PENDING_IMU_OBSERVATIONS : Z;
  (* the smoothing factor of the output filter for an elapsed device-time,
     and its blend of two orientations *)
  exp_filter_alpha : Z -> float;
  exp_filter_quat : float -> quatf -> quatf -> quatf
}.

(** Modelled from the spec: [exp_filter_pose] and [exp_filter_pose_run]
    (exponential-filter.h) are missing from the sources.  The spec (4.8)
    has the view pose passed "through an exponential smoothing filter keyed
    on device-time", the smoothed pose being cached and returned.
    Exponential smoothing: the first pose passes through; after that the
    output moves from the previous output towards the input by the factor
    chosen from the device-time elapsed since the previous run. *)
Record exp_filter_pose : Type := mk_exp_filter_pose {
  have_prev : bool;
  prev_ts : Z;
  prev_out : posef
}.

Definition exp_filter_pose_init : exp_filter_pose :=
  mk_exp_filter_pose false 0 (mk_posef vec3f_zero (mk_quatf 0%Q 0%Q 0%Q 0%Q)).

Definition exp_smooth (alpha prev x : float) : float :=
  (prev + alpha * (x - prev))%Q.

Definition exp_smooth_vec3f (alpha : float) (prev x : vec3f) : vec3f :=
  mk_vec3f (exp_smooth alpha (vx prev) (vx x))
           (exp_smooth alpha (vy prev) (vy x))
           (exp_smooth alpha (vz prev) (vz x)).

Definition exp_filter_pose_run `{Collaborators} (f : exp_filter_pose) (ts : Z)
    (in_pose : posef) : exp_filter_pose * posef :=
  let out :=
    if have_prev f then
      let alpha := exp_filter_alpha (u64 (ts - prev_ts f)) in
      mk_posef (exp_smooth_vec3f alpha (pos (prev_out f)) (pos in_pose))
               (exp_filter_quat alpha (orient (prev_out f)) (orient in_pose))
    else in_pose in
  (mk_exp_filter_pose true ts out, out).

End Pose.

(** ** rift-tracker.c: tracked devices and their delay slots *)

Module Tracker.
Import Pose.

(** Number of state slots to use for quat/position updates *)
Definition NUM_POSE_DELAY_SLOTS : Z := 3.

(** Length of time (milliseconds) we will interpolate position before
    declaring tracking lost *)
Definition POSE_LOST_THRESHOLD : Z := 500.

Record rift_tracker_pose_delay_slot : Type := mk_slot {
  slot_id : Z;               (* int: index of the slot *)
  valid : bool;              (* true if the exposure info was set *)
  use_count : Z;             (* int: number of frames using this slot *)
  slot_device_time_ns : Z    (* uint64_t: device time this slot is tracking *)
}.

Record rift_tracked_device_imu_observation : Type := mk_imu_observation {
  obs_local_ts : Z; obs_device_ts : Z; obs_dt : float; obs_sample : imu_sample
}.

(** [rift_tracked_device_exposure_info]: the per-device exposure record. *)
Record rift_tracked_device_exposure_info : Type := mk_dev_info {
  info_device_time_ns : Z;   (* uint64_t *)
  fusion_slot : Z;           (* int, -1 when there is none *)
  capture_pose : posef;
  pos_error : vec3f;
  rot_error : vec3f
}.

Record rift_tracker_exposure_info : Type := mk_exposure_info {
  local_ts : Z;              (* uint64_t *)
  hmd_ts : Z;                (* uint32_t *)
  count : Z;                 (* uint16_t *)
  led_pattern_phase : Z;     (* uint8_t *)
  info_n_devices : Z;
  info_devices : list rift_tracked_device_exposure_info
}.

(** [rift_tracked_device_priv], without its lock and its debug sinks.
    [pending_imu_observations] holds the first
    [num_pending_imu_observations] entries of the C array. *)
Record rift_tracked_device_priv : Type := mk_dev {
  base_id : Z;               (* base.id *)
  index : Z;
  ukf_fusion : rift_kalman_6dof_filter;
  delay_slot_index : Z;
  delay_slots : list rift_tracker_pose_delay_slot;
  fusion_to_model : posef;
  last_device_ts : Z;        (* uint32_t *)
  device_time_ns : Z;        (* uint64_t *)
  last_observed_pose_ts : Z; (* uint64_t *)
  last_observed_pose : posef;
  last_reported_pose : Z;    (* uint64_t *)
  reported_pose : posef;
  model_pose : posef;
  pose_output_filter : exp_filter_pose;
  pending_imu_observations : list rift_tracked_device_imu_observation
}.

Record rift_tracker_ctx : Type := mk_tracker {
  have_exposure_info : bool;
  exposure_info : rift_tracker_exposure_info;
  devices : list rift_tracked_device_priv;
  n_devices : Z              (* uint8_t *)
}.

(** Field updates. *)
Definition set_use_count (s : rift_tracker_pose_delay_slot) (c : Z) :=
  mk_slot (slot_id s) (valid s) c (slot_device_time_ns s).
Definition set_valid (s : rift_tracker_pose_delay_slot) (v : bool) :=
  mk_slot (slot_id s) v (use_count s) (slot_device_time_ns s).
Definition set_slot_device_time_ns (s : rift_tracker_pose_delay_slot) (t : Z) :=
  mk_slot (slot_id s) (valid s) (use_count s) t.

Definition set_fusion_slot (i : rift_tracked_device_exposure_info) (k : Z) :=
  mk_dev_info (info_device_time_ns i) k (capture_pose i) (pos_error i) (rot_error i).
Definition set_info_device_time_ns (i : rift_tracked_device_exposure_info) (t : Z) :=
  mk_dev_info t (fusion_slot i) (capture_pose i) (pos_error i) (rot_error i).
Definition set_capture (i : rift_tracked_device_exposure_info)
    (p : posef) (pe re : vec3f) :=
  mk_dev_info (info_device_time_ns i) (fusion_slot i) p pe re.
Definition set_info_devices (e : rift_tracker_exposure_info)
    (l : list rift_tracked_device_exposure_info) :=
  mk_exposure_info (local_ts e) (hmd_ts e) (count e) (led_pattern_phase e)
    (info_n_devices e) l.

Definition set_ukf_fusion (d : rift_tracked_device_priv) (u : rift_kalman_6dof_filter) :=
  mk_dev (base_id d) (index d) u (delay_slot_index d) (delay_slots d)
    (fusion_to_model d) (last_device_ts d) (device_time_ns d)
    (last_observed_pose_ts d) (last_observed_pose d) (last_reported_pose d)
    (reported_pose d) (model_pose d) (pose_output_filter d)
    (pending_imu_observations d).
Definition set_delay_slot_index (d : rift_tracked_device_priv) (k : Z) :=
  mk_dev (base_id d) (index d) (ukf_fusion d) k (delay_slots d)
    (fusion_to_model d) (last_device_ts d) (device_time_ns d)
    (last_observed_pose_ts d) (last_observed_pose d) (last_reported_pose d)
    (reported_pose d) (model_pose d) (pose_output_filter d)
    (pending_imu_observations d).
Definition set_delay_slots (d : rift_tracked_device_priv)
    (l : list rift_tracker_pose_delay_slot) :=
  mk_dev (base_id d) (index d) (ukf_fusion d) (delay_slot_index d) l
    (fusion_to_model d) (last_device_ts d) (device_time_ns d)
    (last_observed_pose_ts d) (last_observed_pose d) (last_reported_pose d)
    (reported_pose d) (model_pose d) (pose_output_filter d)
    (pending_imu_observations d).
Definition set_device_time (d : rift_tracked_device_priv) (ts t : Z) :=
  mk_dev (base_id d) (index d) (ukf_fusion d) (delay_slot_index d) (delay_slots d)
    (fusion_to_model d) ts t
    (last_observed_pose_ts d) (last_observed_pose d) (last_reported_pose d)
    (reported_pose d) (model_pose d) (pose_output_filter d)
    (pending_imu_observations d).
Definition set_last_observed (d : rift_tracked_device_priv) (t : Z) (p : posef) :=
  mk_dev (base_id d) (index d) (ukf_fusion d) (delay_slot_index d) (delay_slots d)
    (fusion_to_model d) (last_device_ts d) (device_time_ns d)
    t p (last_reported_pose d)
    (reported_pose d) (model_pose d) (pose_output_filter d)
    (pending_imu_observations d).
Definition set_reported (d : rift_tracked_device_priv) (t : Z) (p : posef)
    (f : exp_filter_pose) :=
  mk_dev (base_id d) (index d) (ukf_fusion d) (delay_slot_index d) (delay_slots d)
    (fusion_to_model d) (last_device_ts d) (device_time_ns d)
    (last_observed_pose_ts d) (last_observed_pose d) t
    p (model_pose d) f
    (pending_imu_observations d).
Definition set_model_pose (d : rift_tracked_device_priv) (p : posef) :=
  mk_dev (base_id d) (index d) (ukf_fusion d) (delay_slot_index d) (delay_slots d)
    (fusion_to_model d) (last_device_ts d) (device_time_ns d)
    (last_observed_pose_ts d) (last_observed_pose d) (last_reported_pose d)
    (reported_pose d) p (pose_output_filter d)
    (pending_imu_observations d).
Definition set_pending (d : rift_tracked_device_priv)
    (l : list rift_tracked_device_imu_observation) :=
  mk_dev (base_id d) (index d) (ukf_fusion d) (delay_slot_index d) (delay_slots d)
    (fusion_to_model d) (last_device_ts d) (device_time_ns d)
    (last_observed_pose_ts d) (last_observed_pose d) (last_reported_pose d)
    (reported_pose d) (model_pose d) (pose_output_filter d) l.
Definition set_devices (c : rift_tracker_ctx) (l : list rift_tracked_device_priv) :=
  mk_tracker (have_exposure_info c) (exposure_info c) l (n_devices c).

(** The filter is told something: the call joins its history. *)
Definition ukf_tell (d : rift_tracked_device_priv) (c : ukf_call) :=
  set_ukf_fusion d (ukf_fusion d ++ [c]).

(** [for (i = i0; ...; i++) body], run [n] times. *)
Fixpoint for_loop {S : Type} (body : Z -> S -> outcome S) (i : Z) (n : nat) (s : S)
  : outcome S :=
  match n with
  | O => mret s
  | Datatypes.S n' => s' ← body i s; for_loop body (i + 1) n' s'
  end.

Section Operations.
Context `{Collaborators}.

(** Called with the device lock held.  The pending observations go to the
    debug sinks (not modelled) and the buffer is emptied. *)
Definition rift_tracked_device_send_imu_debug (dev : rift_tracked_device_priv)
  : rift_tracked_device_priv :=
  match pending_imu_observations dev with
  | [] => dev
  | _ :: _ => set_pending dev []
  end.

Definition rift_tracked_device_imu_update (dev : rift_tracked_device_priv)
    (local_ts device_ts : Z) (dt : float) (s : imu_sample)
  : outcome rift_tracked_device_priv :=
  (* Handle device_ts wrap by extending to 64-bit and working in nanoseconds *)
  let t :=
    if device_time_ns dev =? 0 then
      u64 (u32 (device_ts * 1000))
    else
      let dt_ns := u64 (u32 (u32 (device_ts - last_device_ts dev) * 1000)) in
      u64 (device_time_ns dev + dt_ns) in
  let dev := set_device_time dev device_ts t in
  let dev := ukf_tell dev (ukf_imu_update t s) in
  (* obs = dev->pending_imu_observations + dev->num_pending_imu_observations *)
  if RIFT_MAX_PENDING_IMU_OBSERVATIONS <=? Z.of_nat (length (pending_imu_observations dev))
  then Undefined
  else
    let obs := mk_imu_observation local_ts t dt s in
    let dev := set_pending dev (pending_imu_observations dev ++ [obs]) in
    if Z.of_nat (length (pending_imu_observations dev)) =? RIFT_MAX_PENDING_IMU_OBSERVATIONS
    then
      (* No camera observations for a while - send our observations from here *)
      mret (rift_tracked_device_send_imu_debug dev)
    else mret dev.

(** The pose, velocity and acceleration written through [pose], [vel] and
    [accel] are returned next to the device. *)
Definition rift_tracked_device_get_view_pose (dev : rift_tracked_device_priv)
  : rift_tracked_device_priv * (posef * vec3f * vec3f) :=
  if device_time_ns dev >? last_reported_pose dev then
    let t := device_time_ns dev in
    let est := rift_kalman_6dof_get_pose_at (ukf_fusion dev) t in
    let dev := ukf_tell dev (ukf_get_pose_at t) in
    (* dev->reported_pose.orient = imu_pose.orient *)
    let dev := set_reported dev (last_reported_pose dev)
                 (mk_posef (pos (reported_pose dev)) (orient (est_pose est)))
                 (pose_output_filter dev) in
    let lost :=
      u64 (t - last_observed_pose_ts dev) >=? POSE_LOST_THRESHOLD * 1000000 in
    (* Don't let the device move unless there's a recent observation of
       actual position *)
    let imu_pose :=
      if lost then mk_posef (pos (reported_pose dev)) (orient (est_pose est))
      else est_pose est in
    let imu_vel := if lost then vec3f_zero else est_vel est in
    let imu_accel := if lost then vec3f_zero else est_accel est in
    let '(f, out) := exp_filter_pose_run (pose_output_filter dev) t imu_pose in
    (set_reported dev t out f, (out, imu_vel, imu_accel))
  else
    (dev, (reported_pose dev, vec3f_zero, vec3f_zero)).

(** The slot is returned as its index in [delay_slots]. *)
Definition get_matching_delay_slot (dev : rift_tracked_device_priv)
    (dev_info : rift_tracked_device_exposure_info) : outcome (option Z) :=
  let slot_no := fusion_slot dev_info in
  slot ←
    (if negb (slot_no =? -1) then
       _ ← c_assert (slot_no <? NUM_POSE_DELAY_SLOTS);
       s ← array_get (delay_slots dev) slot_no;
       mret (Some s)
     else mret None);
  match slot with
  | Some s =>
      if valid s && (slot_device_time_ns s =? info_device_time_ns dev_info)
      then mret (Some slot_no)
      else mret None
  | None => mret None
  end.

(** [pose] is updated in place: the converted pose is returned. *)
Definition rift_tracked_device_model_pose_update (dev : rift_tracked_device_priv)
    (exposure_info : rift_tracker_exposure_info) (pose : posef)
  : outcome (rift_tracked_device_priv * posef) :=
  (* Undo any IMU to device conversion *)
  let pose := oposef_apply_inverse pose (fusion_to_model dev) in
  (* Mirror the pose in XZ to go from device axes to view-plane *)
  let pose := if base_id dev =? 0 then oposef_mirror_XZ pose else pose in
  let dev := rift_tracked_device_send_imu_debug dev in
  if index dev <? info_n_devices exposure_info then
    (* This device existed when the exposure was taken and therefore has info *)
    dev_info ← array_get (info_devices exposure_info) (index dev);
    slot ← get_matching_delay_slot dev dev_info;
    match slot with
    | Some k =>
        s ← array_get (delay_slots dev) k;
        let dev := ukf_tell dev (ukf_pose_update (device_time_ns dev) pose (slot_id s)) in
        mret (set_last_observed dev (device_time_ns dev) pose, pose)
    | None => mret (dev, pose)
    end
  else mret (dev, pose).

(** Called with the device lock held.  (The C function also takes a time
    [ts], which it does not use.) *)
Definition rift_tracked_device_get_model_pose_locked (dev : rift_tracked_device_priv)
  : rift_tracked_device_priv * (posef * vec3f * vec3f) :=
  let est := rift_kalman_6dof_get_pose_at (ukf_fusion dev) (device_time_ns dev) in
  let dev := ukf_tell dev (ukf_get_pose_at (device_time_ns dev)) in
  (* Mirror the pose in XZ to go from view-plane to device axes for the HMD *)
  let global_pose :=
    if base_id dev =? 0 then oposef_mirror_XZ (est_pose est) else est_pose est in
  (* Apply any needed global pose change *)
  let model := oposef_apply global_pose (fusion_to_model dev) in
  let pe := oquatf_get_rotated (orient global_pose) (est_pos_error est) in
  let re := oquatf_get_rotated (orient global_pose) (est_rot_error est) in
  let p :=
    if u64 (device_time_ns dev - last_observed_pose_ts dev)
         <? POSE_LOST_THRESHOLD * 1000000
    then pos model else pos (model_pose dev) in
  let dev := set_model_pose dev (mk_posef p (orient model)) in
  (dev, (model_pose dev, pe, re)).

(** The slot found is returned as its index; the round-robin index of the
    device advances on the way. *)
Fixpoint find_free_delay_slot_loop (n : nat) (dev : rift_tracked_device_priv)
  : outcome (option Z * rift_tracked_device_priv) :=
  match n with
  | O => mret (None, dev)      (* Failed to find a free slot *)
  | S n' =>
      let slot_no := delay_slot_index dev in
      slot ← array_get (delay_slots dev) slot_no;
      (* Cycle through the free delay slots *)
      let dev := set_delay_slot_index dev (Z.rem (slot_no + 1) NUM_POSE_DELAY_SLOTS) in
      if use_count slot =? 0 then mret (Some slot_no, dev)
      else find_free_delay_slot_loop n' dev
  end.

Definition find_free_delay_slot (dev : rift_tracked_device_priv)
  : outcome (option Z * rift_tracked_device_priv) :=
  find_free_delay_slot_loop (Z.to_nat NUM_POSE_DELAY_SLOTS) dev.

(** Called with the device lock held *)
Definition rift_tracked_device_update_exposure (dev : rift_tracked_device_priv)
    (dev_info : rift_tracked_device_exposure_info)
  : outcome (rift_tracked_device_priv * rift_tracked_device_exposure_info) :=
  '(slot, dev) ← find_free_delay_slot dev;
  let dev_info := set_info_device_time_ns dev_info (device_time_ns dev) in
  let '(dev, (pose, pe, re)) := rift_tracked_device_get_model_pose_locked dev in
  let dev_info := set_capture dev_info pose pe re in
  match slot with
  | Some k =>
      s ← array_get (delay_slots dev) k;
      let s := set_valid (set_slot_device_time_ns s (info_device_time_ns dev_info)) true in
      slots ← array_set (delay_slots dev) k s;
      let dev := set_delay_slots dev slots in
      let dev_info := set_fusion_slot dev_info (slot_id s) in
      (* Tell the kalman filter to prepare the delay slot *)
      let dev := ukf_tell dev
                   (ukf_prepare_delay_slot (info_device_time_ns dev_info) (slot_id s)) in
      mret (dev, dev_info)
  | None =>
      mret (dev, set_fusion_slot dev_info (-1))
  end.

Definition rift_tracked_device_exposure_claim (dev : rift_tracked_device_priv)
    (dev_info : rift_tracked_device_exposure_info)
  : outcome (rift_tracked_device_priv * rift_tracked_device_exposure_info) :=
  slot ← get_matching_delay_slot dev dev_info;
  match slot with
  | Some k =>
      (* There is a delay slot for this frame, claim it *)
      s ← array_get (delay_slots dev) k;
      if use_count s =? INT_MAX then Undefined      (* slot->use_count++ *)
      else
        let s := set_use_count s (use_count s + 1) in
        slots ← array_set (delay_slots dev) k s;
        mret (set_delay_slots dev slots, set_fusion_slot dev_info (slot_id s))
  | None =>
      (* The slot was not allocated (we missed the exposure event), or it
         was overridden by a later exposure because there's not enough slots *)
      if negb (fusion_slot dev_info =? -1)
      then mret (dev, set_fusion_slot dev_info (-1))
      else mret (dev, dev_info)
  end.

Definition rift_tracked_device_exposure_release_locked (dev : rift_tracked_device_priv)
    (dev_info : rift_tracked_device_exposure_info)
  : outcome (rift_tracked_device_priv * rift_tracked_device_exposure_info) :=
  slot ← get_matching_delay_slot dev dev_info;
  match slot with
  | Some k =>
      (* There is a delay slot for this frame, release it *)
      s ← array_get (delay_slots dev) k;
      let s := if use_count s >? 0 then set_use_count s (use_count s - 1) else s in
      let '(dev, s) :=
        if use_count s =? 0 then
          (* Tell the kalman filter the slot is invalid *)
          (ukf_tell dev (ukf_release_delay_slot (slot_id s)), set_valid s false)
        else (dev, s) in
      slots ← array_set (delay_slots dev) k s;
      (* Clear the slot from this device info so it doesn't get released a
         second time *)
      mret (set_delay_slots dev slots, set_fusion_slot dev_info (-1))
  | None => mret (dev, dev_info)
  end.

Definition rift_tracked_device_frame_release (dev : rift_tracked_device_priv)
    (exposure_info : rift_tracker_exposure_info)
  : outcome (rift_tracked_device_priv * rift_tracker_exposure_info) :=
  if index dev <? info_n_devices exposure_info then
    (* This device existed when the exposure was taken and therefore has info *)
    dev_info ← array_get (info_devices exposure_info) (index dev);
    '(dev, dev_info) ← rift_tracked_device_exposure_release_locked dev dev_info;
    l ← array_set (info_devices exposure_info) (index dev) dev_info;
    mret (dev, set_info_devices exposure_info l)
  else mret (dev, exposure_info).

(** [if (info && i < info->n_devices) op (dev, info->devices + i)] *)
Definition with_device_info
    (op : rift_tracked_device_priv -> rift_tracked_device_exposure_info ->
          outcome (rift_tracked_device_priv * rift_tracked_device_exposure_info))
    (i : Z) (dev : rift_tracked_device_priv) (info : option rift_tracker_exposure_info)
  : outcome (rift_tracked_device_priv * option rift_tracker_exposure_info) :=
  match info with
  | Some e =>
      if i <? info_n_devices e then
        dev_info ← array_get (info_devices e) i;
        '(dev, dev_info) ← op dev dev_info;
        l ← array_set (info_devices e) i dev_info;
        mret (dev, Some (set_info_devices e l))
      else mret (dev, info)
  | None => mret (dev, None)
  end.

Definition rift_tracker_frame_start (ctx : rift_tracker_ctx)
    (info : option rift_tracker_exposure_info)
  : outcome (rift_tracker_ctx * option rift_tracker_exposure_info) :=
  '(devs, info) ←
    for_loop (fun i '(devs, info) =>
        dev ← array_get devs i;
        let dev := rift_tracked_device_send_imu_debug dev in
        (* This device might not have exposure info for this frame if it
           recently came online *)
        '(dev, info) ← with_device_info rift_tracked_device_exposure_claim i dev info;
        devs ← array_set devs i dev;
        mret (devs, info))
      0 (Z.to_nat (n_devices ctx)) (devices ctx, info);
  mret (set_devices ctx devs, info).

(** Frame to exposure association changed mid-arrival - update our accounting *)
Definition rift_tracker_frame_changed_exposure (ctx : rift_tracker_ctx)
    (old_info new_info : option rift_tracker_exposure_info)
  : outcome (rift_tracker_ctx * option rift_tracker_exposure_info
                              * option rift_tracker_exposure_info) :=
  '(devs, old_info, new_info) ←
    for_loop (fun i '(devs, old_info, new_info) =>
        dev ← array_get devs i;
        '(dev, old_info) ←
          with_device_info rift_tracked_device_exposure_release_locked i dev old_info;
        '(dev, new_info) ←
          with_device_info rift_tracked_device_exposure_claim i dev new_info;
        devs ← array_set devs i dev;
        mret (devs, old_info, new_info))
      0 (Z.to_nat (n_devices ctx)) (devices ctx, old_info, new_info);
  mret (set_devices ctx devs, old_info, new_info).

Definition rift_tracker_frame_release (ctx : rift_tracker_ctx)
    (info : option rift_tracker_exposure_info)
  : outcome (rift_tracker_ctx * option rift_tracker_exposure_info) :=
  '(devs, info) ←
    for_loop (fun i '(devs, info) =>
        dev ← array_get devs i;
        '(dev, info) ←
          with_device_info rift_tracked_device_exposure_release_locked i dev info;
        let dev := rift_tracked_device_send_imu_debug dev in
        devs ← array_set devs i dev;
        mret (devs, info))
      0 (Z.to_nat (n_devices ctx)) (devices ctx, info);
  mret (set_devices ctx devs, info).

End Operations.

(** The delay-slot ring as [rift_tracker_add_device] sets it up and every
    operation keeps it: [NUM_POSE_DELAY_SLOTS] slots, each holding its own
    index, and the round-robin index inside the ring. *)
Definition wf_device (dev : rift_tracked_device_priv) : Prop :=
  length (delay_slots dev) = Z.to_nat NUM_POSE_DELAY_SLOTS /\
  (forall k s, delay_slots dev !! k = Some s -> slot_id s = Z.of_nat k) /\
  0 <= delay_slot_index dev < NUM_POSE_DELAY_SLOTS.

(** An exposure record names a slot of the ring, or none. *)
Definition wf_dev_info (dev_info : rift_tracked_device_exposure_info) : Prop :=
  -1 <= fusion_slot dev_info < NUM_POSE_DELAY_SLOTS.

(** The slot and the record are about the same exposure. *)
Definition slot_matches (s : rift_tracker_pose_delay_slot)
    (dev_info : rift_tracked_device_exposure_info) : bool :=
  valid s && (slot_device_time_ns s =? info_device_time_ns dev_info).

(** A device whose slot counts can still go up. *)
Definition claimable (dev : rift_tracked_device_priv) : Prop :=
  wf_device dev /\ Forall (fun s => use_count s < INT_MAX) (delay_slots dev).

(** An exposure info holds a record for each of its devices. *)
Definition wf_exposure_info (e : rift_tracker_exposure_info) : Prop :=
  0 <= info_n_devices e <= Z.of_nat (length (info_devices e)) /\
  Forall wf_dev_info (info_devices e).

Definition wf_tracker (ctx : rift_tracker_ctx) : Prop :=
  0 <= n_devices ctx <= Z.of_nat (length (devices ctx)) /\
  Forall claimable (devices ctx).

(** Two exposure infos for the same exposure: they differ at most in their
    per-device records. *)
Definition same_exposure (e e' : rift_tracker_exposure_info) : Prop :=
  local_ts e = local_ts e' /\ hmd_ts e = hmd_ts e' /\ count e = count e' /\
  led_pattern_phase e = led_pattern_phase e' /\
  info_n_devices e = info_n_devices e'.


(** The cached view pose is what the output filter last produced. *)
Definition view_consistent (dev : rift_tracked_device_priv) : Prop :=
  have_prev (pose_output_filter dev) = true ->
  prev_out (pose_output_filter dev) = reported_pose dev.

(** What a release leaves in the slot it matches: the count one lower unless
    it was 0 already, and the slot invalid once the count is 0. *)
Definition released (s : rift_tracker_pose_delay_slot) : rift_tracker_pose_delay_slot :=
  let s := if use_count s >? 0 then set_use_count s (use_count s - 1) else s in
  if use_count s =? 0 then set_valid s false else s.

End Tracker.

(** ** rift-sensor.c: calibration, camera pose bootstrap, exposure updates *)

Module Sensor.
Import Pose Tracker FrameQueue.

(** A C [double] (and a [float] read from flash) is kept as its IEEE-754 bit
    pattern: the calibration code only moves these values around. *)
Definition double : Type := Z.
Definition double_0_0 : double := 0.
Definition double_1_0 : double := 0x3FF0000000000000.

Record rift_pose_metrics : Type := mk_pose_metrics {
  matched_blobs : Z; visible_leds : Z;
  good_pose_match : bool; strong_pose_match : bool
}.

(** Code and constants used by rift-sensor.c and defined elsewhere in the
    repository: the USB product ids, the flash and EEPROM readers (for an
    address and a length: the return code and the bytes read), the widening
    of a [float] to a [double], the blob observations, LED models and pose
    scoring, and the degree conversion macro. *)
Class SensorCollaborators : Type := {
  CV1_PID : Z;
  DK2_PID : Z;
  pid_distinct : CV1_PID <> DK2_PID;      (* they label two cases of one switch *)
  rift_sensor_esp770u_flash_read : Z -> nat -> Z * list Byte.byte;
  esp570_eeprom_read : Z -> nat -> Z * list Byte.byte;
  double_of_float : Z -> double;
  blobservation : Type;
  rift_leds : Type;
  rift_evaluate_pose :
    rift_pose_metrics -> posef -> blobservation -> Z -> rift_leds ->
    list double -> list double -> bool -> rift_pose_metrics;
  DEG_TO_RAD : float -> float
}.

Section Sensor.
Context `{Collaborators} `{SensorCollaborators}.

Record rift_sensor_frame_device_state : Type := mk_dev_state {
  capture_world_pose : posef;
  gravity_error_rad : float; (* Gravity vector uncertainty in radians 0..M_PI *)
  final_cam_pose : posef;
  found_device_pose : bool;  (* true when the device was found in this exposure *)
  score : rift_pose_metrics
}.

(** [rift_sensor_capture_frame], without the pixel buffer and the timeline of
    analysis timestamps (used for logging only). *)
Record rift_sensor_capture_frame : Type := mk_frame {
  start_ts : Z;                   (* uvc.start_ts, uint64_t *)
  frame_id : Z;                   (* id: index of the frame in the frames array *)
  exposure_info_valid : bool;
  frame_exposure_info : rift_tracker_exposure_info;
  bwobs : option blobservation;
  capture_state : list rift_sensor_frame_device_state;
  frame_n_devices : Z;
  need_long_analysis : bool;
  long_analysis_found_new_blobs : bool
}.

(** [rift_sensor_ctx], without its locks, threads, USB stream and debug
    sinks.  The tracked devices live in the tracker. *)
Record rift_sensor_ctx : Type := mk_sensor {
  sensor_id : Z;
  is_cv1 : bool;
  frames : list rift_sensor_capture_frame;
  camera_matrix : list double;    (* dmat3: double m[9] *)
  dist_fisheye : bool;
  dist_coeffs : list double;      (* double dist_coeffs[5] *)
  cur_capture_frame : frame_ptr;
  capture_frame_q : rift_sensor_frame_queue;
  dropped_frames : Z;
  fast_analysis_q : rift_sensor_frame_queue;
  long_analysis_q : rift_sensor_frame_queue;
  long_analysis_busy : bool;
  have_camera_pose : bool;
  camera_pose : posef
}.

Definition set_frame_exposure_info (f : rift_sensor_capture_frame)
    (valid : bool) (e : rift_tracker_exposure_info) :=
  mk_frame (start_ts f) (frame_id f) valid e (bwobs f) (capture_state f)
    (frame_n_devices f) (need_long_analysis f) (long_analysis_found_new_blobs f).

Definition set_score (s : rift_sensor_frame_device_state) (m : rift_pose_metrics) :=
  mk_dev_state (capture_world_pose s) (gravity_error_rad s) (final_cam_pose s)
    (found_device_pose s) m.
Definition set_found_device_pose (s : rift_sensor_frame_device_state) (b : bool) :=
  mk_dev_state (capture_world_pose s) (gravity_error_rad s) (final_cam_pose s)
    b (score s).

Definition set_calibration (c : rift_sensor_ctx) (A : list double) (fisheye : bool)
    (k : list double) :=
  mk_sensor (sensor_id c) (is_cv1 c) (frames c) A fisheye k
    (cur_capture_frame c) (capture_frame_q c) (dropped_frames c)
    (fast_analysis_q c) (long_analysis_q c) (long_analysis_busy c)
    (have_camera_pose c) (camera_pose c).
Definition set_frames (c : rift_sensor_ctx) (l : list rift_sensor_capture_frame) :=
  mk_sensor (sensor_id c) (is_cv1 c) l (camera_matrix c) (dist_fisheye c)
    (dist_coeffs c) (cur_capture_frame c) (capture_frame_q c) (dropped_frames c)
    (fast_analysis_q c) (long_analysis_q c) (long_analysis_busy c)
    (have_camera_pose c) (camera_pose c).
Definition set_camera_pose (c : rift_sensor_ctx) (b : bool) (p : posef) :=
  mk_sensor (sensor_id c) (is_cv1 c) (frames c) (camera_matrix c) (dist_fisheye c)
    (dist_coeffs c) (cur_capture_frame c) (capture_frame_q c) (dropped_frames c)
    (fast_analysis_q c) (long_analysis_q c) (long_analysis_busy c) b p.

(** Little-endian bytes as a number; [*(T * )(buf + off)] for a [T] of [n]
    bytes; and the bytes a reader stores at [buf + off]. *)
Fixpoint le_combine (bs : list Byte.byte) : Z :=
  match bs with
  | [] => 0
  | b :: rest => Z.of_N (Byte.to_N b) + 256 * le_combine rest
  end.

Definition buf_load (buf : list Byte.byte) (off n : nat) : outcome Z :=
  let bs := take n (drop off buf) in
  if (length bs =? n)%nat then Done (le_combine bs) else Undefined.

Definition buf_store (buf : list Byte.byte) (off : nat) (bs : list Byte.byte)
  : list Byte.byte :=
  take off buf ++ take (length buf - off) bs ++ drop (off + length bs) buf.

(** Read 32-byte blocks at EEPROM address 0x2000: the body of
    [for (i = 0; i < 128; i += 32)], for the offsets [offs]. *)
Fixpoint dk2_read_blocks (offs : list nat) (buf : list Byte.byte)
  : Z * list Byte.byte :=
  match offs with
  | [] => (0, buf)
  | i :: rest =>
      let '(ret, bs) := esp570_eeprom_read (0x2000 + Z.of_nat i) 32 in
      if ret <? 0 then (ret, buf)
      else dk2_read_blocks rest (buf_store buf i (take 32 bs))
  end.

(** [buf] is the content of the local [uint8_t buf[128]] on entry.  The
    result is the value returned and the sensor context. *)
Definition rift_sensor_get_calibration (ctx : rift_sensor_ctx) (usb_idProduct : Z)
    (buf : list Byte.byte) : outcome (Z * rift_sensor_ctx) :=
  let k := dist_coeffs ctx in
  let finish fx fy cx cy k fisheye :=
    (*     | fx 0  cx |
       A = | 0  fy cy |
           | 0  0  1  | *)
    let A := [fx; double_0_0; cx; double_0_0; fy; cy;
              double_0_0; double_0_0; double_1_0] in
    (0, set_calibration ctx A fisheye k) in
  if usb_idProduct =? CV1_PID then
    (* Read a 128-byte block at EEPROM address 0x1d000 *)
    let '(ret, bs) := rift_sensor_esp770u_flash_read 0x1d000 128 in
    if ret <? 0 then mret (ret, ctx)
    else
      let buf := buf_store buf 0 (take 128 bs) in
      (* Fisheye distortion model parameters from firmware *)
      f ← buf_load buf 0x30 4;
      cx ← buf_load buf 0x34 4;
      cy ← buf_load buf 0x38 4;
      k1 ← buf_load buf 0x48 4;
      k2 ← buf_load buf 0x4c 4;
      k3 ← buf_load buf 0x50 4;
      k4 ← buf_load buf 0x54 4;
      (* k = [ k1 k2, k3, k4 ] for CV1 fisheye distortion *)
      k ← array_set k 0 (double_of_float k1);
      k ← array_set k 1 (double_of_float k2);
      k ← array_set k 2 (double_of_float k3);
      k ← array_set k 3 (double_of_float k4);
      mret (finish (double_of_float f) (double_of_float f)
              (double_of_float cx) (double_of_float cy) k true)
  else if usb_idProduct =? DK2_PID then
    (* Read 4 32-byte blocks at EEPROM address 0x2000 *)
    let '(ret, buf) := dk2_read_blocks [0; 32; 64; 96]%nat buf in
    if ret <? 0 then mret (ret, ctx)
    else
      fx ← buf_load buf 18 8;
      fy ← buf_load buf 30 8;
      cx ← buf_load buf 42 8;
      cy ← buf_load buf 54 8;
      k1 ← buf_load buf 66 8;
      k2 ← buf_load buf 78 8;
      p1 ← buf_load buf 90 8;
      p2 ← buf_load buf 102 8;
      k3 ← buf_load buf 114 8;
      (* k = [ k1 k2, p1, p2, k3, k4 ] for DK2 distortion *)
      k ← array_set k 0 k1;
      k ← array_set k 1 k2;
      k ← array_set k 1 p1;
      k ← array_set k 2 p2;
      k ← array_set k 4 k3;
      mret (finish fx fy cx cy k false)
  else mret (-1, ctx).

(** [dev->leds] is passed next to the device.  The result holds what the
    function leaves in the sensor, the device, the frame (whose exposure
    info the release updates) and the per-device frame state. *)
Definition update_device_pose (sensor_ctx : rift_sensor_ctx)
    (dev : rift_tracked_device_priv) (leds : rift_leds)
    (frame : rift_sensor_capture_frame) (dev_state : rift_sensor_frame_device_state)
  : outcome (rift_sensor_ctx * rift_tracked_device_priv *
             rift_sensor_capture_frame * rift_sensor_frame_device_state) :=
  let pose := final_cam_pose dev_state in
  let capture_pose := capture_world_pose dev_state in
  blobs ← (match bwobs frame with Some b => mret b | None => Undefined end);
  let m := rift_evaluate_pose (score dev_state) pose blobs (base_id dev) leds
             (camera_matrix sensor_ctx) (dist_coeffs sensor_ctx)
             (dist_fisheye sensor_ctx) in
  let dev_state := set_score dev_state m in
  if good_pose_match m then
    if have_camera_pose sensor_ctx then
      (* To get the transform from object->world, take object->camera pose,
         and apply the camera->world pose. *)
      let pose := oposef_apply pose (camera_pose sensor_ctx) in
      '(dev, pose) ←
        rift_tracked_device_model_pose_update dev (frame_exposure_info frame) pose;
      '(dev, e) ← rift_tracked_device_frame_release dev (frame_exposure_info frame);
      mret (sensor_ctx, dev,
            set_frame_exposure_info frame (exposure_info_valid frame) e,
            set_found_device_pose dev_state true)
    (* Arbitrary 15 degree threshold for gravity vector as a random magic number *)
    else if (base_id dev =? 0)
            && float_lt (9 # 10) (oquatf_get_length (orient capture_pose))
            && float_lt (gravity_error_rad dev_state) (DEG_TO_RAD (15 # 1)) then
      (* Calculate the xform from camera->world by applying the observed pose
         (object->camera), inverted (so camera->object) to our found fusion
         pose (object->world) to yield camera->world xform *)
      let camera_object_pose := oposef_inverse pose in
      mret (set_camera_pose sensor_ctx true
              (oposef_apply camera_object_pose capture_pose),
            dev, frame, dev_state)
    else mret (sensor_ctx, dev, frame, dev_state)
  else mret (sensor_ctx, dev, frame, dev_state).

(** The sensor calls back into its tracker: both are passed and returned. *)
Definition rift_sensor_update_exposure (tracker : rift_tracker_ctx)
    (sensor : rift_sensor_ctx) (exposure_info : rift_tracker_exposure_info)
  : outcome (rift_tracker_ctx * rift_sensor_ctx) :=
  match cur_capture_frame sensor with
  | None => mret (tracker, sensor)       (* No capture frame yet *)
  | Some fi =>
      frame ← array_get (frames sensor) (Z.of_nat fi);
      let '(frame, old_exposure_info, exposure_changed) :=
        if negb (exposure_info_valid frame) then
          (* There wasn't previously exposure info but is now, take it *)
          (set_frame_exposure_info frame true exposure_info, None, true)
        else if negb (count (frame_exposure_info frame) =? count exposure_info) then
          (* The exposure info changed mid-frame. Update if this exposure
             arrived within 5 ms of the frame start *)
          let frame_ts_threshold := u64 (start_ts frame + 5000000) in
          if local_ts exposure_info <? frame_ts_threshold then
            (set_frame_exposure_info frame (exposure_info_valid frame) exposure_info,
             Some (frame_exposure_info frame), true)
          else (frame, None, false)
        else (frame, None, false) in
      if exposure_changed then
        '(tracker, _, new_info) ←
          rift_tracker_frame_changed_exposure tracker old_exposure_info
            (Some (frame_exposure_info frame));
        let frame :=
          match new_info with
          | Some e => set_frame_exposure_info frame (exposure_info_valid frame) e
          | None => frame
          end in
        l ← array_set (frames sensor) (Z.of_nat fi) frame;
        mret (tracker, set_frames sensor l)
      else mret (tracker, sensor)
  end.

End Sensor.

End Sensor.

(** ** rift-tracker.c: device registration and the tracker's exposure state *)

Module TrackerSetup.
Import Pose Tracker.

Section Operations.
Context `{Collaborators}.

(** Init delay slot bookkeeping: the loop of [rift_tracker_add_device].  The
    fields it does not write keep what the allocation left in them. *)
Definition init_delay_slots (slots : list rift_tracker_pose_delay_slot)
  : outcome (list rift_tracker_pose_delay_slot) :=
  for_loop (fun s slots =>
      slot ← array_get slots s;
      array_set slots s (mk_slot s false (use_count slot) (slot_device_time_ns slot)))
    0 (Z.to_nat NUM_POSE_DELAY_SLOTS) slots.

(** [ctx->devices] has [RIFT_MAX_TRACKED_DEVICES] entries: the bound of the
    assertion is the length of the array.  [rift_kalman_6dof_init] starts
    the history of the filter.  The LED model and the search index of the
    device, and the sensors that are told of it, are outside this
    embedding. *)
Definition rift_tracker_add_device (ctx : rift_tracker_ctx) (device_id : Z)
    (imu_pose : posef) : outcome rift_tracker_ctx :=
  _ ← c_assert (n_devices ctx <? Z.of_nat (length (devices ctx)));
  next_dev ← array_get (devices ctx) (n_devices ctx);
  slots ← init_delay_slots (delay_slots next_dev);
  let next_dev :=
    mk_dev device_id (index next_dev) [] (delay_slot_index next_dev) slots
      imu_pose (last_device_ts next_dev) 0 0 (last_observed_pose next_dev) 0
      (reported_pose next_dev) (model_pose next_dev) exp_filter_pose_init
      (pending_imu_observations next_dev) in
  devs ← array_set (devices ctx) (n_devices ctx) next_dev;
  mret (mk_tracker (have_exposure_info ctx) (exposure_info ctx) devs
          ((n_devices ctx + 1) mod 2 ^ 8)).


(** [rift_tracker_update_exposure], the part that runs under the tracker
    lock: the tracker after it, and whether the exposure changed (the
    sensors are told when it did).  [now] is the monotonic clock; the IMU
    timestamp [hmd_ts] of the C function is used for a warning only. *)
Definition rift_tracker_update_exposure_locked (ctx : rift_tracker_ctx)
    (now exposure_count exposure_hmd_ts phase : Z)
  : outcome (rift_tracker_ctx * bool) :=
  let e := exposure_info ctx in
  let e :=
    if negb (led_pattern_phase e =? phase) then
      mk_exposure_info (local_ts e) (hmd_ts e) (count e) phase
        (info_n_devices e) (info_devices e)
    else e in
  if negb (count e =? exposure_count) then
    let e := mk_exposure_info now exposure_hmd_ts exposure_count phase
               (n_devices ctx) (info_devices e) in
    '(devs, infos) ←
      for_loop (fun i '(devs, infos) =>
          dev ← array_get devs i;
          dev_info ← array_get infos i;
          '(dev, dev_info) ← rift_tracked_device_update_exposure dev dev_info;
          let dev := rift_tracked_device_send_imu_debug dev in
          devs ← array_set devs i dev;
          infos ← array_set infos i dev_info;
          mret (devs, infos))
        0 (Z.to_nat (n_devices ctx)) (devices ctx, info_devices e);
    mret (mk_tracker true (set_info_devices e infos) devs (n_devices ctx), true)
  else
    mret (mk_tracker (have_exposure_info ctx) e (devices ctx) (n_devices ctx), false).

(** No accounting here: the pending IMU observations go to the debug sinks. *)
Definition rift_tracker_frame_captured (ctx : rift_tracker_ctx)
  : outcome rift_tracker_ctx :=
  devs ←
    for_loop (fun i devs =>
        dev ← array_get devs i;
        array_set devs i (rift_tracked_device_send_imu_debug dev))
      0 (Z.to_nat (n_devices ctx)) (devices ctx);
  mret (set_devices ctx devs).

End Operations.

(** A slot count is never negative, and a slot that frames use is valid. *)
Definition slot_ok (s : rift_tracker_pose_delay_slot) : Prop :=
  0 <= use_count s /\ (0 < use_count s -> valid s = true).

(** The ring of a device in good order: well formed, with every slot ok. *)
Definition ring_ok (dev : rift_tracked_device_priv) : Prop :=
  wf_device dev /\ Forall slot_ok (delay_slots dev).

(** The record of [dev] in the exposure info [e] has no delay slot of its own
    (any more): a frame that holds [e] has nothing to report to the filter or
    to release for [dev]. *)
Definition spent (dev : rift_tracked_device_priv) (e : rift_tracker_exposure_info)
  : Prop :=
  index dev < info_n_devices e ->
  exists r, info_devices e !! Z.to_nat (index dev) = Some r /\
            get_matching_delay_slot dev r = Done None.

End TrackerSetup.

(** ** rift-sensor.c: the circulation of the capture frames *)

Module SensorPipeline.
Import Pose Tracker TrackerSetup FrameQueue Sensor.


Section Pipeline.
Context `{Collaborators} `{SensorCollaborators} `{Libm}.

(** Field updates. *)
Definition set_cur_capture_frame (c : rift_sensor_ctx) (f : frame_ptr) :=
  mk_sensor (sensor_id c) (is_cv1 c) (frames c) (camera_matrix c) (dist_fisheye c)
    (dist_coeffs c) f (capture_frame_q c) (dropped_frames c)
    (fast_analysis_q c) (long_analysis_q c) (long_analysis_busy c)
    (have_camera_pose c) (camera_pose c).
Definition set_capture_frame_q (c : rift_sensor_ctx) (q : rift_sensor_frame_queue) :=
  mk_sensor (sensor_id c) (is_cv1 c) (frames c) (camera_matrix c) (dist_fisheye c)
    (dist_coeffs c) (cur_capture_frame c) q (dropped_frames c)
    (fast_analysis_q c) (long_analysis_q c) (long_analysis_busy c)
    (have_camera_pose c) (camera_pose c).
Definition set_dropped_frames (c : rift_sensor_ctx) (n : Z) :=
  mk_sensor (sensor_id c) (is_cv1 c) (frames c) (camera_matrix c) (dist_fisheye c)
    (dist_coeffs c) (cur_capture_frame c) (capture_frame_q c) n
    (fast_analysis_q c) (long_analysis_q c) (long_analysis_busy c)
    (have_camera_pose c) (camera_pose c).
Definition set_fast_analysis_q (c : rift_sensor_ctx) (q : rift_sensor_frame_queue) :=
  mk_sensor (sensor_id c) (is_cv1 c) (frames c) (camera_matrix c) (dist_fisheye c)
    (dist_coeffs c) (cur_capture_frame c) (capture_frame_q c) (dropped_frames c)
    q (long_analysis_q c) (long_analysis_busy c)
    (have_camera_pose c) (camera_pose c).
Definition set_long_analysis_q (c : rift_sensor_ctx) (q : rift_sensor_frame_queue) :=
  mk_sensor (sensor_id c) (is_cv1 c) (frames c) (camera_matrix c) (dist_fisheye c)
    (dist_coeffs c) (cur_capture_frame c) (capture_frame_q c) (dropped_frames c)
    (fast_analysis_q c) q (long_analysis_busy c)
    (have_camera_pose c) (camera_pose c).
Definition set_long_analysis_busy (c : rift_sensor_ctx) (b : bool) :=
  mk_sensor (sensor_id c) (is_cv1 c) (frames c) (camera_matrix c) (dist_fisheye c)
    (dist_coeffs c) (cur_capture_frame c) (capture_frame_q c) (dropped_frames c)
    (fast_analysis_q c) (long_analysis_q c) b
    (have_camera_pose c) (camera_pose c).

Definition set_frame_id (f : rift_sensor_capture_frame) (i : Z) :=
  mk_frame (start_ts f) i (exposure_info_valid f) (frame_exposure_info f) (bwobs f)
    (capture_state f) (frame_n_devices f) (need_long_analysis f)
    (long_analysis_found_new_blobs f).
Definition set_capture_state (f : rift_sensor_capture_frame)
    (l : list rift_sensor_frame_device_state) (n : Z) :=
  mk_frame (start_ts f) (frame_id f) (exposure_info_valid f) (frame_exposure_info f)
    (bwobs f) l n (need_long_analysis f) (long_analysis_found_new_blobs f).

(** The part of [rift_sensor_new] that sets up the frame pool: the flags, the
    three queues, the ids of the frames, and all frames sent to the capture
    thread.  [frames] is the array just allocated. *)
Definition rift_sensor_new_frames (sensor_ctx : rift_sensor_ctx)
  : outcome rift_sensor_ctx :=
  let sensor_ctx := set_camera_pose sensor_ctx false (camera_pose sensor_ctx) in
  let sensor_ctx := set_long_analysis_busy sensor_ctx false in
  (* Initialise frame queues *)
  let sensor_ctx :=
    set_capture_frame_q sensor_ctx (INIT_QUEUE (capture_frame_q sensor_ctx)) in
  let sensor_ctx :=
    set_fast_analysis_q sensor_ctx (INIT_QUEUE (fast_analysis_q sensor_ctx)) in
  let sensor_ctx :=
    set_long_analysis_q sensor_ctx (INIT_QUEUE (long_analysis_q sensor_ctx)) in
  sensor_ctx ←
    for_loop (fun i sensor_ctx =>
        frame ← array_get (frames sensor_ctx) i;
        l ← array_set (frames sensor_ctx) i (set_frame_id frame i);
        (* Send all frames to the capture thread to start *)
        q ← PUSH_QUEUE (capture_frame_q sensor_ctx) (Some (Z.to_nat i));
        mret (set_capture_frame_q (set_frames sensor_ctx l) q))
      0 (Z.to_nat NUM_CAPTURE_BUFFERS) sensor_ctx;
  mret (set_cur_capture_frame (set_dropped_frames sensor_ctx 0) None).








(** Where the frames of the pool are: being captured into, in one of the
    three queues, or in the hands of an analysis thread ([fast], [long]). *)
Definition held (f : frame_ptr) : list frame_ptr :=
  match f with
  | Some _ => [f]
  | None => []
  end.

Definition in_flight (sensor : rift_sensor_ctx) (fast long : frame_ptr)
  : list frame_ptr :=
  held (cur_capture_frame sensor)
  ++ queue_entries (capture_frame_q sensor)
  ++ queue_entries (fast_analysis_q sensor)
  ++ queue_entries (long_analysis_q sensor)
  ++ held fast ++ held long.

(** The pool in good order: four frames, each in exactly one place; the long
    analysis thread is busy exactly when it holds a frame; and at most one
    frame is queued for or undergoing long analysis. *)
Definition pool_ok (sensor : rift_sensor_ctx) (fast long : frame_ptr) : Prop :=
  length (frames sensor) = Z.to_nat NUM_CAPTURE_BUFFERS /\
  wf_queue (capture_frame_q sensor) /\
  wf_queue (fast_analysis_q sensor) /\
  wf_queue (long_analysis_q sensor) /\
  in_flight sensor fast long ≡ₚ [Some 0; Some 1; Some 2; Some 3]%nat /\
  long_analysis_busy sensor = bool_decide (long ≠ None) /\
  queue_count (long_analysis_q sensor)
    + (if long_analysis_busy sensor then 1 else 0) <= 1.


End Pipeline.

End SensorPipeline.

(** * Example inputs *)

Module Examples.
Import Pose Tracker FrameQueue Sensor.

(** An empty queue, and a full one. *)
Definition q_empty : rift_sensor_frame_queue :=
  mk_queue [None; None; None; None; None] 0 0.
Definition q_full : rift_sensor_frame_queue :=
  mk_queue [None; Some 0%nat; Some 1%nat; Some 2%nat; Some 3%nat] 1 0.

(** A device with slot 1 in use by one frame for the exposure at device-time
    1000, and records of that exposure and of an older one. *)
Definition pose_ex : posef := mk_posef vec3f_zero (mk_quatf 0%Q 0%Q 0%Q 1%Q).
Definition dev_ex (slots : list rift_tracker_pose_delay_slot) (time : Z)
  : rift_tracked_device_priv :=
  mk_dev 0 0 [] 0 slots pose_ex 0 time 0 pose_ex 0 pose_ex pose_ex
    exp_filter_pose_init [].
Definition info_ex (time k : Z) : rift_tracked_device_exposure_info :=
  mk_dev_info time k pose_ex vec3f_zero vec3f_zero.
Definition ring_ex (c : Z) : list rift_tracker_pose_delay_slot :=
  [mk_slot 0 false 0 0; mk_slot 1 true c 1000; mk_slot 2 false 0 0].

(** Collaborators to run the code with: a filter that reports a position
    moving with time, a pose algebra that does nothing, and an output filter
    with factor 1/2. *)
Definition collab_ex : Collaborators := {|
  rift_kalman_6dof_get_pose_at := fun _ t =>
    mk_ukf_estimate
      (mk_posef (mk_vec3f (inject_Z t) 2%Q 3%Q) (mk_quatf 0%Q 1%Q 0%Q 0%Q))
      (mk_vec3f 1%Q 1%Q 1%Q) (mk_vec3f 2%Q 2%Q 2%Q) vec3f_zero vec3f_zero;
  oposef_apply := fun a _ => a;
  oposef_apply_inverse := fun a _ => a;
  oposef_inverse := fun a => a;
  oposef_mirror_XZ := fun a => a;
  oquatf_get_rotated := fun _ v => v;
  oquatf_get_length := fun _ => 1%Q;
  RIFT_MAX_PENDING_IMU_OBSERVATIONS := 1000;
  exp_filter_alpha := fun _ => (1 # 2)%Q;
  exp_filter_quat := fun _ _ q => q
|}.

(** An IMU sample at rest. *)
Definition imu_sample_ex : imu_sample :=
  mk_imu_sample vec3f_zero vec3f_zero vec3f_zero.

(** A device whose pose was read at device-time 1000 and which is at
    device-time 600 ms now, with no pose observed in between. *)
Definition dev_lost_ex : rift_tracked_device_priv :=
  set_device_time
    (@rift_tracked_device_get_view_pose collab_ex (dev_ex (ring_ex 0) 1000)).1
    600000 600000000.

(** An EEPROM image with the doubles 1.0 to 9.0 at the nine offsets of the
    DK2 layout, and the readers serving it. *)
Definition byte_of_Z (z : Z) : Byte.byte :=
  default Byte.x00 (Byte.of_N (Z.to_N (z mod 256))).

Fixpoint le_split (n : nat) (z : Z) : list Byte.byte :=
  match n with
  | O => []
  | S n' => byte_of_Z z :: le_split n' (z / 256)
  end.

Definition dbl_1 : double := 0x3FF0000000000000.
Definition dbl_2 : double := 0x4000000000000000.
Definition dbl_3 : double := 0x4008000000000000.
Definition dbl_4 : double := 0x4010000000000000.
Definition dbl_5 : double := 0x4014000000000000.
Definition dbl_6 : double := 0x4018000000000000.
Definition dbl_7 : double := 0x401C000000000000.
Definition dbl_8 : double := 0x4020000000000000.
Definition dbl_9 : double := 0x4022000000000000.

(** fx, fy, cx, cy, k1, k2, p1, p2, k3 are 1.0, ..., 9.0. *)
Definition dk2_eeprom_ex : list Byte.byte :=
  repeat Byte.x00 18
  ++ concat (map (fun d => le_split 8 d ++ repeat Byte.x00 4)
               [dbl_1; dbl_2; dbl_3; dbl_4; dbl_5; dbl_6; dbl_7; dbl_8; dbl_9])
  ++ repeat Byte.x00 2.

Definition sensor_collab_ex : SensorCollaborators := {|
  CV1_PID := 0x0211;
  DK2_PID := 0x0201;
  pid_distinct := ltac:(discriminate);
  rift_sensor_esp770u_flash_read := fun _ _ => (-1, []);
  esp570_eeprom_read := fun addr len =>
    (0, take len (drop (Z.to_nat (addr - 0x2000)) dk2_eeprom_ex));
  double_of_float := fun z => z;
  blobservation := unit;
  rift_leds := unit;
  rift_evaluate_pose := fun _ _ _ _ _ _ _ _ => mk_pose_metrics 10 12 true true;
  DEG_TO_RAD := fun d => (d * (355 # 113) / (180 # 1))%Q
|}.

(** A sensor as [rift_sensor_new] has it before calibration: zeroed. *)
Definition sensor_ex : @rift_sensor_ctx sensor_collab_ex :=
  @mk_sensor sensor_collab_ex 0 false [] (repeat 0 9) false (repeat 0 5) None
    (mk_queue (repeat None 5) 0 0) 0 (mk_queue (repeat None 5) 0 0)
    (mk_queue (repeat None 5) 0 0) false false
    (mk_posef vec3f_zero (mk_quatf 0%Q 0%Q 0%Q 0%Q)).

(** A frame with a blob observation, and the HMD seen in it with a settled
    orientation and a gravity uncertainty of 0.1 rad. *)
Definition frame_ex : @rift_sensor_capture_frame sensor_collab_ex :=
  @mk_frame sensor_collab_ex 0 0 false
    (mk_exposure_info 0 0 0 0 0 []) (Some tt) [] 0 false false.
Definition dev_state_ex : rift_sensor_frame_device_state :=
  mk_dev_state pose_ex (1 # 10)%Q
    (mk_posef (mk_vec3f 0%Q 0%Q 1%Q) (mk_quatf 0%Q 0%Q 0%Q 1%Q))
    false (mk_pose_metrics 0 0 false false).

(** The scenario of the spec: a frame started with exposure 7 is being
    captured (at 1 s); exposure 8 arrives 3 ms after the start of the frame,
    or 6 ms after it.  The HMD holds slot 1 for exposure 7, used by this
    frame, and slot 2 for exposure 8. *)
Definition ring_patch_ex : list rift_tracker_pose_delay_slot :=
  [mk_slot 0 false 0 0; mk_slot 1 true 1 1000; mk_slot 2 true 0 1500].
Definition exposure_7_ex : rift_tracker_exposure_info :=
  mk_exposure_info 999000000 7000 7 0 1 [info_ex 1000 1].
Definition exposure_8_ex (ms : Z) : rift_tracker_exposure_info :=
  mk_exposure_info (1000000000 + ms * 1000000) 8000 8 1 1 [info_ex 1500 2].
Definition tracker_patch_ex : rift_tracker_ctx :=
  mk_tracker true exposure_7_ex [dev_ex ring_patch_ex 2000] 1.
Definition frame_patch_ex : @rift_sensor_capture_frame sensor_collab_ex :=
  @mk_frame sensor_collab_ex 1000000000 0 true exposure_7_ex None [] 0 false false.
Definition sensor_patch_ex : @rift_sensor_ctx sensor_collab_ex :=
  @mk_sensor sensor_collab_ex 0 false [frame_patch_ex] (repeat 0 9) false
    (repeat 0 5) (Some 0%nat)
    (mk_queue (repeat None 5) 0 0) 0 (mk_queue (repeat None 5) 0 0)
    (mk_queue (repeat None 5) 0 0) false false
    (mk_posef vec3f_zero (mk_quatf 0%Q 0%Q 0%Q 0%Q)).

End Examples.

(** ** More example inputs *)

Module MoreExamples.
Import Pose Tracker FrameQueue Sensor Examples.

(** A ring with every slot in use, and a device holding it at device-time 40. *)
Definition ring_busy_ex : list rift_tracker_pose_delay_slot :=
  [mk_slot 0 true 1 10; mk_slot 1 true 2 20; mk_slot 2 true 1 30].
Definition dev_busy_ex : rift_tracked_device_priv := dev_ex ring_busy_ex 40.

(** The device of [dev_ex] with its round-robin index at slot 1. *)
Definition dev_at_1_ex (c : Z) : rift_tracked_device_priv :=
  set_delay_slot_index (dev_ex (ring_ex c) 2000) 1.

(** A device whose raw IMU timestamp is 100 us short of wrapping around, at
    device-time 5000 ns. *)
Definition dev_wrap_ex : rift_tracked_device_priv :=
  set_device_time (dev_ex (ring_ex 0) 0) (2 ^ 32 - 100) 5000.

(** A CV1 flash image with the floats 1.0, 2.0, 3.0 for f, cx, cy at offsets
    0x30 to 0x38 and 4.0 to 7.0 for k1 to k4 at offsets 0x48 to 0x54, the
    readers serving it, and a zeroed sensor for them. *)
Definition cv1_flash_ex : list Byte.byte :=
  repeat Byte.x00 48
  ++ concat (map (le_split 4) [0x3F800000; 0x40000000; 0x40400000])
  ++ repeat Byte.x00 12
  ++ concat (map (le_split 4) [0x40800000; 0x40A00000; 0x40C00000; 0x40E00000])
  ++ repeat Byte.x00 40.

Definition sensor_collab_cv1_ex : SensorCollaborators := {|
  CV1_PID := 0x0211;
  DK2_PID := 0x0201;
  pid_distinct := ltac:(discriminate);
  rift_sensor_esp770u_flash_read := fun _ len => (0, take len cv1_flash_ex);
  esp570_eeprom_read := fun _ _ => (-1, []);
  double_of_float := fun z => z;
  blobservation := unit;
  rift_leds := unit;
  rift_evaluate_pose := fun _ _ _ _ _ _ _ _ => mk_pose_metrics 10 12 true true;
  DEG_TO_RAD := fun d => (d * (355 # 113) / (180 # 1))%Q
|}.

Definition sensor_cv1_ex : @rift_sensor_ctx sensor_collab_cv1_ex :=
  @mk_sensor sensor_collab_cv1_ex 0 true [] (repeat 0 9) false (repeat 0 5) None
    (mk_queue (repeat None 5) 0 0) 0 (mk_queue (repeat None 5) 0 0)
    (mk_queue (repeat None 5) 0 0) false false
    (mk_posef vec3f_zero (mk_quatf 0%Q 0%Q 0%Q 0%Q)).

(** A sensor that has its camera pose, a frame of exposure 7 with a blob
    observation, and the state a pose evaluation leaves for a device seen in
    it. *)
Definition sensor_located_ex : @rift_sensor_ctx sensor_collab_ex :=
  set_camera_pose sensor_ex true pose_ex.
Definition frame_7_ex : @rift_sensor_capture_frame sensor_collab_ex :=
  set_frame_exposure_info frame_ex true exposure_7_ex.
Definition dev_state_seen_ex : rift_sensor_frame_device_state :=
  set_score dev_state_ex (mk_pose_metrics 10 12 true true).

(** A tracker with room for two devices and one device registered, before
    any exposure; the second entry is still zeroed memory. *)
Definition dev_zero_ex : rift_tracked_device_priv :=
  mk_dev 0 1 [] 0 [mk_slot 0 false 0 0; mk_slot 0 false 0 0; mk_slot 0 false 0 0]
    pose_ex 0 0 0 pose_ex 0 pose_ex pose_ex exp_filter_pose_init [].
Definition tracker_two_ex : rift_tracker_ctx :=
  mk_tracker false
    (mk_exposure_info 0 0 0 0 0 [info_ex 0 0; info_ex 0 0])
    [dev_ex (ring_ex 0) 2000; dev_zero_ex] 1.

Definition frame_room_ex : @rift_sensor_capture_frame sensor_collab_ex :=
  SensorPipeline.set_capture_state frame_ex [dev_state_ex] 0.
Definition sensor_four_ex : @rift_sensor_ctx sensor_collab_ex :=
  set_frames sensor_ex (repeat frame_room_ex 4).



End MoreExamples.

(** * Properties *)

(** ** C integers and arrays *)

Lemma u32_range z : 0 <= u32 z < 2 ^ 32.
Proof. unfold u32. apply Z.mod_pos_bound. lia. Qed.

Lemma u64_range z : 0 <= u64 z < 2 ^ 64.
Proof. unfold u64. apply Z.mod_pos_bound. lia. Qed.

Lemma u64_small z : 0 <= z < 2 ^ 64 -> u64 z = z.
Proof. intros Hz. unfold u64. apply Z.mod_small. exact Hz. Qed.

Lemma u32_small z : 0 <= z < 2 ^ 32 -> u32 z = z.
Proof. intros Hz. unfold u32. apply Z.mod_small. exact Hz. Qed.

Lemma array_get_Done {A} (a : list A) i x :
  0 <= i -> a !! Z.to_nat i = Some x -> array_get a i = Done x.
Proof.
  intros Hi Hx. unfold array_get.
  destruct (Z.ltb_spec i 0); [lia|]. now rewrite Hx.
Qed.

Lemma array_get_inv {A} (a : list A) i x :
  array_get a i = Done x -> 0 <= i /\ a !! Z.to_nat i = Some x.
Proof.
  unfold array_get. destruct (Z.ltb_spec i 0); [discriminate|].
  destruct (a !! Z.to_nat i) eqn:E; [|discriminate].
  intros [= ->]. split; [lia|reflexivity].
Qed.

Lemma array_set_Done {A} (a : list A) i x :
  0 <= i -> (Z.to_nat i < length a)%nat ->
  array_set a i x = Done (<[Z.to_nat i := x]> a).
Proof.
  intros Hi Hl. unfold array_set.
  destruct (Z.ltb_spec i 0); [lia|].
  destruct (Nat.ltb_spec (Z.to_nat i) (length a)); [reflexivity|lia].
Qed.

Lemma outcome_bind_Done {A B} (m : outcome A) (f : A -> outcome B) a :
  m = Done a -> m ≫= f = f a.
Proof. intros ->. reflexivity. Qed.

Lemma array_set_after_get {A} (a : list A) i x y :
  array_get a i = Done x -> array_set a i y = Done (<[Z.to_nat i := y]> a).
Proof.
  intros Hg. apply array_get_inv in Hg as [Hi Hx].
  apply array_set_Done; [exact Hi|]. eapply lookup_lt_Some. exact Hx.
Qed.

(** ** The frame queue *)

Module FrameQueueFacts.
Import FrameQueue Examples.

(** A well-formed queue is one of finitely many shapes: five cells and two
    indices below five. *)
Ltac queue_shape q Hwf :=
  let d := fresh "d" in let h := fresh "h" in let t := fresh "t" in
  let Hl := fresh "Hl" in let Hh := fresh "Hh" in let Ht := fresh "Ht" in
  destruct q as [d h t]; destruct Hwf as (Hl & Hh & Ht);
  unfold QUEUE_SIZE, NUM_CAPTURE_BUFFERS in Hl, Hh, Ht; simpl in Hl, Hh, Ht;
  do 5 (destruct d as [|? d]; [discriminate Hl|]);
  destruct d; [|discriminate Hl]; clear Hl;
  assert (h = 0 \/ h = 1 \/ h = 2 \/ h = 3 \/ h = 4) as Hh' by lia;
  assert (t = 0 \/ t = 1 \/ t = 2 \/ t = 3 \/ t = 4) as Ht' by lia;
  clear Hh Ht;
  destruct Hh' as [-> | [-> | [-> | [-> | ->]]]];
  destruct Ht' as [-> | [-> | [-> | [-> | ->]]]].

Lemma wf_INIT_QUEUE q :
  length (data q) = Z.to_nat QUEUE_SIZE -> wf_queue (INIT_QUEUE q).
Proof. intros Hl. repeat split; try exact Hl; simpl; reflexivity || discriminate. Qed.

Lemma queue_count_range q : 0 <= queue_count q <= NUM_CAPTURE_BUFFERS.
Proof.
  unfold queue_count, QUEUE_SIZE, NUM_CAPTURE_BUFFERS.
  change (4 + 1) with 5.
  pose proof (Z.mod_pos_bound (tail q - head q) 5). lia.
Qed.

Lemma queue_count_0 q : wf_queue q -> queue_count q = 0 <-> tail q = head q.
Proof.
  intros Hwf. queue_shape q Hwf; vm_compute; split; congruence.
Qed.

(** Pushing appends an entry, and leaves a well-formed queue. *)
Lemma PUSH_QUEUE_spec q f :
  wf_queue q -> queue_count q < NUM_CAPTURE_BUFFERS ->
  exists q1, PUSH_QUEUE q (Some f) = Done q1 /\ wf_queue q1 /\
    head q1 = head q /\
    queue_count q1 = queue_count q + 1 /\
    queue_entries q1 = queue_entries q ++ [Some f].
Proof.
  intros Hwf Hc.
  queue_shape q Hwf; vm_compute in Hc; try discriminate Hc;
    (eexists; split; [vm_compute; reflexivity|]);
    (split; [repeat split; discriminate || reflexivity|]);
    repeat split; reflexivity.
Qed.

(** Popping takes the oldest entry. *)
Lemma POP_QUEUE_spec q :
  wf_queue q -> 0 < queue_count q ->
  exists f q1, POP_QUEUE q = Done (f, q1) /\ wf_queue q1 /\
    queue_entries q = f :: queue_entries q1.
Proof.
  intros Hwf Hc.
  queue_shape q Hwf; vm_compute in Hc; try discriminate Hc;
    (do 2 eexists; split; [vm_compute; reflexivity|]);
    (split; [repeat split; discriminate || reflexivity|]);
    reflexivity.
Qed.

(** Rewinding takes the newest entry. *)
Lemma REWIND_QUEUE_spec q :
  wf_queue q -> 0 < queue_count q ->
  exists f q1, REWIND_QUEUE q = Done (f, q1) /\ wf_queue q1 /\
    head q1 = head q /\
    queue_entries q = queue_entries q1 ++ [f].
Proof.
  intros Hwf Hc.
  queue_shape q Hwf; vm_compute in Hc; try discriminate Hc;
    (do 2 eexists; split; [vm_compute; reflexivity|]);
    (split; [repeat split; discriminate || reflexivity|]);
    split; reflexivity.
Qed.

(** Queues in the same state cannot be told apart by the operations. *)
Lemma queue_equiv_ops q q' :
  wf_queue q -> wf_queue q' -> queue_equiv q q' ->
  (forall f, outcome_rel queue_equiv (PUSH_QUEUE q f) (PUSH_QUEUE q' f)) /\
  outcome_rel (fun a b => a.1 = b.1 /\ queue_equiv a.2 b.2)
    (POP_QUEUE q) (POP_QUEUE q') /\
  outcome_rel (fun a b => a.1 = b.1 /\ queue_equiv a.2 b.2)
    (REWIND_QUEUE q) (REWIND_QUEUE q').
Proof.
  intros Hwf Hwf' (Hh & Ht & He).
  destruct q' as [d' h' t']. simpl in Hh, Ht. subst h' t'.
  destruct Hwf' as (Hl' & _). simpl in Hl'.
  change (Z.to_nat QUEUE_SIZE) with 5%nat in Hl'.
  do 5 (destruct d' as [|? d']; [discriminate Hl'|]).
  destruct d'; [clear Hl'|discriminate Hl'].
  queue_shape q Hwf; vm_compute in He; simplify_eq;
    (split; [intros [?|]; vm_compute; auto|]); split; vm_compute; auto.
Qed.

(** C7. The fixed-capacity frame queue: pushing a frame onto a queue that
    holds fewer than 4 entries and then rewinding returns that same frame and
    puts the queue back in its prior state (the same indices and entries;
    the pushed pointer stays behind in the unused cell after the newest
    entry); pop on an empty queue returns nothing, and so does rewind; and
    push onto a queue that already holds 4 entries fails the assertion that
    checks there is room. *)
Theorem frame_queue_push_rewind_pop (q : rift_sensor_frame_queue) (f : nat) :
  wf_queue q ->
  (queue_count q < NUM_CAPTURE_BUFFERS ->
     exists q1 q2,
       PUSH_QUEUE q (Some f) = Done q1 /\
       REWIND_QUEUE q1 = Done (Some f, q2) /\
       queue_equiv q2 q /\
       data q2 = <[Z.to_nat (tail q) := Some f]> (data q)) /\
  (queue_count q = 0 ->
     POP_QUEUE q = Done (None, q) /\ REWIND_QUEUE q = Done (None, q)) /\
  (queue_count q = NUM_CAPTURE_BUFFERS ->
     PUSH_QUEUE q (Some f) = AssertFailed).
Proof.
  intros Hwf. split; [|split].
  - intros Hc.
    queue_shape q Hwf; vm_compute in Hc; try discriminate Hc;
      (do 2 eexists; split; [vm_compute; reflexivity|]);
      (split; [vm_compute; reflexivity|]);
      (split; [repeat split; reflexivity | reflexivity]).
  - intros Hc. apply queue_count_0 in Hc; [|exact Hwf].
    unfold POP_QUEUE, REWIND_QUEUE. rewrite Hc, Z.eqb_refl. split; reflexivity.
  - intros Hc.
    queue_shape q Hwf; vm_compute in Hc; try discriminate Hc; reflexivity.
Qed.

Lemma frame_queue_push_rewind_pop_witness :
  (exists q1 q2,
     PUSH_QUEUE q_empty (Some 3%nat) = Done q1 /\
     REWIND_QUEUE q1 = Done (Some 3%nat, q2) /\
     queue_equiv q2 q_empty /\
     data q2 = <[Z.to_nat (tail q_empty) := Some 3%nat]> (data q_empty)) /\
  (POP_QUEUE q_empty = Done (None, q_empty) /\
   REWIND_QUEUE q_empty = Done (None, q_empty)) /\
  PUSH_QUEUE q_full (Some 3%nat) = AssertFailed.
Proof.
  assert (wf_queue q_empty) as We
    by (repeat split; simpl; reflexivity || discriminate).
  assert (wf_queue q_full) as Wf
    by (repeat split; simpl; reflexivity || discriminate).
  destruct (frame_queue_push_rewind_pop q_empty 3%nat We) as (A & B & _).
  destruct (frame_queue_push_rewind_pop q_full 3%nat Wf) as (_ & _ & C).
  split; [apply A; reflexivity|].
  split; [apply B; reflexivity|].
  apply C; reflexivity.
Defined.

End FrameQueueFacts.

(** ** Delay slots *)

Module TrackerFacts.
Import Pose Tracker Examples.

(** A well-formed ring has three slots; a record's slot number is one of
    four values. *)
Ltac ring_shape dev Hwf :=
  let Hl := fresh "Hl" in let Hid := fresh "Hid" in let Hix := fresh "Hix" in
  destruct dev as [? ? ? ?ix slots ? ? ? ? ? ? ? ? ? ?];
  destruct Hwf as (Hl & Hid & Hix);
  unfold NUM_POSE_DELAY_SLOTS in Hl, Hix; simpl in Hl, Hid, Hix;
  do 3 (destruct slots as [|[? ? ? ?] slots]; [discriminate Hl|]);
  destruct slots; [clear Hl|discriminate Hl];
  pose proof (Hid 0%nat _ eq_refl) as ?Hid0;
  pose proof (Hid 1%nat _ eq_refl) as ?Hid1;
  pose proof (Hid 2%nat _ eq_refl) as ?Hid2;
  clear Hid; simpl in *; subst.

Ltac slot_number k Hk :=
  unfold wf_dev_info, NUM_POSE_DELAY_SLOTS in Hk; simpl in Hk;
  let Hk' := fresh "Hk" in
  assert (k = -1 \/ k = 0 \/ k = 1 \/ k = 2) as Hk' by lia; clear Hk;
  destruct Hk' as [-> | [-> | [-> | ->]]].

Lemma get_matching_delay_slot_spec dev dev_info :
  wf_device dev -> wf_dev_info dev_info ->
  get_matching_delay_slot dev dev_info =
  Done (if fusion_slot dev_info =? -1 then None
        else match delay_slots dev !! Z.to_nat (fusion_slot dev_info) with
             | Some s => if slot_matches s dev_info
                         then Some (fusion_slot dev_info) else None
             | None => None
             end).
Proof.
  intros Hwf Hk. ring_shape dev Hwf.
  destruct dev_info as [t k ? ? ?]. slot_number k Hk;
    unfold get_matching_delay_slot, slot_matches; simpl;
    repeat match goal with |- context [if ?b then _ else _] => destruct b end;
    reflexivity.
Qed.

Lemma set_fusion_slot_same dev_info :
  set_fusion_slot dev_info (fusion_slot dev_info) = dev_info.
Proof. destruct dev_info; reflexivity. Qed.

(** Claim, when the slot is still the record's. *)
Lemma claim_match dev dev_info s :
  wf_device dev -> wf_dev_info dev_info ->
  fusion_slot dev_info <> -1 ->
  delay_slots dev !! Z.to_nat (fusion_slot dev_info) = Some s ->
  slot_matches s dev_info = true ->
  use_count s < INT_MAX ->
  rift_tracked_device_exposure_claim dev dev_info =
  Done (set_delay_slots dev
          (<[Z.to_nat (fusion_slot dev_info) := set_use_count s (use_count s + 1)]>
             (delay_slots dev)),
        dev_info).
Proof.
  intros Hwf Hk Hne Hs Hm Hc.
  unfold rift_tracked_device_exposure_claim.
  rewrite (get_matching_delay_slot_spec _ _ Hwf Hk).
  destruct (Z.eqb_spec (fusion_slot dev_info) (-1)) as [|_]; [contradiction|].
  rewrite Hs, Hm. simpl.
  assert (0 <= fusion_slot dev_info) as Hk0 by (unfold wf_dev_info in Hk; lia).
  rewrite (array_get_Done _ _ s Hk0 Hs). simpl.
  destruct (Z.eqb_spec (use_count s) INT_MAX) as [E|_]; [lia|].
  rewrite array_set_Done; [|exact Hk0|eapply lookup_lt_Some; exact Hs]. simpl.
  destruct Hwf as (_ & Hid & _). rewrite (Hid _ _ Hs), Z2Nat.id by exact Hk0.
  rewrite set_fusion_slot_same. reflexivity.
Qed.

(** Claim, when the record names no slot or the slot is no longer its own. *)
Lemma claim_lost dev dev_info :
  wf_device dev -> wf_dev_info dev_info ->
  (fusion_slot dev_info = -1 \/
   exists s, delay_slots dev !! Z.to_nat (fusion_slot dev_info) = Some s /\
             slot_matches s dev_info = false) ->
  rift_tracked_device_exposure_claim dev dev_info =
  Done (dev, set_fusion_slot dev_info (-1)).
Proof.
  intros Hwf Hk Hcase.
  unfold rift_tracked_device_exposure_claim.
  rewrite (get_matching_delay_slot_spec _ _ Hwf Hk).
  destruct (Z.eqb_spec (fusion_slot dev_info) (-1)) as [E|Hne].
  - simpl. rewrite <- E, set_fusion_slot_same. reflexivity.
  - destruct Hcase as [Hm | (s & Hs & Hno)]; [contradiction|].
    rewrite Hs, Hno. simpl.
    destruct (Z.eqb_spec (fusion_slot dev_info) (-1)); [contradiction|].
    reflexivity.
Qed.

(** A record that names a slot beyond the ring trips the assertion. *)
Lemma claim_beyond_ring dev dev_info :
  NUM_POSE_DELAY_SLOTS <= fusion_slot dev_info ->
  rift_tracked_device_exposure_claim dev dev_info = AssertFailed /\
  rift_tracked_device_exposure_release_locked dev dev_info = AssertFailed.
Proof.
  intros Hk.
  unfold rift_tracked_device_exposure_claim,
    rift_tracked_device_exposure_release_locked, get_matching_delay_slot.
  unfold NUM_POSE_DELAY_SLOTS in *.
  destruct (Z.eqb_spec (fusion_slot dev_info) (-1)); [lia|].
  destruct (Z.ltb_spec (fusion_slot dev_info) 3); [lia|].
  split; reflexivity.
Qed.

Lemma slot_matches_true s dev_info :
  slot_matches s dev_info = true <->
  valid s = true /\ slot_device_time_ns s = info_device_time_ns dev_info.
Proof.
  unfold slot_matches. rewrite andb_true_iff, Z.eqb_eq. reflexivity.
Qed.

Lemma slot_matches_false s dev_info :
  slot_matches s dev_info = false <->
  valid s = false \/ slot_device_time_ns s <> info_device_time_ns dev_info.
Proof.
  unfold slot_matches. rewrite andb_false_iff, Z.eqb_neq. reflexivity.
Qed.

(** C2. Claim looks up the delay slot whose id is the record's
    [fusion_slot].  If that id is not -1, the slot is valid and the slot's
    device-time equals the record's, the slot's [use_count] goes up by one
    (the count being an [int] below [INT_MAX]) and nothing else in the ring
    changes.  Otherwise the record's [fusion_slot] is set to -1 and the
    device, with every [use_count], stays as it was. *)
Theorem exposure_claim_spec
    (dev : rift_tracked_device_priv) (dev_info : rift_tracked_device_exposure_info) :
  wf_device dev -> wf_dev_info dev_info ->
  (forall s,
     fusion_slot dev_info <> -1 ->
     delay_slots dev !! Z.to_nat (fusion_slot dev_info) = Some s ->
     valid s = true ->
     slot_device_time_ns s = info_device_time_ns dev_info ->
     use_count s < INT_MAX ->
     rift_tracked_device_exposure_claim dev dev_info =
     Done (set_delay_slots dev
             (<[Z.to_nat (fusion_slot dev_info) := set_use_count s (use_count s + 1)]>
                (delay_slots dev)),
           dev_info)) /\
  ((fusion_slot dev_info = -1 \/
    exists s, delay_slots dev !! Z.to_nat (fusion_slot dev_info) = Some s /\
              (valid s = false \/
               slot_device_time_ns s <> info_device_time_ns dev_info)) ->
   rift_tracked_device_exposure_claim dev dev_info =
   Done (dev, set_fusion_slot dev_info (-1))).
Proof.
  intros Hwf Hk. split.
  - intros s Hne Hs Hv Ht Hc. apply claim_match; try assumption.
    apply slot_matches_true. split; assumption.
  - intros [Hm | (s & Hs & Hno)]; apply claim_lost; try assumption.
    + left. exact Hm.
    + right. exists s. split; [exact Hs|]. apply slot_matches_false. exact Hno.
Qed.

Lemma wf_dev_ex c t : wf_device (dev_ex (ring_ex c) t).
Proof.
  repeat split; try reflexivity; try discriminate.
  intros [|[|[|k]]] s; simpl; intros [= <-]; reflexivity.
Qed.

Lemma exposure_claim_spec_witness :
  rift_tracked_device_exposure_claim (dev_ex (ring_ex 1) 2000) (info_ex 1000 1) =
    Done (dev_ex (ring_ex 2) 2000, info_ex 1000 1) /\
  rift_tracked_device_exposure_claim (dev_ex (ring_ex 1) 2000) (info_ex 999 1) =
    Done (dev_ex (ring_ex 1) 2000, info_ex 999 (-1)).
Proof.
  assert (forall t, wf_dev_info (info_ex t 1)) as Wi
    by (intros t; unfold wf_dev_info, NUM_POSE_DELAY_SLOTS; simpl; lia).
  destruct (exposure_claim_spec (dev_ex (ring_ex 1) 2000) (info_ex 1000 1)
              (wf_dev_ex 1 2000) (Wi 1000)) as [A _].
  destruct (exposure_claim_spec (dev_ex (ring_ex 1) 2000) (info_ex 999 1)
              (wf_dev_ex 1 2000) (Wi 999)) as [_ B].
  split.
  - apply (A (mk_slot 1 true 1 1000)); simpl; try reflexivity; try discriminate.
  - apply B. right. exists (mk_slot 1 true 1 1000).
    split; [reflexivity|]. right. simpl. discriminate.
Defined.

(** Release, when the slot is still the record's. *)
Lemma release_match dev dev_info s :
  wf_device dev -> wf_dev_info dev_info ->
  fusion_slot dev_info <> -1 ->
  delay_slots dev !! Z.to_nat (fusion_slot dev_info) = Some s ->
  slot_matches s dev_info = true ->
  rift_tracked_device_exposure_release_locked dev dev_info =
  Done (set_delay_slots
          (if use_count (released s) =? 0
           then ukf_tell dev (ukf_release_delay_slot (fusion_slot dev_info))
           else dev)
          (<[Z.to_nat (fusion_slot dev_info) := released s]> (delay_slots dev)),
        set_fusion_slot dev_info (-1)).
Proof.
  intros Hwf Hk Hne Hs Hm.
  unfold rift_tracked_device_exposure_release_locked.
  rewrite (get_matching_delay_slot_spec _ _ Hwf Hk).
  destruct (Z.eqb_spec (fusion_slot dev_info) (-1)) as [|_]; [contradiction|].
  rewrite Hs, Hm. simpl.
  assert (0 <= fusion_slot dev_info) as Hk0 by (unfold wf_dev_info in Hk; lia).
  rewrite (array_get_Done _ _ s Hk0 Hs). simpl.
  destruct Hwf as (_ & Hid & _). pose proof (Hid _ _ Hs) as Hsid.
  rewrite Z2Nat.id in Hsid by exact Hk0.
  assert (Z.to_nat (fusion_slot dev_info) < length (delay_slots dev))%nat as Hlt
    by (eapply lookup_lt_Some; exact Hs).
  unfold released.
  destruct (use_count s >? 0) eqn:Hpos;
    [destruct (use_count (set_use_count s (use_count s - 1)) =? 0) eqn:Hz
    |destruct (use_count s =? 0) eqn:Hz];
    simpl in Hz |- *; rewrite ?Hz; simpl;
    (rewrite array_set_Done; [|exact Hk0|exact Hlt]); simpl;
    rewrite ?Hsid; reflexivity.
Qed.

(** Release, when the record names no slot or the slot is no longer its own:
    nothing happens. *)
Lemma release_none dev dev_info :
  wf_device dev -> wf_dev_info dev_info ->
  (fusion_slot dev_info = -1 \/
   exists s, delay_slots dev !! Z.to_nat (fusion_slot dev_info) = Some s /\
             slot_matches s dev_info = false) ->
  rift_tracked_device_exposure_release_locked dev dev_info = Done (dev, dev_info).
Proof.
  intros Hwf Hk Hcase.
  unfold rift_tracked_device_exposure_release_locked.
  rewrite (get_matching_delay_slot_spec _ _ Hwf Hk).
  destruct (Z.eqb_spec (fusion_slot dev_info) (-1)) as [E|Hne]; [reflexivity|].
  destruct Hcase as [Hm | (s & Hs & Hno)]; [contradiction|].
  rewrite Hs, Hno. reflexivity.
Qed.

(** A record names the slot at its number, matching or not. *)
Lemma slot_cases dev dev_info :
  wf_device dev -> wf_dev_info dev_info ->
  fusion_slot dev_info = -1 \/
  exists s, fusion_slot dev_info <> -1 /\
            delay_slots dev !! Z.to_nat (fusion_slot dev_info) = Some s.
Proof.
  intros (Hl & _ & _) Hk. unfold wf_dev_info, NUM_POSE_DELAY_SLOTS in *.
  destruct (Z.eq_dec (fusion_slot dev_info) (-1)) as [E|Hne]; [left; exact E|].
  right. destruct (lookup_lt_is_Some_2 (delay_slots dev)
                     (Z.to_nat (fusion_slot dev_info))) as [s Hs]; [lia|].
  exists s. split; assumption.
Qed.

(** Writing a slot that keeps its id keeps the ring well formed. *)
Lemma wf_device_set_slot dev k s s' u :
  wf_device dev -> delay_slots dev !! k = Some s -> slot_id s' = slot_id s ->
  wf_device (set_delay_slots (set_ukf_fusion dev u) (<[k := s']> (delay_slots dev))) /\
  wf_device (set_delay_slots dev (<[k := s']> (delay_slots dev))).
Proof.
  intros (Hl & Hid & Hix) Hs Hsid.
  assert (forall j x, <[k := s']> (delay_slots dev) !! j = Some x ->
                      slot_id x = Z.of_nat j) as Hid'.
  { intros j x Hj. destruct (decide (k = j)) as [<-|Hne].
    - rewrite list_lookup_insert_eq in Hj by (eapply lookup_lt_Some; exact Hs).
      injection Hj as <-. rewrite Hsid. apply (Hid _ _ Hs).
    - rewrite list_lookup_insert_ne in Hj by exact Hne. apply (Hid _ _ Hj). }
  split; (split; [|split]); simpl;
    try (rewrite length_insert; exact Hl); try exact Hid'; try exact Hix.
Qed.

Lemma released_count s :
  use_count (released s) = if use_count s >? 0 then use_count s - 1 else use_count s.
Proof.
  unfold released.
  destruct (use_count s >? 0);
    match goal with |- context [if ?b then _ else _] => destruct b end; reflexivity.
Qed.

Lemma released_slot_id s : slot_id (released s) = slot_id s.
Proof.
  unfold released.
  destruct (use_count s >? 0);
    match goal with |- context [if ?b then _ else _] => destruct b end; reflexivity.
Qed.

(** Release always completes on a well-formed device and record, and leaves
    them well formed. *)
Lemma release_total dev dev_info :
  wf_device dev -> wf_dev_info dev_info ->
  exists dev1 info1,
    rift_tracked_device_exposure_release_locked dev dev_info = Done (dev1, info1) /\
    wf_device dev1 /\ wf_dev_info info1 /\
    ((exists s, fusion_slot dev_info <> -1 /\
                delay_slots dev !! Z.to_nat (fusion_slot dev_info) = Some s /\
                slot_matches s dev_info = true /\
                fusion_slot info1 = -1 /\
                delay_slots dev1 =
                  <[Z.to_nat (fusion_slot dev_info) := released s]> (delay_slots dev))
     \/ (dev1 = dev /\ info1 = dev_info /\
         (fusion_slot dev_info = -1 \/
          exists s, delay_slots dev !! Z.to_nat (fusion_slot dev_info) = Some s /\
                    slot_matches s dev_info = false))).
Proof.
  intros Hwf Hk.
  destruct (slot_cases dev dev_info Hwf Hk) as [E | (s & Hne & Hs)].
  - exists dev, dev_info. rewrite release_none by (auto). auto 10.
  - destruct (slot_matches s dev_info) eqn:Hm.
    + rewrite (release_match dev dev_info s) by assumption.
      do 2 eexists. split; [reflexivity|].
      split; [|split].
      * destruct (use_count (released s) =? 0).
        -- unfold ukf_tell.
           eapply (proj1 (wf_device_set_slot dev _ s (released s) _ Hwf Hs
                            (released_slot_id s))).
        -- eapply (proj2 (wf_device_set_slot dev _ s (released s) [] Hwf Hs
                            (released_slot_id s))).
      * unfold wf_dev_info, NUM_POSE_DELAY_SLOTS. simpl. lia.
      * left. exists s. repeat split; assumption.
    + exists dev, dev_info. rewrite release_none by (eauto). eauto 10.
Qed.

(** C9. Release is idempotent.  A release that matches a delay slot sets the
    record's [fusion_slot] to -1, so that a second release with the same
    record changes nothing: the device, with every slot's [use_count] and
    validity, is left as the first release left it.  And release does not
    decrement a [use_count] that is 0 already: a count that is not negative
    stays so. *)
Theorem exposure_release_idempotent
    (dev : rift_tracked_device_priv) (dev_info : rift_tracked_device_exposure_info) :
  wf_device dev -> wf_dev_info dev_info ->
  exists dev1 info1,
    rift_tracked_device_exposure_release_locked dev dev_info = Done (dev1, info1) /\
    (forall s, fusion_slot dev_info <> -1 ->
               delay_slots dev !! Z.to_nat (fusion_slot dev_info) = Some s ->
               valid s = true ->
               slot_device_time_ns s = info_device_time_ns dev_info ->
               fusion_slot info1 = -1) /\
    rift_tracked_device_exposure_release_locked dev1 info1 = Done (dev1, info1) /\
    (forall j s, delay_slots dev !! j = Some s ->
       exists s1, delay_slots dev1 !! j = Some s1 /\
                  (use_count s = 0 -> use_count s1 = 0) /\
                  (0 <= use_count s -> 0 <= use_count s1)).
Proof.
  intros Hwf Hk.
  destruct (release_total dev dev_info Hwf Hk)
    as (dev1 & info1 & Hr & Hwf1 & Hk1 & Hcase).
  exists dev1, info1. split; [exact Hr|].
  destruct Hcase as [(s & Hne & Hs & Hm & Hf & Hslots) | (-> & -> & Hno)].
  - split; [intros; exact Hf|]. split.
    + apply release_none; auto.
    + intros j x Hj. rewrite Hslots.
      destruct (decide (Z.to_nat (fusion_slot dev_info) = j)) as [<-|Hnej].
      * rewrite list_lookup_insert_eq by (eapply lookup_lt_Some; exact Hs).
        exists (released s). split; [reflexivity|].
        rewrite Hs in Hj. injection Hj as <-.
        rewrite released_count.
        destruct (Z.gtb_spec (use_count s) 0); split; lia.
      * rewrite list_lookup_insert_ne by exact Hnej. exists x. auto.
  - split.
    + intros s Hne Hs Hv Ht. destruct Hno as [E | (s' & Hs' & Hm)]; [contradiction|].
      rewrite Hs in Hs'. injection Hs' as <-.
      apply slot_matches_false in Hm. destruct Hm; congruence.
    + split; [exact Hr|]. intros j x Hj. exists x. auto.
Qed.

Lemma exposure_release_idempotent_witness :
  exists dev1 info1,
    rift_tracked_device_exposure_release_locked
      (dev_ex (ring_ex 1) 2000) (info_ex 1000 1) = Done (dev1, info1) /\
    fusion_slot info1 = -1 /\
    rift_tracked_device_exposure_release_locked dev1 info1 = Done (dev1, info1).
Proof.
  assert (wf_dev_info (info_ex 1000 1)) as Wi
    by (unfold wf_dev_info, NUM_POSE_DELAY_SLOTS; simpl; lia).
  destruct (exposure_release_idempotent (dev_ex (ring_ex 1) 2000) (info_ex 1000 1)
              (wf_dev_ex 1 2000) Wi) as (dev1 & info1 & Hr & Hf & Hr2 & _).
  exists dev1, info1. split; [exact Hr|]. split; [|exact Hr2].
  apply (Hf (mk_slot 1 true 1 1000)); simpl; try reflexivity; discriminate.
Defined.

(** The round-robin scan finds a slot that no frame uses, when there is one. *)
Lemma find_free_delay_slot_spec dev :
  wf_device dev ->
  (exists j s, delay_slots dev !! j = Some s /\ use_count s = 0) ->
  exists k s,
    find_free_delay_slot dev =
      Done (Some k, set_delay_slot_index dev (Z.rem (k + 1) NUM_POSE_DELAY_SLOTS)) /\
    0 <= k < NUM_POSE_DELAY_SLOTS /\
    delay_slots dev !! Z.to_nat k = Some s /\ use_count s = 0.
Proof.
  intros Hwf (j & s & Hj & Hfree).
  ring_shape dev Hwf.
  assert (ix = 0 \/ ix = 1 \/ ix = 2) as Hix' by lia.
  unfold find_free_delay_slot, NUM_POSE_DELAY_SLOTS.
  destruct Hix' as [-> | [-> | ->]]; simpl;
    repeat match goal with
           | |- context [?u =? 0] =>
               destruct (Z.eqb_spec u 0); simpl; unfold NUM_POSE_DELAY_SLOTS; simpl
           end;
    try (eexists _, _; split; [reflexivity|];
         split; [vm_compute; split; [discriminate|reflexivity]|];
         split; [reflexivity|]; simpl; assumption);
    destruct j as [|[|[|j]]]; simpl in Hj; try discriminate Hj;
    injection Hj as <-; simpl in Hfree; contradiction.
Qed.

(** *** Loops over the devices *)

Lemma for_loop_inv {St : Type} (body : Z -> St -> outcome St) (P : Z -> St -> Prop)
    (n : nat) : forall i s,
  P i s ->
  (forall j s, i <= j < i + Z.of_nat n -> P j s ->
     exists s', body j s = Done s' /\ P (j + 1) s') ->
  exists s', for_loop body i n s = Done s' /\ P (i + Z.of_nat n) s'.
Proof.
  induction n as [|n IH]; intros i s HP Hstep.
  - exists s. split; [reflexivity|]. replace (i + Z.of_nat 0) with i by lia. exact HP.
  - destruct (Hstep i s) as (s1 & Hb & HP1); [lia|exact HP|].
    destruct (IH (i + 1) s1 HP1) as (s2 & Hl & HP2).
    + intros j s' Hj. apply Hstep. lia.
    + exists s2. simpl. rewrite Hb. simpl. split; [exact Hl|].
      replace (i + Z.of_nat (S n)) with (i + 1 + Z.of_nat n) by lia. exact HP2.
Qed.

Lemma with_device_info_run op i dev e di dev' di' :
  0 <= i < info_n_devices e ->
  info_devices e !! Z.to_nat i = Some di ->
  op dev di = Done (dev', di') ->
  with_device_info op i dev (Some e) =
  Done (dev', Some (set_info_devices e (<[Z.to_nat i := di']> (info_devices e)))).
Proof.
  intros Hi Hdi Hop. unfold with_device_info.
  destruct (Z.ltb_spec i (info_n_devices e)); [|lia].
  rewrite (array_get_Done _ _ di) by (lia || exact Hdi). simpl. rewrite Hop. simpl.
  rewrite array_set_Done by (lia || (eapply lookup_lt_Some; exact Hdi)).
  reflexivity.
Qed.

Lemma with_device_info_skip op i dev e :
  info_n_devices e <= i -> with_device_info op i dev (Some e) = Done (dev, Some e).
Proof.
  intros Hi. unfold with_device_info.
  destruct (Z.ltb_spec i (info_n_devices e)); [lia|reflexivity].
Qed.


Lemma claim_total dev dev_info :
  claimable dev -> wf_dev_info dev_info ->
  exists dev1 info1,
    rift_tracked_device_exposure_claim dev dev_info = Done (dev1, info1).
Proof.
  intros (Hwf & Hc) Hk.
  destruct (slot_cases dev dev_info Hwf Hk) as [E | (s & Hne & Hs)].
  - do 2 eexists. apply claim_lost; auto.
  - destruct (slot_matches s dev_info) eqn:Hm.
    + do 2 eexists. apply (claim_match dev dev_info s); try assumption.
      exact (proj1 (Forall_lookup _ _) Hc _ _ Hs).
    + do 2 eexists. apply claim_lost; eauto.
Qed.

Lemma same_exposure_set e l : same_exposure (set_info_devices e l) e.
Proof. repeat split. Qed.

Lemma same_exposure_trans e1 e2 e3 :
  same_exposure e1 e2 -> same_exposure e2 e3 -> same_exposure e1 e3.
Proof. unfold same_exposure. intuition congruence. Qed.




(** One claim and one release of a slot that is the record's, as steps. *)
Lemma claim_step dev r s :
  wf_device dev -> wf_dev_info r -> fusion_slot r <> -1 ->
  delay_slots dev !! Z.to_nat (fusion_slot r) = Some s ->
  slot_matches s r = true -> use_count s < INT_MAX ->
  exists dev',
    rift_tracked_device_exposure_claim dev r = Done (dev', r) /\
    wf_device dev' /\
    delay_slots dev' !! Z.to_nat (fusion_slot r)
      = Some (set_use_count s (use_count s + 1)) /\
    ukf_fusion dev' = ukf_fusion dev.
Proof.
  intros Hwf Hk Hne Hs Hm Hc.
  eexists. split; [apply (claim_match dev r s); assumption|].
  split; [|split].
  - apply (proj2 (wf_device_set_slot dev _ s (set_use_count s (use_count s + 1))
                    [] Hwf Hs eq_refl)).
  - simpl. apply list_lookup_insert_eq. eapply lookup_lt_Some. exact Hs.
  - reflexivity.
Qed.

Lemma release_step dev r s :
  wf_device dev -> wf_dev_info r -> fusion_slot r <> -1 ->
  delay_slots dev !! Z.to_nat (fusion_slot r) = Some s ->
  slot_matches s r = true ->
  exists dev',
    rift_tracked_device_exposure_release_locked dev r
      = Done (dev', set_fusion_slot r (-1)) /\
    wf_device dev' /\
    delay_slots dev' !! Z.to_nat (fusion_slot r) = Some (released s) /\
    ukf_fusion dev' =
      if use_count (released s) =? 0
      then ukf_fusion dev ++ [ukf_release_delay_slot (fusion_slot r)]
      else ukf_fusion dev.
Proof.
  intros Hwf Hk Hne Hs Hm.
  eexists. split; [apply (release_match dev r s); assumption|].
  split; [|split].
  - destruct (use_count (released s) =? 0).
    + apply (proj1 (wf_device_set_slot dev _ s _ _ Hwf Hs (released_slot_id s))).
    + apply (proj2 (wf_device_set_slot dev _ s _ [] Hwf Hs (released_slot_id s))).
  - simpl. apply list_lookup_insert_eq. eapply lookup_lt_Some. exact Hs.
  - destruct (use_count (released s) =? 0); reflexivity.
Qed.

Section WithCollaborators.
Context `{Collaborators}.

(** An exposure edge with a free slot: the slot is anchored at the device-time
    of the exposure, the record names it, and the filter is told to prepare
    it. *)
Lemma update_exposure_alloc dev dev_info0 :
  wf_device dev ->
  (exists j s, delay_slots dev !! j = Some s /\ use_count s = 0) ->
  exists dev1 dev_info k s,
    rift_tracked_device_update_exposure dev dev_info0 = Done (dev1, dev_info) /\
    wf_device dev1 /\
    0 <= k < NUM_POSE_DELAY_SLOTS /\
    fusion_slot dev_info = k /\
    info_device_time_ns dev_info = device_time_ns dev /\
    delay_slots dev !! Z.to_nat k = Some s /\ use_count s = 0 /\
    delay_slots dev1 =
      <[Z.to_nat k := mk_slot k true 0 (device_time_ns dev)]> (delay_slots dev) /\
    ukf_fusion dev1 =
      ukf_fusion dev ++ [ukf_get_pose_at (device_time_ns dev);
                         ukf_prepare_delay_slot (device_time_ns dev) k].
Proof.
  intros Hwf Hfree.
  destruct (find_free_delay_slot_spec dev Hwf Hfree) as (k & s & Hff & Hk & Hs & Hc).
  unfold rift_tracked_device_update_exposure. rewrite Hff. simpl.
  assert (0 <= k) as Hk0 by lia.
  rewrite (array_get_Done _ _ s Hk0 Hs). simpl.
  rewrite array_set_Done; [|exact Hk0|eapply lookup_lt_Some; exact Hs]. simpl.
  destruct Hwf as (Hl & Hid & Hix).
  pose proof (Hid _ _ Hs) as Hsid. rewrite Z2Nat.id in Hsid by exact Hk0.
  destruct s as [sid sv sc st]. simpl in Hsid, Hc. subst sid sc.
  eexists _, _, k, _. split; [reflexivity|].
  split.
  { split; [|split]; simpl.
    - rewrite length_insert. exact Hl.
    - intros j x Hj. destruct (decide (Z.to_nat k = j)) as [<-|Hne].
      + rewrite list_lookup_insert_eq in Hj by (eapply lookup_lt_Some; exact Hs).
        injection Hj as <-. simpl. lia.
      + rewrite list_lookup_insert_ne in Hj by exact Hne. apply (Hid _ _ Hj).
    - unfold NUM_POSE_DELAY_SLOTS in *.
      assert (k = 0 \/ k = 1 \/ k = 2) as [-> | [-> | ->]] by lia;
        vm_compute; split; congruence. }
  split; [exact Hk|]. split; [reflexivity|]. split; [reflexivity|].
  split; [exact Hs|]. split; [reflexivity|]. split; [reflexivity|].
  unfold ukf_tell. simpl. rewrite <- app_assoc. reflexivity.
Qed.

(** C3. The life of a delay slot.  A slot with [use_count = 0] is allocated
    to an exposure; two exposure records that refer to it (the copies held
    by two frames) are claimed and then released.  After the two claims the
    count is 2; the first release leaves it at 1, the slot valid and the
    filter untouched; the second brings the slot back to [use_count = 0] and
    [valid = false], and tells the filter to discard the snapshot. *)
Theorem delay_slot_lifecycle
    (dev : rift_tracked_device_priv) (dev_info0 : rift_tracked_device_exposure_info) :
  wf_device dev ->
  (exists j s, delay_slots dev !! j = Some s /\ use_count s = 0) ->
  exists dev1 dev_info k,
    rift_tracked_device_update_exposure dev dev_info0 = Done (dev1, dev_info) /\
    fusion_slot dev_info = k /\ 0 <= k < NUM_POSE_DELAY_SLOTS /\
    delay_slots dev1 !! Z.to_nat k
      = Some (mk_slot k true 0 (info_device_time_ns dev_info)) /\
    forall r1 r2,
      fusion_slot r1 = k -> info_device_time_ns r1 = info_device_time_ns dev_info ->
      fusion_slot r2 = k -> info_device_time_ns r2 = info_device_time_ns dev_info ->
      exists dev2 dev3 dev4 dev5,
        rift_tracked_device_exposure_claim dev1 r1 = Done (dev2, r1) /\
        rift_tracked_device_exposure_claim dev2 r2 = Done (dev3, r2) /\
        rift_tracked_device_exposure_release_locked dev3 r1
          = Done (dev4, set_fusion_slot r1 (-1)) /\
        rift_tracked_device_exposure_release_locked dev4 r2
          = Done (dev5, set_fusion_slot r2 (-1)) /\
        delay_slots dev3 !! Z.to_nat k
          = Some (mk_slot k true 2 (info_device_time_ns dev_info)) /\
        delay_slots dev4 !! Z.to_nat k
          = Some (mk_slot k true 1 (info_device_time_ns dev_info)) /\
        ukf_fusion dev4 = ukf_fusion dev1 /\
        delay_slots dev5 !! Z.to_nat k
          = Some (mk_slot k false 0 (info_device_time_ns dev_info)) /\
        ukf_fusion dev5 = ukf_fusion dev1 ++ [ukf_release_delay_slot k].
Proof.
  intros Hwf Hfree.
  destruct (update_exposure_alloc dev dev_info0 Hwf Hfree)
    as (dev1 & dev_info & k & s & Hu & Hwf1 & Hk & Hf & Ht & Hs & Hc & Hslots & Hukf).
  exists dev1, dev_info, k. split; [exact Hu|]. split; [exact Hf|]. split; [exact Hk|].
  assert (delay_slots dev1 !! Z.to_nat k
          = Some (mk_slot k true 0 (info_device_time_ns dev_info))) as Hs1.
  { rewrite Hslots, Ht. apply list_lookup_insert_eq. eapply lookup_lt_Some. exact Hs. }
  split; [exact Hs1|].
  intros r1 r2 Hr1 Ht1 Hr2 Ht2.
  assert (wf_dev_info r1) as Hw1 by (unfold wf_dev_info; lia).
  assert (wf_dev_info r2) as Hw2 by (unfold wf_dev_info; lia).
  assert (k <> -1) as Hne by lia.
  set (t := info_device_time_ns dev_info) in *.
  assert (forall v c r, info_device_time_ns r = t ->
            slot_matches (mk_slot k v c t) r = v) as Hmatch.
  { intros v c r Hr. unfold slot_matches. simpl.
    rewrite Hr, Z.eqb_refl. apply andb_true_r. }
  pose proof (claim_step dev1 r1 (mk_slot k true 0 t) Hwf1 Hw1) as S1.
  rewrite Hr1 in S1.
  destruct (S1 Hne Hs1 (Hmatch _ _ _ Ht1))
    as (dev2 & Hc1 & Hwf2 & Hs2 & Hu2); [vm_compute; reflexivity|].
  simpl in Hs2.
  pose proof (claim_step dev2 r2 (mk_slot k true 1 t) Hwf2 Hw2) as S2.
  rewrite Hr2 in S2.
  destruct (S2 Hne Hs2 (Hmatch _ _ _ Ht2))
    as (dev3 & Hc2 & Hwf3 & Hs3 & Hu3); [vm_compute; reflexivity|].
  simpl in Hs3.
  pose proof (release_step dev3 r1 (mk_slot k true 2 t) Hwf3 Hw1) as S3.
  rewrite Hr1 in S3.
  destruct (S3 Hne Hs3 (Hmatch _ _ _ Ht1)) as (dev4 & Hc3 & Hwf4 & Hs4 & Hu4).
  simpl in Hs4, Hu4.
  pose proof (release_step dev4 r2 (mk_slot k true 1 t) Hwf4 Hw2) as S4.
  rewrite Hr2 in S4.
  destruct (S4 Hne Hs4 (Hmatch _ _ _ Ht2)) as (dev5 & Hc4 & Hwf5 & Hs5 & Hu5).
  simpl in Hs5, Hu5.
  exists dev2, dev3, dev4, dev5.
  repeat (split; [assumption|]).
  split; [congruence|]. split; [assumption|]. congruence.
Qed.

(** *** Device time *)

(** What an IMU update does to the device time. *)
Lemma imu_update_time dev local_ts device_ts dt smp dev' :
  rift_tracked_device_imu_update dev local_ts device_ts dt smp = Done dev' ->
  last_device_ts dev' = device_ts /\
  device_time_ns dev' =
    if device_time_ns dev =? 0 then u64 (u32 (device_ts * 1000))
    else u64 (device_time_ns dev
              + u64 (u32 (u32 (device_ts - last_device_ts dev) * 1000))).
Proof.
  unfold rift_tracked_device_imu_update.
  repeat match goal with
         | |- context [if ?b then _ else _] => destruct b
         end; try discriminate;
    intros [= <-]; unfold rift_tracked_device_send_imu_debug; simpl;
    repeat match goal with
           | |- context [match ?l with [] => _ | _ :: _ => _ end] => destruct l
           end; split; reflexivity.
Qed.

(** An IMU update completes unless the observation buffer is overrun. *)
Lemma imu_update_total dev local_ts device_ts dt smp :
  Z.of_nat (length (pending_imu_observations dev)) < RIFT_MAX_PENDING_IMU_OBSERVATIONS ->
  exists dev', rift_tracked_device_imu_update dev local_ts device_ts dt smp = Done dev'.
Proof.
  intros Hp. unfold rift_tracked_device_imu_update. simpl.
  destruct (Z.leb_spec RIFT_MAX_PENDING_IMU_OBSERVATIONS
              (Z.of_nat (length (pending_imu_observations dev)))); [lia|].
  match goal with
  | |- context [if ?b then _ else _] => destruct b
  end; eexists; reflexivity.
Qed.

(** The device time does not go back, short of the end of the 64-bit range. *)
Lemma imu_update_monotone dev local_ts device_ts dt smp dev' :
  0 <= device_time_ns dev -> device_time_ns dev + 2 ^ 32 <= 2 ^ 64 ->
  rift_tracked_device_imu_update dev local_ts device_ts dt smp = Done dev' ->
  device_time_ns dev <= device_time_ns dev'.
Proof.
  intros H0 Hmax Hu. apply imu_update_time in Hu as [_ ->].
  destruct (Z.eqb_spec (device_time_ns dev) 0) as [->|_].
  - apply u64_range.
  - pose proof (u32_range (u32 (device_ts - last_device_ts dev) * 1000)) as Hr.
    rewrite (u64_small (u32 _)) by lia. rewrite u64_small by lia. lia.
Qed.

(** Once the device time is running, an update adds the wrap-around
    difference of the raw timestamps times 1000, cut to 32 bits: this is the
    difference in nanoseconds as long as the gap is at most 4294967 us. *)
Lemma imu_update_gap dev local_ts device_ts dt smp dev' :
  0 < device_time_ns dev -> device_time_ns dev + 2 ^ 32 <= 2 ^ 64 ->
  rift_tracked_device_imu_update dev local_ts device_ts dt smp = Done dev' ->
  let gap := u32 (device_ts - last_device_ts dev) in
  device_time_ns dev' - device_time_ns dev = u32 (gap * 1000) /\
  (gap <= 4294967 -> device_time_ns dev' - device_time_ns dev = gap * 1000).
Proof.
  intros H0 Hmax Hu gap. apply imu_update_time in Hu as [_ Ht].
  destruct (Z.eqb_spec (device_time_ns dev) 0) as [E|_]; [lia|].
  fold gap in Ht.
  pose proof (u32_range (gap * 1000)) as Hr.
  pose proof (u32_range (device_ts - last_device_ts dev)) as Hg. fold gap in Hg.
  rewrite (u64_small (u32 _)) in Ht by lia. rewrite u64_small in Ht by lia.
  split; [lia|]. intros Hsmall. rewrite u32_small in Ht by lia. lia.
Qed.

(** *** The view pose *)

(** Reading the view pose leaves the cache and the output filter in step. *)
Lemma get_view_pose_consistent dev :
  view_consistent dev ->
  view_consistent (rift_tracked_device_get_view_pose dev).1.
Proof.
  intros Hc. unfold rift_tracked_device_get_view_pose.
  destruct (device_time_ns dev >? last_reported_pose dev); [|exact Hc].
  intros _. reflexivity.
Qed.

(** C10. When the device-time has not advanced past the time of the last
    view-pose read, a view-pose query leaves the device as it is (the filter
    is not consulted: its history is the same) and returns the cached pose
    reported before, with velocity and acceleration exactly zero, not the
    values computed at the last advance. *)
Theorem view_pose_not_advanced (dev : rift_tracked_device_priv) :
  device_time_ns dev <= last_reported_pose dev ->
  rift_tracked_device_get_view_pose dev
    = (dev, (reported_pose dev, vec3f_zero, vec3f_zero)) /\
  ukf_fusion (rift_tracked_device_get_view_pose dev).1 = ukf_fusion dev.
Proof.
  intros Hle. unfold rift_tracked_device_get_view_pose.
  destruct (Z.gtb_spec (device_time_ns dev) (last_reported_pose dev)); [lia|].
  split; reflexivity.
Qed.



End WithCollaborators.

(** C4 (the code departs from it).  The device time is meant to advance by
    the wrap-around difference of the raw timestamps, converted to
    nanoseconds.  The difference is multiplied by 1000 as a 32-bit number
    before it is widened, so a gap of 5 s between two samples (raw
    timestamps 1000 and 5001000) advances the device time by 705032704 ns
    and not by 5000000000 ns. *)
Theorem imu_update_truncates_long_gap :
  exists dev1 dev2,
    @rift_tracked_device_imu_update collab_ex (dev_ex (ring_ex 0) 0)
      0 1000 0%Q imu_sample_ex = Done dev1 /\
    device_time_ns dev1 = 1000000 /\
    @rift_tracked_device_imu_update collab_ex dev1
      0 5001000 0%Q imu_sample_ex = Done dev2 /\
    device_time_ns dev2 - device_time_ns dev1 = 705032704 /\
    u32 (5001000 - last_device_ts dev1) * 1000 = 5000000000.
Proof.
  do 2 eexists. split; [vm_compute; reflexivity|].
  split; [reflexivity|]. split; [vm_compute; reflexivity|].
  split; reflexivity.
Qed.

Lemma view_pose_not_advanced_witness :
  let dev := (@rift_tracked_device_get_view_pose collab_ex
                (dev_ex (ring_ex 0) 2000)).1 in
  @rift_tracked_device_get_view_pose collab_ex dev
    = (dev, (reported_pose dev, vec3f_zero, vec3f_zero)) /\
  ukf_fusion (@rift_tracked_device_get_view_pose collab_ex dev).1 = ukf_fusion dev.
Proof.
  intros dev. apply (@view_pose_not_advanced collab_ex dev).
  vm_compute. discriminate.
Defined.


Lemma delay_slot_lifecycle_witness :
  exists dev1 dev_info k,
    @rift_tracked_device_update_exposure collab_ex
      (dev_ex (ring_ex 1) 2000) (info_ex 0 (-1)) = Done (dev1, dev_info) /\
    fusion_slot dev_info = k /\ 0 <= k < NUM_POSE_DELAY_SLOTS /\
    delay_slots dev1 !! Z.to_nat k
      = Some (mk_slot k true 0 (info_device_time_ns dev_info)) /\
    forall r1 r2,
      fusion_slot r1 = k -> info_device_time_ns r1 = info_device_time_ns dev_info ->
      fusion_slot r2 = k -> info_device_time_ns r2 = info_device_time_ns dev_info ->
      exists dev2 dev3 dev4 dev5,
        rift_tracked_device_exposure_claim dev1 r1 = Done (dev2, r1) /\
        rift_tracked_device_exposure_claim dev2 r2 = Done (dev3, r2) /\
        rift_tracked_device_exposure_release_locked dev3 r1
          = Done (dev4, set_fusion_slot r1 (-1)) /\
        rift_tracked_device_exposure_release_locked dev4 r2
          = Done (dev5, set_fusion_slot r2 (-1)) /\
        delay_slots dev3 !! Z.to_nat k
          = Some (mk_slot k true 2 (info_device_time_ns dev_info)) /\
        delay_slots dev4 !! Z.to_nat k
          = Some (mk_slot k true 1 (info_device_time_ns dev_info)) /\
        ukf_fusion dev4 = ukf_fusion dev1 /\
        delay_slots dev5 !! Z.to_nat k
          = Some (mk_slot k false 0 (info_device_time_ns dev_info)) /\
        ukf_fusion dev5 = ukf_fusion dev1 ++ [ukf_release_delay_slot k].
Proof.
  apply (@delay_slot_lifecycle collab_ex).
  - apply wf_dev_ex.
  - exists 0%nat, (mk_slot 0 false 0 0). split; reflexivity.
Defined.

End TrackerFacts.

(** ** The sensor *)

Module SensorFacts.
Import Pose Tracker FrameQueue Sensor Examples.

Section WithCollaborators.
Context `{Collaborators} `{SensorCollaborators}.

Lemma float_lt_spec (a b : float) : float_lt a b = true <-> (a < b)%Q.
Proof.
  unfold float_lt. rewrite negb_true_iff. split.
  - intros Hle. apply Qnot_le_lt. intros Hba.
    apply Qle_bool_iff in Hba. congruence.
  - intros Hlt. destruct (Qle_bool b a) eqn:E; [|reflexivity].
    apply Qle_bool_iff in E. exfalso. exact (Qlt_not_le _ _ Hlt E).
Qed.

(** C6. Camera pose bootstrap.  For a sensor without a camera pose and an
    accepted device pose (the scoring finds a good pose match), the camera
    pose is installed if and only if the device is the HMD (id 0), the norm
    of the capture-time orientation exceeds 0.9 and the capture-time gravity
    uncertainty is below 15 degrees.  When installed, [camera_pose] is the
    capture-time world pose composed with the inverse of the observed
    camera-relative pose, and [have_camera_pose] is true; when not, the
    sensor is left as it was.  The device and the frame are untouched. *)
Theorem camera_pose_bootstrap
    (sensor_ctx : rift_sensor_ctx) (dev : rift_tracked_device_priv) (leds : rift_leds)
    (frame : rift_sensor_capture_frame) (dev_state : rift_sensor_frame_device_state)
    (blobs : blobservation) :
  have_camera_pose sensor_ctx = false ->
  bwobs frame = Some blobs ->
  let m := rift_evaluate_pose (score dev_state) (final_cam_pose dev_state) blobs
             (base_id dev) leds (camera_matrix sensor_ctx) (dist_coeffs sensor_ctx)
             (dist_fisheye sensor_ctx) in
  good_pose_match m = true ->
  exists sensor',
    update_device_pose sensor_ctx dev leds frame dev_state
      = Done (sensor', dev, frame, set_score dev_state m) /\
    (have_camera_pose sensor' = true <->
       base_id dev = 0 /\
       (9 # 10 < oquatf_get_length (orient (capture_world_pose dev_state)))%Q /\
       (gravity_error_rad dev_state < DEG_TO_RAD (15 # 1))%Q) /\
    (have_camera_pose sensor' = true ->
       camera_pose sensor' =
         oposef_apply (oposef_inverse (final_cam_pose dev_state))
                      (capture_world_pose dev_state)) /\
    (have_camera_pose sensor' = false -> sensor' = sensor_ctx).
Proof.
  intros Hno Hb m Hgood.
  unfold update_device_pose. rewrite Hb. simpl. fold m. rewrite Hgood, Hno.
  destruct (Z.eqb_spec (base_id dev) 0) as [Hid|Hid]; simpl.
  - destruct (float_lt (9 # 10) _) eqn:Hlen; simpl.
    + destruct (float_lt (gravity_error_rad dev_state) _) eqn:Hg; simpl.
      * eexists. split; [reflexivity|]. simpl.
        apply float_lt_spec in Hlen, Hg.
        split; [tauto|]. split; [reflexivity|discriminate].
      * eexists. split; [reflexivity|]. rewrite Hno.
        split; [|split; [discriminate|reflexivity]].
        split; [discriminate|]. intros (_ & _ & Hg').
        apply float_lt_spec in Hg'. congruence.
    + eexists. split; [reflexivity|]. rewrite Hno.
      split; [|split; [discriminate|reflexivity]].
      split; [discriminate|]. intros (_ & Hlen' & _).
      apply float_lt_spec in Hlen'. congruence.
  - eexists. split; [reflexivity|]. rewrite Hno.
    split; [|split; [discriminate|reflexivity]].
    split; [discriminate|]. intros (Hid' & _). contradiction.
Qed.


Lemma buf_load_Done buf off n :
  (off + n <= length buf)%nat ->
  buf_load buf off n = Done (le_combine (take n (drop off buf))).
Proof.
  intros Hl. unfold buf_load.
  rewrite length_take, length_drop.
  destruct (Nat.eqb_spec (n `min` (length buf - off)) n); [reflexivity|lia].
Qed.

(** What the DK2 branch leaves in the sensor, in terms of the 128 bytes read:
    [dist_coeffs[1]] is written twice and [dist_coeffs[3]] not at all. *)
Lemma dk2_calibration ctx buf ret buf' :
  dk2_read_blocks [0; 32; 64; 96]%nat buf = (ret, buf') ->
  0 <= ret -> length buf' = 128%nat -> length (dist_coeffs ctx) = 5%nat ->
  let ld off := le_combine (take 8 (drop off buf')) in
  exists k_3,
    dist_coeffs ctx !! 3%nat = Some k_3 /\
    rift_sensor_get_calibration ctx DK2_PID buf =
    Done (0, set_calibration ctx
               [ld 18; double_0_0; ld 42; double_0_0; ld 30; ld 54;
                double_0_0; double_0_0; double_1_0]%nat
               false
               [ld 66; ld 90; ld 102; k_3; ld 114]%nat).
Proof.
  intros Hb Hret Hl Hk ld.
  unfold rift_sensor_get_calibration.
  destruct (Z.eqb_spec DK2_PID CV1_PID) as [E|_];
    [exfalso; apply pid_distinct; symmetry; exact E|].
  rewrite Z.eqb_refl, Hb.
  destruct (Z.ltb_spec ret 0); [lia|].
  rewrite !buf_load_Done by (rewrite Hl; lia). simpl.
  destruct (dist_coeffs ctx) as [|k0 [|k1 [|k2 [|k3 [|k4 [|]]]]]]; try discriminate Hk.
  exists k3. split; reflexivity.
Qed.

End WithCollaborators.

(** C1 (the code departs from it).  For the DK2 the distortion coefficients
    are meant to be [k1, k2, p1, p2, k3], as the comment in the code has it.
    The code stores [p1] over [k2] in [dist_coeffs[1]], [p2] in
    [dist_coeffs[2]] and nothing in [dist_coeffs[3]]: with k1, k2, p1, p2,
    k3 = 5.0, 6.0, 7.0, 8.0, 9.0 in the EEPROM, the array ends up as
    [5.0, 7.0, 8.0, 0.0, 9.0].  The fisheye flag is false, as stated. *)
Theorem dk2_calibration_clobbers_k2 :
  exists ctx',
    @rift_sensor_get_calibration sensor_collab_ex sensor_ex 0x0201
      (repeat Byte.x00 128) = Done (0, ctx') /\
    dist_coeffs ctx' = [dbl_5; dbl_7; dbl_8; double_0_0; dbl_9] /\
    dist_coeffs ctx' <> [dbl_5; dbl_6; dbl_7; dbl_8; dbl_9] /\
    dist_fisheye ctx' = false.
Proof.
  assert (@dk2_read_blocks sensor_collab_ex [0; 32; 64; 96]%nat (repeat Byte.x00 128)
          = (0, dk2_eeprom_ex)) as Hread by (vm_compute; reflexivity).
  destruct (@dk2_calibration sensor_collab_ex sensor_ex _ _ _ Hread)
    as (k_3 & Hk & Hrun); [lia|reflexivity|reflexivity|].
  injection Hk as <-.
  eexists. split; [exact Hrun|].
  assert (le_combine (take 8 (drop 66 dk2_eeprom_ex)) = dbl_5) as H66
    by (vm_compute; reflexivity).
  assert (le_combine (take 8 (drop 90 dk2_eeprom_ex)) = dbl_7) as H90
    by (vm_compute; reflexivity).
  assert (le_combine (take 8 (drop 102 dk2_eeprom_ex)) = dbl_8) as H102
    by (vm_compute; reflexivity).
  assert (le_combine (take 8 (drop 114 dk2_eeprom_ex)) = dbl_9) as H114
    by (vm_compute; reflexivity).
  unfold set_calibration, dist_coeffs, dist_fisheye.
  rewrite H66, H90, H102, H114.
  split; [reflexivity|]. split; [discriminate|reflexivity].
Qed.

Lemma camera_pose_bootstrap_witness :
  exists sensor',
    @update_device_pose collab_ex sensor_collab_ex sensor_ex
      (dev_ex (ring_ex 0) 0) tt frame_ex dev_state_ex
      = Done (sensor', dev_ex (ring_ex 0) 0, frame_ex,
              set_score dev_state_ex (mk_pose_metrics 10 12 true true)) /\
    have_camera_pose sensor' = true /\
    camera_pose sensor' = final_cam_pose dev_state_ex.
Proof.
  destruct (@camera_pose_bootstrap collab_ex sensor_collab_ex sensor_ex
              (dev_ex (ring_ex 0) 0) tt frame_ex
              dev_state_ex tt eq_refl eq_refl eq_refl)
    as (sensor' & Hrun & Hiff & Hpose & _).
  exists sensor'. split; [exact Hrun|].
  assert (have_camera_pose sensor' = true) as Hyes.
  { apply Hiff. split; [reflexivity|]. split; reflexivity. }
  split; [exact Hyes|]. exact (Hpose Hyes).
Defined.

(** Run on the scenario: slot 1 is released (and the filter told so), slot 2
    is claimed, and the frame carries exposure 8. *)
Example exposure_patch_run :
  @rift_sensor_update_exposure sensor_collab_ex
    tracker_patch_ex sensor_patch_ex (exposure_8_ex 3)
  = Done (mk_tracker true exposure_7_ex
            [set_delay_slots
               (ukf_tell (dev_ex ring_patch_ex 2000)
                  (ukf_release_delay_slot 1))
               [mk_slot 0 false 0 0; mk_slot 1 false 0 1000; mk_slot 2 true 1 1500]]
            1,
          set_frames sensor_patch_ex
            [set_frame_exposure_info frame_patch_ex true (exposure_8_ex 3)]).
Proof. reflexivity. Qed.

Lemma wf_patch_ex :
  wf_tracker tracker_patch_ex /\
  wf_exposure_info exposure_7_ex /\
  forall ms, wf_exposure_info (exposure_8_ex ms).
Proof.
  split; [|split].
  - split; [simpl; lia|]. repeat constructor; simpl; try lia; try reflexivity.
    intros [|[|[|k]]] s; simpl; intros [= <-]; reflexivity.
  - split; [simpl; lia|]. repeat constructor; simpl; lia.
  - intros ms. split; [simpl; lia|]. repeat constructor; simpl; lia.
Qed.


End SensorFacts.

(** * More of the code *)

(** ** The frame queue as a list *)

Module FrameQueueMore.
Import FrameQueue Examples FrameQueueFacts.

Lemma queue_count_entries q : queue_count q = Z.of_nat (length (queue_entries q)).
Proof.
  unfold queue_entries. rewrite length_map, length_seq.
  pose proof (queue_count_range q). lia.
Qed.

(** X1. Pushing onto a queue that holds fewer than 4 entries succeeds, puts
    the frame behind the entries already queued, and leaves a queue whose
    indices are inside the array. *)
Theorem push_appends (q : rift_sensor_frame_queue) (f : nat) :
  wf_queue q -> queue_count q < NUM_CAPTURE_BUFFERS ->
  exists q1,
    PUSH_QUEUE q (Some f) = Done q1 /\ wf_queue q1 /\
    queue_entries q1 = queue_entries q ++ [Some f] /\
    queue_count q1 = queue_count q + 1.
Proof.
  intros Hwf Hc.
  destruct (PUSH_QUEUE_spec q f Hwf Hc) as (q1 & Hp & Hwf1 & _ & Hc1 & He).
  exists q1. auto.
Qed.

Lemma push_appends_witness :
  exists q1,
    PUSH_QUEUE q_empty (Some 2%nat) = Done q1 /\ wf_queue q1 /\
    queue_entries q1 = queue_entries q_empty ++ [Some 2%nat] /\
    queue_count q1 = queue_count q_empty + 1.
Proof.
  apply (push_appends q_empty 2%nat).
  - repeat split; simpl; reflexivity || discriminate.
  - reflexivity.
Defined.

(** X2. Popping a queue that is not empty returns its oldest entry and
    leaves the others, in order: frames come out in the order they went
    in. *)
Theorem pop_takes_oldest (q : rift_sensor_frame_queue) :
  wf_queue q -> 0 < queue_count q ->
  exists f q1,
    POP_QUEUE q = Done (f, q1) /\ wf_queue q1 /\
    queue_entries q = f :: queue_entries q1 /\
    queue_count q1 = queue_count q - 1.
Proof.
  intros Hwf Hc.
  destruct (POP_QUEUE_spec q Hwf Hc) as (f & q1 & Hp & Hwf1 & He).
  exists f, q1. repeat split; try assumption; try apply Hwf1.
  rewrite !queue_count_entries, He. simpl. lia.
Qed.

Lemma pop_takes_oldest_witness :
  exists f q1,
    POP_QUEUE q_full = Done (f, q1) /\ wf_queue q1 /\
    queue_entries q_full = f :: queue_entries q1 /\
    queue_count q1 = queue_count q_full - 1.
Proof.
  apply (pop_takes_oldest q_full).
  - repeat split; simpl; reflexivity || discriminate.
  - reflexivity.
Defined.

(** X3. Rewinding a queue that is not empty returns its newest entry, the
    one pushed last, and leaves the older ones, in order. *)
Theorem rewind_takes_newest (q : rift_sensor_frame_queue) :
  wf_queue q -> 0 < queue_count q ->
  exists f q1,
    REWIND_QUEUE q = Done (f, q1) /\ wf_queue q1 /\
    queue_entries q = queue_entries q1 ++ [f] /\
    queue_count q1 = queue_count q - 1.
Proof.
  intros Hwf Hc.
  destruct (REWIND_QUEUE_spec q Hwf Hc) as (f & q1 & Hp & Hwf1 & _ & He).
  exists f, q1. repeat split; try assumption; try apply Hwf1.
  rewrite !queue_count_entries, He, length_app. simpl. lia.
Qed.

Lemma rewind_takes_newest_witness :
  exists f q1,
    REWIND_QUEUE q_full = Done (f, q1) /\ wf_queue q1 /\
    queue_entries q_full = queue_entries q1 ++ [f] /\
    queue_count q1 = queue_count q_full - 1.
Proof.
  apply (rewind_takes_newest q_full).
  - repeat split; simpl; reflexivity || discriminate.
  - reflexivity.
Defined.

End FrameQueueMore.

(** ** The delay-slot manager *)

Module DelaySlotMore.
Import Pose Tracker TrackerSetup Examples MoreExamples TrackerFacts.

(** Either some slot is free, or every slot is in use. *)
Lemma free_or_busy dev :
  (exists j s, delay_slots dev !! j = Some s /\ use_count s = 0) \/
  (forall j s, delay_slots dev !! j = Some s -> use_count s <> 0).
Proof.
  induction (delay_slots dev) as [|s l IH].
  - right. intros j s Hj. rewrite lookup_nil in Hj. discriminate.
  - destruct (Z.eq_dec (use_count s) 0) as [E|Hne].
    + left. exists 0%nat, s. split; [reflexivity|exact E].
    + destruct IH as [(j & s' & Hj & E) | Hbusy].
      * left. exists (S j), s'. split; assumption.
      * right. intros [|j] s' Hj; simpl in Hj.
        -- injection Hj as <-. exact Hne.
        -- apply (Hbusy j s' Hj).
Qed.

Lemma find_free_busy dev :
  wf_device dev ->
  (forall j s, delay_slots dev !! j = Some s -> use_count s <> 0) ->
  find_free_delay_slot dev = Done (None, dev).
Proof.
  intros Hwf Hbusy.
  ring_shape dev Hwf.
  pose proof (Hbusy 0%nat _ eq_refl) as B0.
  pose proof (Hbusy 1%nat _ eq_refl) as B1.
  pose proof (Hbusy 2%nat _ eq_refl) as B2. simpl in B0, B1, B2.
  assert (ix = 0 \/ ix = 1 \/ ix = 2) as Hix' by lia.
  unfold find_free_delay_slot, NUM_POSE_DELAY_SLOTS.
  destruct Hix' as [-> | [-> | ->]]; simpl;
    repeat match goal with
           | |- context [?u =? 0] =>
               destruct (Z.eqb_spec u 0); [contradiction|];
               simpl; unfold NUM_POSE_DELAY_SLOTS; simpl
           end; reflexivity.
Qed.

Lemma wf_busy_ex : wf_device dev_busy_ex.
Proof.
  repeat split; try reflexivity; try discriminate.
  intros [|[|[|k]]] s; simpl; intros [= <-]; reflexivity.
Qed.

Lemma busy_ex_busy j s : delay_slots dev_busy_ex !! j = Some s -> use_count s <> 0.
Proof.
  destruct j as [|[|[|k]]]; simpl; intros [= <-]; simpl; discriminate.
Qed.

Lemma wf_dev_at_1_ex c : wf_device (dev_at_1_ex c).
Proof.
  repeat split; try reflexivity; try discriminate.
  intros [|[|[|k]]] s; simpl; intros [= <-]; reflexivity.
Qed.

(** X4. When every slot is in use the round-robin scan finds nothing, and
    after its three steps the round-robin index is back where it was: the
    device is unchanged. *)
Theorem find_free_none (dev : rift_tracked_device_priv) :
  wf_device dev ->
  (forall j s, delay_slots dev !! j = Some s -> use_count s <> 0) ->
  find_free_delay_slot dev = Done (None, dev).
Proof. exact (find_free_busy dev). Qed.

Lemma find_free_none_witness :
  find_free_delay_slot dev_busy_ex = Done (None, dev_busy_ex).
Proof. apply find_free_none; [exact wf_busy_ex | exact busy_ex_busy]. Defined.

(** The scan stopped after passing [d] slots. *)
Ltac passed_slots d :=
  exists d; eexists _, _; split; [lia|]; split; [vm_compute; reflexivity|];
  split; [reflexivity|]; split; [reflexivity|]; split; [simpl; assumption|];
  let d' := fresh "d'" in let s' := fresh "s'" in
  let Hd' := fresh "Hd'" in let Hs' := fresh "Hs'" in
  intros d' s' Hd' Hs';
  assert (d' = 0 \/ d' = 1) as [-> | ->] by lia;
  first [ lia | (vm_compute in Hs'; injection Hs' as <-; simpl; assumption) ].

(** X5. When a slot is free the scan returns the first free slot in
    round-robin order from the round-robin index (every slot it passed is in
    use), and leaves the index just behind that slot. *)
Theorem find_free_round_robin (dev : rift_tracked_device_priv) :
  wf_device dev ->
  (exists j s, delay_slots dev !! j = Some s /\ use_count s = 0) ->
  exists d k s,
    0 <= d < NUM_POSE_DELAY_SLOTS /\
    k = (delay_slot_index dev + d) mod NUM_POSE_DELAY_SLOTS /\
    find_free_delay_slot dev =
      Done (Some k, set_delay_slot_index dev ((k + 1) mod NUM_POSE_DELAY_SLOTS)) /\
    delay_slots dev !! Z.to_nat k = Some s /\ use_count s = 0 /\
    forall d' s',
      0 <= d' < d ->
      delay_slots dev
        !! Z.to_nat ((delay_slot_index dev + d') mod NUM_POSE_DELAY_SLOTS) = Some s' ->
      use_count s' <> 0.
Proof.
  intros Hwf (j & s & Hj & Hfree).
  ring_shape dev Hwf.
  assert (ix = 0 \/ ix = 1 \/ ix = 2) as Hix' by lia.
  unfold find_free_delay_slot, NUM_POSE_DELAY_SLOTS.
  destruct Hix' as [-> | [-> | ->]]; simpl;
    repeat match goal with
           | |- context [?u =? 0] =>
               destruct (Z.eqb_spec u 0); simpl; unfold NUM_POSE_DELAY_SLOTS; simpl
           end;
    try (first [ passed_slots 0 | passed_slots 1 | passed_slots 2 ]);
    destruct j as [|[|[|j]]]; simpl in Hj; try discriminate Hj;
    injection Hj as <-; simpl in Hfree; contradiction.
Qed.

(** The scan starts at slot 1, which a frame uses, and stops at slot 2. *)
Lemma find_free_round_robin_witness :
  exists d k s,
    0 <= d < NUM_POSE_DELAY_SLOTS /\
    k = (delay_slot_index (dev_at_1_ex 1) + d) mod NUM_POSE_DELAY_SLOTS /\
    find_free_delay_slot (dev_at_1_ex 1) =
      Done (Some k,
            set_delay_slot_index (dev_at_1_ex 1) ((k + 1) mod NUM_POSE_DELAY_SLOTS)) /\
    delay_slots (dev_at_1_ex 1) !! Z.to_nat k = Some s /\
    use_count s = 0 /\
    forall d' s',
      0 <= d' < d ->
      delay_slots (dev_at_1_ex 1)
        !! Z.to_nat ((delay_slot_index (dev_at_1_ex 1) + d')
                     mod NUM_POSE_DELAY_SLOTS) = Some s' ->
      use_count s' <> 0.
Proof.
  apply (find_free_round_robin (dev_at_1_ex 1)).
  - apply wf_dev_at_1_ex.
  - exists 0%nat, (mk_slot 0 false 0 0). split; reflexivity.
Defined.

(** *** The ring in good order *)

Lemma slot_ok_released s : slot_ok s -> slot_ok (released s).
Proof.
  destruct s as [i v c t]. unfold slot_ok, released. simpl. intros [H0 Hv].
  destruct (Z.gtb_spec c 0); simpl.
  - destruct (Z.eqb_spec (c - 1) 0); simpl; (split; [lia|]); [lia|].
    intros _. apply Hv. lia.
  - destruct (Z.eqb_spec c 0); simpl; (split; [lia|]); lia.
Qed.

Lemma release_ring_ok dev r :
  ring_ok dev -> wf_dev_info r ->
  exists dev1 r1,
    rift_tracked_device_exposure_release_locked dev r = Done (dev1, r1) /\
    ring_ok dev1 /\ wf_dev_info r1.
Proof.
  intros (Hwf & Hok) Hk.
  destruct (release_total dev r Hwf Hk) as (dev1 & r1 & Hr & Hwf1 & Hk1 & Hcase).
  exists dev1, r1. split; [exact Hr|]. split; [|exact Hk1]. split; [exact Hwf1|].
  destruct Hcase as [(s & _ & Hs & _ & _ & ->) | (-> & _)]; [|exact Hok].
  apply Forall_insert; [exact Hok|]. apply slot_ok_released.
  exact (proj1 (Forall_lookup _ _) Hok _ _ Hs).
Qed.

Lemma wf_dev_info_none r : wf_dev_info (set_fusion_slot r (-1)).
Proof. unfold wf_dev_info, NUM_POSE_DELAY_SLOTS. simpl. lia. Qed.

Lemma claim_ring_ok dev r :
  ring_ok dev -> claimable dev -> wf_dev_info r ->
  exists dev1 r1,
    rift_tracked_device_exposure_claim dev r = Done (dev1, r1) /\
    ring_ok dev1 /\ wf_dev_info r1.
Proof.
  intros (Hwf & Hok) (_ & Hc) Hk.
  destruct (slot_cases dev r Hwf Hk) as [E | (s & Hne & Hs)].
  - exists dev, (set_fusion_slot r (-1)).
    split; [apply claim_lost; auto|]. split; [split; assumption|].
    apply wf_dev_info_none.
  - destruct (slot_matches s r) eqn:Hm.
    + do 2 eexists. split.
      { apply (claim_match dev r s); try assumption.
        exact (proj1 (Forall_lookup _ _) Hc _ _ Hs). }
      split; [|exact Hk]. split.
      * apply (proj2 (wf_device_set_slot dev _ s (set_use_count s (use_count s + 1))
                        [] Hwf Hs eq_refl)).
      * simpl. apply Forall_insert; [exact Hok|].
        pose proof (proj1 (Forall_lookup _ _) Hok _ _ Hs) as [H0 _].
        apply slot_matches_true in Hm as [Hv _].
        split; simpl; [lia|]. intros _. exact Hv.
    + exists dev, (set_fusion_slot r (-1)).
      split; [apply claim_lost; eauto|]. split; [split; assumption|].
      apply wf_dev_info_none.
Qed.

(** A claim and then a release with the record the claim left. *)
Lemma claim_then_release dev r :
  ring_ok dev -> claimable dev -> wf_dev_info r ->
  exists d1 r1 d2 r2,
    rift_tracked_device_exposure_claim dev r = Done (d1, r1) /\
    rift_tracked_device_exposure_release_locked d1 r1 = Done (d2, r2) /\
    fusion_slot r2 = -1 /\
    use_count <$> delay_slots d2 = use_count <$> delay_slots dev /\
    (d2 = dev \/
     exists s, fusion_slot r <> -1 /\
       delay_slots dev !! Z.to_nat (fusion_slot r) = Some s /\
       slot_matches s r = true /\ use_count s = 0 /\
       delay_slots d2 = <[Z.to_nat (fusion_slot r) := set_valid s false]> (delay_slots dev) /\
       ukf_fusion d2 = ukf_fusion dev ++ [ukf_release_delay_slot (fusion_slot r)]).
Proof.
  intros (Hwf & Hok) (_ & Hc) Hk.
  assert (forall r', fusion_slot r' = -1 ->
            rift_tracked_device_exposure_release_locked dev r' = Done (dev, r')) as Hnone.
  { intros r' E. apply release_none; [exact Hwf| |left; exact E].
    unfold wf_dev_info, NUM_POSE_DELAY_SLOTS. lia. }
  destruct (slot_cases dev r Hwf Hk) as [E | (s & Hne & Hs)].
  - exists dev, (set_fusion_slot r (-1)), dev, (set_fusion_slot r (-1)).
    split; [apply claim_lost; auto|]. split; [apply Hnone; reflexivity|]. auto.
  - destruct (slot_matches s r) eqn:Hm.
    + pose proof (proj1 (Forall_lookup _ _) Hc _ _ Hs) as Hlt. simpl in Hlt.
      pose proof (proj1 (Forall_lookup _ _) Hok _ _ Hs) as [H0 _].
      set (k := Z.to_nat (fusion_slot r)) in *.
      set (s1 := set_use_count s (use_count s + 1)).
      set (d1 := set_delay_slots dev (<[k := s1]> (delay_slots dev))).
      assert (k < length (delay_slots dev))%nat as Hlen
        by (eapply lookup_lt_Some; exact Hs).
      assert (wf_device d1) as Hwf1
        by apply (proj2 (wf_device_set_slot dev k s s1 [] Hwf Hs eq_refl)).
      assert (delay_slots d1 !! k = Some s1) as Hs1
        by (simpl; apply list_lookup_insert_eq; exact Hlen).
      assert (slot_matches s1 r = true) as Hm1 by exact Hm.
      pose proof (release_match d1 r s1 Hwf1 Hk Hne Hs1 Hm1) as Hrel.
      fold k in Hrel. simpl delay_slots in Hrel.
      rewrite list_insert_insert_eq in Hrel.
      eexists d1, r, _, _. split; [apply (claim_match dev r s); assumption|].
      split; [exact Hrel|]. split; [reflexivity|].
      assert (released s1 = if use_count s =? 0 then set_valid s false else s) as Hrs.
      { destruct s as [i v c t]. unfold released, s1. simpl in *.
        destruct (Z.gtb_spec (c + 1) 0); [|lia]. simpl.
        replace (c + 1 - 1) with c by lia.
        destruct (c =? 0); reflexivity. }
      rewrite Hrs. clear Hrel.
      destruct (Z.eqb_spec (use_count s) 0) as [Hz|Hnz].
      * simpl. rewrite Hz. simpl. split.
        -- rewrite list_fmap_insert. apply list_insert_id.
           rewrite list_lookup_fmap, Hs. simpl. rewrite Hz. reflexivity.
        -- right. exists s. repeat split; try assumption.
      * destruct (Z.eqb_spec (use_count s) 0); [contradiction|].
        unfold d1. simpl. rewrite list_insert_id by exact Hs.
        split; [reflexivity|]. left. destruct dev; reflexivity.
    + exists dev, (set_fusion_slot r (-1)), dev, (set_fusion_slot r (-1)).
      split; [apply claim_lost; eauto|]. split; [apply Hnone; reflexivity|]. auto.
Qed.

Section WithCollaborators.
Context `{Collaborators}.

(** An exposure edge with every slot in use. *)
Lemma update_exposure_busy dev dev_info0 :
  wf_device dev ->
  (forall j s, delay_slots dev !! j = Some s -> use_count s <> 0) ->
  exists dev1 dev_info,
    rift_tracked_device_update_exposure dev dev_info0 = Done (dev1, dev_info) /\
    fusion_slot dev_info = -1 /\
    info_device_time_ns dev_info = device_time_ns dev /\
    delay_slots dev1 = delay_slots dev /\
    delay_slot_index dev1 = delay_slot_index dev /\
    ukf_fusion dev1 = ukf_fusion dev ++ [ukf_get_pose_at (device_time_ns dev)].
Proof.
  intros Hwf Hbusy.
  unfold rift_tracked_device_update_exposure.
  rewrite (find_free_busy dev Hwf Hbusy). simpl.
  do 2 eexists. split; [reflexivity|]. repeat split.
Qed.

Lemma update_exposure_ring_ok dev dev_info0 :
  ring_ok dev ->
  exists dev1 dev_info,
    rift_tracked_device_update_exposure dev dev_info0 = Done (dev1, dev_info) /\
    ring_ok dev1 /\ wf_dev_info dev_info.
Proof.
  intros (Hwf & Hok).
  destruct (free_or_busy dev) as [Hfree | Hbusy].
  - destruct (update_exposure_alloc dev dev_info0 Hwf Hfree)
      as (dev1 & r1 & k & s & Hu & Hwf1 & Hk & Hfs & _ & _ & _ & Hsl & _).
    exists dev1, r1. split; [exact Hu|]. split.
    + split; [exact Hwf1|]. rewrite Hsl. apply Forall_insert; [exact Hok|].
      split; simpl; lia.
    + unfold wf_dev_info. rewrite Hfs. lia.
  - destruct (update_exposure_busy dev dev_info0 Hwf Hbusy)
      as (dev1 & r1 & Hu & Hfs & _ & Hsl & Hix & _).
    exists dev1, r1. split; [exact Hu|]. split.
    + split; [|rewrite Hsl; exact Hok].
      unfold wf_device. rewrite Hsl, Hix. exact Hwf.
    + unfold wf_dev_info, NUM_POSE_DELAY_SLOTS. rewrite Hfs. lia.
Qed.

(** An exposure edge and the slots that frames use. *)
Lemma update_exposure_used dev dev_info0 :
  wf_device dev ->
  exists dev1 dev_info,
    rift_tracked_device_update_exposure dev dev_info0 = Done (dev1, dev_info) /\
    use_count <$> delay_slots dev1 = use_count <$> delay_slots dev /\
    forall j s, delay_slots dev !! j = Some s -> use_count s <> 0 ->
                delay_slots dev1 !! j = Some s.
Proof.
  intros Hwf.
  destruct (free_or_busy dev) as [Hfree | Hbusy].
  - destruct (update_exposure_alloc dev dev_info0 Hwf Hfree)
      as (dev1 & r1 & k & s & Hu & _ & _ & _ & _ & Hs & Hc & Hsl & _).
    exists dev1, r1. split; [exact Hu|]. rewrite Hsl. split.
    + rewrite list_fmap_insert. apply list_insert_id.
      rewrite list_lookup_fmap, Hs. simpl. rewrite Hc. reflexivity.
    + intros j s' Hj Hne. destruct (decide (Z.to_nat k = j)) as [<-|Hjk].
      * rewrite Hs in Hj. injection Hj as <-. contradiction.
      * rewrite list_lookup_insert_ne by exact Hjk. exact Hj.
  - destruct (update_exposure_busy dev dev_info0 Hwf Hbusy)
      as (dev1 & r1 & Hu & _ & _ & Hsl & _).
    exists dev1, r1. split; [exact Hu|]. rewrite Hsl. auto.
Qed.

(** A record of an older exposure, once its slot has gone to a new one. *)
Lemma stale_record dev dev_info0 dev1 dev_info r :
  wf_device dev ->
  (exists j s, delay_slots dev !! j = Some s /\ use_count s = 0) ->
  rift_tracked_device_update_exposure dev dev_info0 = Done (dev1, dev_info) ->
  fusion_slot r = fusion_slot dev_info ->
  info_device_time_ns r <> device_time_ns dev ->
  rift_tracked_device_exposure_claim dev1 r = Done (dev1, set_fusion_slot r (-1)) /\
  rift_tracked_device_exposure_release_locked dev1 r = Done (dev1, r).
Proof.
  intros Hwf Hfree Hu Hfs Hts.
  destruct (update_exposure_alloc dev dev_info0 Hwf Hfree)
    as (dev1' & r1 & k & s & Hu' & Hwf1 & Hk & Hfs1 & _ & Hs & _ & Hsl & _).
  rewrite Hu in Hu'. injection Hu' as <- <-.
  assert (wf_dev_info r) as Hwr by (unfold wf_dev_info; lia).
  assert (exists s1, delay_slots dev1 !! Z.to_nat (fusion_slot r) = Some s1 /\
                     slot_matches s1 r = false) as Hst.
  { exists (mk_slot k true 0 (device_time_ns dev)). split.
    - rewrite Hsl, Hfs, Hfs1. apply list_lookup_insert_eq.
      eapply lookup_lt_Some. exact Hs.
    - apply slot_matches_false. right. simpl. congruence. }
  split; [apply claim_lost | apply release_none]; auto.
Qed.

End WithCollaborators.

Lemma ring_ok_ex c t : 0 <= c -> ring_ok (dev_ex (ring_ex c) t).
Proof.
  intros Hc. split; [apply wf_dev_ex|].
  repeat constructor; simpl; try lia; intros; try lia; reflexivity.
Qed.


(** X6. An exposure edge while frames use all three slots gets no slot: the
    record's [fusion_slot] is -1, the ring and its round-robin index are as
    before, and the filter is only asked for the pose at the device time. *)
Theorem update_exposure_no_free_slot `{Collaborators}
    (dev : rift_tracked_device_priv) (dev_info0 : rift_tracked_device_exposure_info) :
  wf_device dev ->
  (forall j s, delay_slots dev !! j = Some s -> use_count s <> 0) ->
  exists dev1 dev_info,
    rift_tracked_device_update_exposure dev dev_info0 = Done (dev1, dev_info) /\
    fusion_slot dev_info = -1 /\
    info_device_time_ns dev_info = device_time_ns dev /\
    delay_slots dev1 = delay_slots dev /\
    delay_slot_index dev1 = delay_slot_index dev /\
    ukf_fusion dev1 = ukf_fusion dev ++ [ukf_get_pose_at (device_time_ns dev)].
Proof. exact (update_exposure_busy dev dev_info0). Qed.

Lemma update_exposure_no_free_slot_witness :
  exists dev1 dev_info,
    @rift_tracked_device_update_exposure collab_ex dev_busy_ex (info_ex 0 0)
      = Done (dev1, dev_info) /\
    fusion_slot dev_info = -1 /\
    info_device_time_ns dev_info = device_time_ns dev_busy_ex /\
    delay_slots dev1 = delay_slots dev_busy_ex /\
    delay_slot_index dev1 = delay_slot_index dev_busy_ex /\
    ukf_fusion dev1 =
      ukf_fusion dev_busy_ex ++ [ukf_get_pose_at (device_time_ns dev_busy_ex)].
Proof.
  apply (@update_exposure_no_free_slot collab_ex dev_busy_ex (info_ex 0 0)).
  - exact wf_busy_ex.
  - exact busy_ex_busy.
Defined.

(** X7. An exposure edge always completes on a well-formed ring, changes no
    use count, and leaves every slot that a frame uses exactly as it was:
    only a slot with [use_count = 0] is ever given to the new exposure. *)
Theorem update_exposure_keeps_used_slots `{Collaborators}
    (dev : rift_tracked_device_priv) (dev_info0 : rift_tracked_device_exposure_info) :
  wf_device dev ->
  exists dev1 dev_info,
    rift_tracked_device_update_exposure dev dev_info0 = Done (dev1, dev_info) /\
    use_count <$> delay_slots dev1 = use_count <$> delay_slots dev /\
    forall j s, delay_slots dev !! j = Some s -> use_count s <> 0 ->
                delay_slots dev1 !! j = Some s.
Proof. exact (update_exposure_used dev dev_info0). Qed.

Lemma update_exposure_keeps_used_slots_witness :
  exists dev1 dev_info,
    @rift_tracked_device_update_exposure collab_ex (dev_at_1_ex 1) (info_ex 0 0)
      = Done (dev1, dev_info) /\
    use_count <$> delay_slots dev1 = use_count <$> delay_slots (dev_at_1_ex 1) /\
    forall j s, delay_slots (dev_at_1_ex 1) !! j = Some s -> use_count s <> 0 ->
                delay_slots dev1 !! j = Some s.
Proof.
  apply (@update_exposure_keeps_used_slots collab_ex (dev_at_1_ex 1) (info_ex 0 0)).
  apply wf_dev_at_1_ex.
Defined.

(** X8. The three slot operations keep the ring in good order.  On a ring
    that is well formed, with no negative use count and every slot in use
    valid, an exposure edge, a release and (while the counts are below
    [INT_MAX]) a claim each complete and leave such a ring, and a record that
    names a slot of the ring or none. *)
Theorem ring_ok_preserved `{Collaborators}
    (dev : rift_tracked_device_priv) (r : rift_tracked_device_exposure_info) :
  ring_ok dev -> wf_dev_info r ->
  (exists dev1 r1,
     rift_tracked_device_update_exposure dev r = Done (dev1, r1) /\
     ring_ok dev1 /\ wf_dev_info r1) /\
  (exists dev1 r1,
     rift_tracked_device_exposure_release_locked dev r = Done (dev1, r1) /\
     ring_ok dev1 /\ wf_dev_info r1) /\
  (claimable dev ->
   exists dev1 r1,
     rift_tracked_device_exposure_claim dev r = Done (dev1, r1) /\
     ring_ok dev1 /\ wf_dev_info r1).
Proof.
  intros Hok Hk. split; [|split].
  - apply update_exposure_ring_ok. exact Hok.
  - apply release_ring_ok; assumption.
  - intros Hc. apply claim_ring_ok; assumption.
Qed.

Lemma ring_ok_preserved_witness :
  (exists dev1 r1,
     @rift_tracked_device_update_exposure collab_ex (dev_ex (ring_ex 1) 2000)
       (info_ex 1000 1) = Done (dev1, r1) /\
     ring_ok dev1 /\ wf_dev_info r1) /\
  (exists dev1 r1,
     rift_tracked_device_exposure_release_locked (dev_ex (ring_ex 1) 2000)
       (info_ex 1000 1) = Done (dev1, r1) /\
     ring_ok dev1 /\ wf_dev_info r1) /\
  (claimable (dev_ex (ring_ex 1) 2000) ->
   exists dev1 r1,
     rift_tracked_device_exposure_claim (dev_ex (ring_ex 1) 2000)
       (info_ex 1000 1) = Done (dev1, r1) /\
     ring_ok dev1 /\ wf_dev_info r1).
Proof.
  apply (@ring_ok_preserved collab_ex (dev_ex (ring_ex 1) 2000) (info_ex 1000 1)).
  - apply ring_ok_ex. lia.
  - unfold wf_dev_info, NUM_POSE_DELAY_SLOTS. simpl. lia.
Defined.



(** X10. Once an exposure edge has given a slot to a new exposure, a record
    of an older exposure (another device time) that still names that slot is
    stale: a claim with it resets its [fusion_slot] to -1 and a release with
    it does nothing, and neither changes the device. *)
Theorem stale_record_is_dropped `{Collaborators}
    (dev : rift_tracked_device_priv) (dev_info0 : rift_tracked_device_exposure_info) :
  wf_device dev ->
  (exists j s, delay_slots dev !! j = Some s /\ use_count s = 0) ->
  exists dev1 dev_info,
    rift_tracked_device_update_exposure dev dev_info0 = Done (dev1, dev_info) /\
    fusion_slot dev_info <> -1 /\
    forall r,
      fusion_slot r = fusion_slot dev_info ->
      info_device_time_ns r <> device_time_ns dev ->
      rift_tracked_device_exposure_claim dev1 r = Done (dev1, set_fusion_slot r (-1)) /\
      rift_tracked_device_exposure_release_locked dev1 r = Done (dev1, r).
Proof.
  intros Hwf Hfree.
  destruct (update_exposure_alloc dev dev_info0 Hwf Hfree)
    as (dev1 & r1 & k & s & Hu & _ & Hk & Hfs & _).
  exists dev1, r1. split; [exact Hu|]. split; [lia|].
  intros r Hr Hts. exact (stale_record dev dev_info0 dev1 r1 r Hwf Hfree Hu Hr Hts).
Qed.

Lemma stale_record_is_dropped_witness :
  exists dev1 dev_info,
    @rift_tracked_device_update_exposure collab_ex (dev_at_1_ex 1) (info_ex 0 0)
      = Done (dev1, dev_info) /\
    fusion_slot dev_info <> -1 /\
    forall r,
      fusion_slot r = fusion_slot dev_info ->
      info_device_time_ns r <> device_time_ns (dev_at_1_ex 1) ->
      rift_tracked_device_exposure_claim dev1 r = Done (dev1, set_fusion_slot r (-1)) /\
      rift_tracked_device_exposure_release_locked dev1 r = Done (dev1, r).
Proof.
  apply (@stale_record_is_dropped collab_ex (dev_at_1_ex 1) (info_ex 0 0)).
  - apply wf_dev_at_1_ex.
  - exists 0%nat, (mk_slot 0 false 0 0). split; reflexivity.
Defined.

End DelaySlotMore.
(** ** Device time, view pose and model pose *)

Module DeviceMore.
Import Pose Tracker TrackerSetup Examples MoreExamples TrackerFacts.

Section WithCollaborators.
Context `{Collaborators}.

(** What an IMU update leaves outside the device time. *)
Lemma imu_update_frame dev local_ts device_ts dt smp dev' :
  rift_tracked_device_imu_update dev local_ts device_ts dt smp = Done dev' ->
  ukf_fusion dev' = ukf_fusion dev ++ [ukf_imu_update (device_time_ns dev') smp] /\
  delay_slots dev' = delay_slots dev /\
  delay_slot_index dev' = delay_slot_index dev /\
  model_pose dev' = model_pose dev /\
  last_observed_pose_ts dev' = last_observed_pose_ts dev /\
  fusion_to_model dev' = fusion_to_model dev /\
  base_id dev' = base_id dev /\
  (pending_imu_observations dev' =
     pending_imu_observations dev
       ++ [mk_imu_observation local_ts (device_time_ns dev') dt smp] \/
   pending_imu_observations dev' = []) /\
  Z.of_nat (length (pending_imu_observations dev')) < RIFT_MAX_PENDING_IMU_OBSERVATIONS.
Proof.
  unfold rift_tracked_device_imu_update. simpl.
  destruct (Z.leb_spec RIFT_MAX_PENDING_IMU_OBSERVATIONS
              (Z.of_nat (length (pending_imu_observations dev)))) as [|Hlt];
    [discriminate|].
  rewrite length_app. simpl length.
  destruct (Z.eqb_spec (Z.of_nat (length (pending_imu_observations dev) + 1))
              RIFT_MAX_PENDING_IMU_OBSERVATIONS) as [E|Hne].
  - unfold rift_tracked_device_send_imu_debug. simpl.
    destruct (pending_imu_observations dev ++ _) eqn:Happ.
    { apply (f_equal length) in Happ. rewrite length_app in Happ.
      simpl in Happ. lia. }
    intros [= <-]. simpl. repeat split; try reflexivity; [right; reflexivity|lia].
  - intros [= <-]. simpl. repeat split; try reflexivity; [left; reflexivity|].
    rewrite length_app. simpl. lia.
Qed.

End WithCollaborators.

Section WithCollaborators.
Context `{Collaborators}.

(** X11. The raw IMU timestamp is a 32-bit counter of microseconds.  When it
    wraps around (the new value is below the last one), an IMU update still
    advances the device time by the true gap, [device_ts + 2^32 -
    last_device_ts] microseconds, as long as that gap is at most 4294967
    us. *)
Theorem imu_update_wraps
    (dev : rift_tracked_device_priv) (local_ts device_ts : Z) (dt : float)
    (smp : imu_sample) :
  Z.of_nat (length (pending_imu_observations dev)) < RIFT_MAX_PENDING_IMU_OBSERVATIONS ->
  0 < device_time_ns dev -> device_time_ns dev + 2 ^ 32 <= 2 ^ 64 ->
  0 <= device_ts < last_device_ts dev -> last_device_ts dev < 2 ^ 32 ->
  device_ts + 2 ^ 32 - last_device_ts dev <= 4294967 ->
  exists dev',
    rift_tracked_device_imu_update dev local_ts device_ts dt smp = Done dev' /\
    last_device_ts dev' = device_ts /\
    device_time_ns dev' =
      device_time_ns dev + (device_ts + 2 ^ 32 - last_device_ts dev) * 1000.
Proof.
  intros Hp H0 Hmax Hts Hlast Hgap.
  destruct (imu_update_total dev local_ts device_ts dt smp Hp) as (dev' & Hu).
  exists dev'. split; [exact Hu|].
  split; [exact (proj1 (imu_update_time _ _ _ _ _ _ Hu))|].
  pose proof (imu_update_gap _ _ _ _ _ _ H0 Hmax Hu) as Hg. cbv zeta in Hg.
  assert (u32 (device_ts - last_device_ts dev)
          = device_ts + 2 ^ 32 - last_device_ts dev) as Hw.
  { unfold u32. symmetry. apply (Z.mod_unique _ _ (-1)); lia. }
  rewrite Hw in Hg. destruct Hg as [_ Hg]. specialize (Hg Hgap). lia.
Qed.


(** X13. Reading the view pose twice with no IMU update in between: the
    second read leaves the device as the first left it and returns the pose
    the first returned, with velocity and acceleration zero. *)
Theorem view_pose_read_twice (dev : rift_tracked_device_priv) :
  let first := rift_tracked_device_get_view_pose dev in
  rift_tracked_device_get_view_pose first.1
    = (first.1, (first.2.1.1, vec3f_zero, vec3f_zero)).
Proof.
  cbv zeta. unfold rift_tracked_device_get_view_pose at 2 3 4.
  destruct (Z.gtb_spec (device_time_ns dev) (last_reported_pose dev)) as [Hgt|Hle].
  - destruct (exp_filter_pose_run _ _ _) as [f out]. simpl.
    unfold rift_tracked_device_get_view_pose. simpl.
    destruct (Z.gtb_spec (device_time_ns dev) (device_time_ns dev)); [lia|].
    reflexivity.
  - simpl. unfold rift_tracked_device_get_view_pose.
    destruct (Z.gtb_spec (device_time_ns dev) (last_reported_pose dev)); [lia|].
    reflexivity.
Qed.

(** X14. The model pose is frozen in position while tracking is lost: when
    an IMU update brings the device time 500 ms or more past the last
    observed pose, the model pose read next has the position it had before,
    and that is the pose the device keeps. *)
Theorem model_pose_frozen_while_lost
    (dev : rift_tracked_device_priv) (local_ts device_ts : Z) (dt : float)
    (smp : imu_sample) :
  Z.of_nat (length (pending_imu_observations dev)) < RIFT_MAX_PENDING_IMU_OBSERVATIONS ->
  exists dev1,
    rift_tracked_device_imu_update dev local_ts device_ts dt smp = Done dev1 /\
    (POSE_LOST_THRESHOLD * 1000000
       <= u64 (device_time_ns dev1 - last_observed_pose_ts dev) ->
     pos (rift_tracked_device_get_model_pose_locked dev1).2.1.1 = pos (model_pose dev) /\
     model_pose (rift_tracked_device_get_model_pose_locked dev1).1
       = (rift_tracked_device_get_model_pose_locked dev1).2.1.1).
Proof.
  intros Hp.
  destruct (imu_update_total dev local_ts device_ts dt smp Hp) as (dev1 & Hu).
  exists dev1. split; [exact Hu|]. intros Hlost.
  destruct (imu_update_frame _ _ _ _ _ _ Hu) as (_ & _ & _ & Hm & Ho & _).
  unfold rift_tracked_device_get_model_pose_locked. simpl.
  rewrite Ho, Hm.
  destruct (Z.ltb_spec (u64 (device_time_ns dev1 - last_observed_pose_ts dev))
              (POSE_LOST_THRESHOLD * 1000000)); [lia|].
  split; reflexivity.
Qed.

End WithCollaborators.

Lemma imu_update_wraps_witness :
  exists dev',
    @rift_tracked_device_imu_update collab_ex dev_wrap_ex 0 50 (1 # 1000)%Q
      imu_sample_ex = Done dev' /\
    last_device_ts dev' = 50 /\
    device_time_ns dev' =
      device_time_ns dev_wrap_ex + (50 + 2 ^ 32 - last_device_ts dev_wrap_ex) * 1000.
Proof.
  apply (@imu_update_wraps collab_ex dev_wrap_ex 0 50 (1 # 1000)%Q imu_sample_ex);
    simpl; lia.
Defined.


Lemma model_pose_frozen_while_lost_witness :
  exists dev1,
    @rift_tracked_device_imu_update collab_ex dev_lost_ex 0 600100 (1 # 1000)%Q
      imu_sample_ex = Done dev1 /\
    (POSE_LOST_THRESHOLD * 1000000
       <= u64 (device_time_ns dev1 - last_observed_pose_ts dev_lost_ex) ->
     pos (@rift_tracked_device_get_model_pose_locked collab_ex dev1).2.1.1
       = pos (model_pose dev_lost_ex) /\
     model_pose (@rift_tracked_device_get_model_pose_locked collab_ex dev1).1
       = (@rift_tracked_device_get_model_pose_locked collab_ex dev1).2.1.1).
Proof.
  apply (@model_pose_frozen_while_lost collab_ex dev_lost_ex 0 600100 (1 # 1000)%Q
           imu_sample_ex).
  simpl. lia.
Defined.

Lemma send_imu_debug_spec dev :
  rift_tracked_device_send_imu_debug dev = set_pending dev [].
Proof.
  unfold rift_tracked_device_send_imu_debug.
  destruct dev as [? ? ? ? ? ? ? ? ? ? ? ? ? ? pend]. simpl.
  destruct pend; reflexivity.
Qed.

Lemma wf_device_set_pending dev l : wf_device dev -> wf_device (set_pending dev l).
Proof. intros Hwf. exact Hwf. Qed.

Section ModelPose.
Context `{Collaborators}.

(** The two cases of a pose update: the record matches its slot, or not. *)
Lemma model_pose_update_cases
    (dev : rift_tracked_device_priv) (e : rift_tracker_exposure_info)
    (pose : posef) (r : rift_tracked_device_exposure_info) :
  wf_device dev -> wf_dev_info r ->
  0 <= index dev < info_n_devices e ->
  info_devices e !! Z.to_nat (index dev) = Some r ->
  let pose1 := oposef_apply_inverse pose (fusion_to_model dev) in
  let pose2 := if base_id dev =? 0 then oposef_mirror_XZ pose1 else pose1 in
  (forall s,
     fusion_slot r <> -1 ->
     delay_slots dev !! Z.to_nat (fusion_slot r) = Some s ->
     slot_matches s r = true ->
     rift_tracked_device_model_pose_update dev e pose =
     Done (set_last_observed
             (ukf_tell (set_pending dev [])
                (ukf_pose_update (device_time_ns dev) pose2 (fusion_slot r)))
             (device_time_ns dev) pose2,
           pose2)) /\
  ((fusion_slot r = -1 \/
    exists s, delay_slots dev !! Z.to_nat (fusion_slot r) = Some s /\
              slot_matches s r = false) ->
   rift_tracked_device_model_pose_update dev e pose = Done (set_pending dev [], pose2)).
Proof.
  intros Hwf Hk Hix Hr pose1 pose2.
  assert (rift_tracked_device_model_pose_update dev e pose =
    (slot ← get_matching_delay_slot (set_pending dev []) r;
     match slot with
     | Some k =>
         s ← array_get (delay_slots dev) k;
         mret (set_last_observed
                 (ukf_tell (set_pending dev [])
                    (ukf_pose_update (device_time_ns dev) pose2 (slot_id s)))
                 (device_time_ns dev) pose2, pose2)
     | None => mret (set_pending dev [], pose2)
     end)) as ->.
  { unfold rift_tracked_device_model_pose_update.
    rewrite send_imu_debug_spec. simpl.
    destruct (Z.ltb_spec (index dev) (info_n_devices e)); [|lia].
    rewrite (array_get_Done _ _ r) by (lia || exact Hr). reflexivity. }
  rewrite (get_matching_delay_slot_spec _ _ (wf_device_set_pending dev [] Hwf) Hk).
  simpl. split.
  - intros s Hne Hs Hm.
    destruct (Z.eqb_spec (fusion_slot r) (-1)); [contradiction|].
    rewrite Hs, Hm. simpl.
    assert (0 <= fusion_slot r) as Hk0 by (unfold wf_dev_info in Hk; lia).
    rewrite (array_get_Done _ _ s Hk0 Hs). simpl.
    destruct Hwf as (_ & Hid & _). rewrite (Hid _ _ Hs), Z2Nat.id by exact Hk0.
    reflexivity.
  - intros [E | (s & Hs & Hm)].
    + rewrite E. reflexivity.
    + destruct (Z.eqb_spec (fusion_slot r) (-1)); [reflexivity|].
      rewrite Hs, Hm. reflexivity.
Qed.

(** X15. A pose observed in a frame reaches the filter only through a delay
    slot that is still the frame's.  If the device's record in the frame's
    exposure info matches its slot (valid, same device time), the filter gets
    the pose for that slot, stamped with the present device time, and the pose
    becomes the last one observed, at that time.  If the record names no slot
    or a slot that has gone to another exposure, the filter is not told and
    the last observed pose stays as it was.  Either way the pending IMU
    observations are flushed, and the pose handed back is converted to the
    fusion frame. *)
Theorem model_pose_update_spec
    (dev : rift_tracked_device_priv) (e : rift_tracker_exposure_info)
    (pose : posef) (r : rift_tracked_device_exposure_info) :
  wf_device dev -> wf_dev_info r ->
  0 <= index dev < info_n_devices e ->
  info_devices e !! Z.to_nat (index dev) = Some r ->
  let pose1 := oposef_apply_inverse pose (fusion_to_model dev) in
  let pose2 := if base_id dev =? 0 then oposef_mirror_XZ pose1 else pose1 in
  (forall s,
     fusion_slot r <> -1 ->
     delay_slots dev !! Z.to_nat (fusion_slot r) = Some s ->
     slot_matches s r = true ->
     rift_tracked_device_model_pose_update dev e pose =
     Done (set_last_observed
             (ukf_tell (set_pending dev [])
                (ukf_pose_update (device_time_ns dev) pose2 (fusion_slot r)))
             (device_time_ns dev) pose2,
           pose2)) /\
  ((fusion_slot r = -1 \/
    exists s, delay_slots dev !! Z.to_nat (fusion_slot r) = Some s /\
              slot_matches s r = false) ->
   rift_tracked_device_model_pose_update dev e pose = Done (set_pending dev [], pose2)).
Proof. exact (model_pose_update_cases dev e pose r). Qed.

End ModelPose.

Lemma model_pose_update_spec_witness :
  let dev := dev_ex (ring_ex 1) 2000 in
  let r := info_ex 1000 1 in
  (forall s,
     fusion_slot r <> -1 ->
     delay_slots dev !! Z.to_nat (fusion_slot r) = Some s ->
     slot_matches s r = true ->
     @rift_tracked_device_model_pose_update collab_ex dev exposure_7_ex pose_ex =
     Done (set_last_observed
             (ukf_tell (set_pending dev [])
                (ukf_pose_update (device_time_ns dev) pose_ex (fusion_slot r)))
             (device_time_ns dev) pose_ex,
           pose_ex)) /\
  ((fusion_slot r = -1 \/
    exists s, delay_slots dev !! Z.to_nat (fusion_slot r) = Some s /\
              slot_matches s r = false) ->
   @rift_tracked_device_model_pose_update collab_ex dev exposure_7_ex pose_ex
     = Done (set_pending dev [], pose_ex)).
Proof.
  apply (@model_pose_update_spec collab_ex (dev_ex (ring_ex 1) 2000) exposure_7_ex
           pose_ex (info_ex 1000 1)).
  - apply wf_dev_ex.
  - unfold wf_dev_info, NUM_POSE_DELAY_SLOTS. simpl. lia.
  - simpl. lia.
  - reflexivity.
Defined.

End DeviceMore.
(** ** Calibration and pose acceptance *)

Module SensorMore.
Import Pose Tracker TrackerSetup FrameQueue Sensor Examples MoreExamples
  TrackerFacts SensorFacts.

Section WithCollaborators.
Context `{Collaborators} `{SensorCollaborators}.



End WithCollaborators.

Section Calibration.
Context `{Collaborators} `{SensorCollaborators}.

Lemma buf_store_all buf bs :
  length buf = 128%nat -> (128 <= length bs)%nat ->
  buf_store buf 0 (take 128 bs) = take 128 bs.
Proof.
  intros Hb Hl. unfold buf_store. rewrite Hb. simpl.
  rewrite take_idemp, length_take, Nat.min_l by lia.
  rewrite drop_ge by lia. apply app_nil_r.
Qed.

Lemma take_drop_take128 (bs : list Byte.byte) off :
  (off + 4 <= 128)%nat -> take 4 (drop off (take 128 bs)) = take 4 (drop off bs).
Proof.
  intros Ho. rewrite skipn_firstn_comm, take_take. f_equal. lia.
Qed.

(** X17. CV1 calibration.  When the flash read succeeds and delivers the 128
    bytes asked for, the calibration is taken from them alone (whatever the
    local buffer held): the focal length at offset 0x30 serves for both fx and
    fy, cx and cy come from 0x34 and 0x38, the fisheye flag is set, and
    [dist_coeffs] becomes [k1, k2, k3, k4] from offsets 0x48 to 0x54 followed
    by the fifth coefficient as it was. *)
Theorem cv1_calibration
    (ctx : rift_sensor_ctx) (buf : list Byte.byte) (ret : Z) (bs : list Byte.byte) :
  rift_sensor_esp770u_flash_read 0x1d000 128 = (ret, bs) ->
  0 <= ret -> (128 <= length bs)%nat ->
  length buf = 128%nat -> length (dist_coeffs ctx) = 5%nat ->
  let ld off := double_of_float (le_combine (take 4 (drop off bs))) in
  exists k_4,
    dist_coeffs ctx !! 4%nat = Some k_4 /\
    rift_sensor_get_calibration ctx CV1_PID buf =
    Done (0, set_calibration ctx
               [ld 0x30; double_0_0; ld 0x34; double_0_0; ld 0x30; ld 0x38;
                double_0_0; double_0_0; double_1_0]%nat
               true
               [ld 0x48; ld 0x4c; ld 0x50; ld 0x54; k_4]%nat).
Proof.
  intros Hr Hret Hl Hb Hk ld.
  unfold rift_sensor_get_calibration.
  rewrite Z.eqb_refl, Hr.
  destruct (Z.ltb_spec ret 0); [lia|].
  rewrite (buf_store_all buf bs Hb Hl).
  rewrite !buf_load_Done by (rewrite length_take; lia).
  rewrite !take_drop_take128 by (simpl; lia). simpl.
  destruct (dist_coeffs ctx) as [|k0 [|k1 [|k2 [|k3 [|k4 [|]]]]]]; try discriminate Hk.
  exists k4. split; reflexivity.
Qed.

(** X18. DK2 calibration, for any EEPROM content.  When the four block reads
    succeed and fill the 128-byte buffer, fx, fy, cx, cy are the doubles at
    offsets 18, 30, 42, 54, the fisheye flag is cleared, and [dist_coeffs]
    becomes [k1, p1, p2, d, k3] with k1, p1, p2, k3 from offsets 66, 90, 102,
    114 and [d] the fourth coefficient as it was: the value k2 at offset 78
    is not kept. *)
Theorem dk2_calibration_layout
    (ctx : rift_sensor_ctx) (buf : list Byte.byte) (ret : Z) (buf' : list Byte.byte) :
  dk2_read_blocks [0; 32; 64; 96]%nat buf = (ret, buf') ->
  0 <= ret -> length buf' = 128%nat -> length (dist_coeffs ctx) = 5%nat ->
  let ld off := le_combine (take 8 (drop off buf')) in
  exists k_3,
    dist_coeffs ctx !! 3%nat = Some k_3 /\
    rift_sensor_get_calibration ctx DK2_PID buf =
    Done (0, set_calibration ctx
               [ld 18; double_0_0; ld 42; double_0_0; ld 30; ld 54;
                double_0_0; double_0_0; double_1_0]%nat
               false
               [ld 66; ld 90; ld 102; k_3; ld 114]%nat).
Proof. exact (dk2_calibration ctx buf ret buf'). Qed.

End Calibration.


Lemma cv1_calibration_witness :
  exists k_4,
    dist_coeffs sensor_cv1_ex !! 4%nat = Some k_4 /\
    @rift_sensor_get_calibration sensor_collab_cv1_ex sensor_cv1_ex 0x0211
      (repeat Byte.x00 128) =
    Done (0, set_calibration sensor_cv1_ex
               [0x3F800000; double_0_0; 0x40000000; double_0_0; 0x3F800000; 0x40400000;
                double_0_0; double_0_0; double_1_0]
               true
               [0x40800000; 0x40A00000; 0x40C00000; 0x40E00000; k_4]).
Proof.
  exact (@cv1_calibration sensor_collab_cv1_ex sensor_cv1_ex (repeat Byte.x00 128)
           0 (take 128 cv1_flash_ex) eq_refl (Z.le_refl 0) (Nat.le_refl 128)
           eq_refl eq_refl).
Defined.

Lemma dk2_calibration_layout_witness :
  exists k_3,
    dist_coeffs sensor_ex !! 3%nat = Some k_3 /\
    @rift_sensor_get_calibration sensor_collab_ex sensor_ex 0x0201
      (repeat Byte.x00 128) =
    Done (0, set_calibration sensor_ex
               [dbl_1; double_0_0; dbl_3; double_0_0; dbl_2; dbl_4;
                double_0_0; double_0_0; double_1_0]
               false
               [dbl_5; dbl_7; dbl_8; k_3; dbl_9]).
Proof.
  exact (@dk2_calibration_layout sensor_collab_ex sensor_ex (repeat Byte.x00 128)
           0 dk2_eeprom_ex eq_refl (Z.le_refl 0) eq_refl eq_refl).
Defined.

(** *** Accepted poses *)

Lemma set_pending_same dev : pending_imu_observations dev = [] -> set_pending dev [] = dev.
Proof. destruct dev. simpl. intros ->. reflexivity. Qed.

Lemma set_info_devices_same e l : l = info_devices e -> set_info_devices e l = e.
Proof. destruct e. simpl. intros ->. reflexivity. Qed.

Lemma get_matching_none dev r :
  wf_device dev -> wf_dev_info r ->
  (fusion_slot r = -1 \/
   exists s, delay_slots dev !! Z.to_nat (fusion_slot r) = Some s /\
             slot_matches s r = false) ->
  get_matching_delay_slot dev r = Done None.
Proof.
  intros Hwf Hk Hcase. rewrite (get_matching_delay_slot_spec _ _ Hwf Hk).
  destruct (Z.eqb_spec (fusion_slot r) (-1)) as [E|Hne]; [reflexivity|].
  destruct Hcase as [E | (s & Hs & Hm)]; [contradiction|].
  rewrite Hs, Hm. reflexivity.
Qed.

(** The release of a frame for one device completes, and leaves the frame's
    record of the device without a slot of its own. *)
Lemma frame_release_dev_total dev e :
  wf_device dev -> wf_exposure_info e -> 0 <= index dev ->
  exists d1 e1,
    rift_tracked_device_frame_release dev e = Done (d1, e1) /\
    wf_device d1 /\ index d1 = index dev /\
    pending_imu_observations d1 = pending_imu_observations dev /\
    spent d1 e1.
Proof.
  intros Hwf (Hn & Hinfos) Hix. unfold rift_tracked_device_frame_release.
  destruct (Z.ltb_spec (index dev) (info_n_devices e)) as [Hlt|Hge].
  - destruct (lookup_lt_is_Some_2 (info_devices e) (Z.to_nat (index dev)))
      as [r Hr]; [lia|].
    pose proof (proj1 (Forall_lookup _ _) Hinfos _ _ Hr) as Hk.
    rewrite (array_get_Done _ _ r Hix Hr). cbn [mbind outcome_mbind outcome_bind].
    assert (Z.to_nat (index dev) < length (info_devices e))%nat as Hlen
      by (eapply lookup_lt_Some; exact Hr).
    assert (exists d1 r1,
      rift_tracked_device_exposure_release_locked dev r = Done (d1, r1) /\
      wf_device d1 /\ index d1 = index dev /\
      pending_imu_observations d1 = pending_imu_observations dev /\
      get_matching_delay_slot d1 r1 = Done None) as (d1 & r1 & Hrel & Hwf1 & Hi1 & Hp1 & Hg).
    { destruct (slot_cases dev r Hwf Hk) as [E | (s & Hne & Hs)].
      - exists dev, r. rewrite release_none by auto.
        split; [reflexivity|]. split; [exact Hwf|].
        split; [reflexivity|]. split; [reflexivity|].
        apply get_matching_none; auto.
      - destruct (slot_matches s r) eqn:Hm.
        + rewrite (release_match dev r s) by assumption.
          do 2 eexists. split; [reflexivity|].
          assert (wf_device
                    (set_delay_slots
                       (if use_count (released s) =? 0
                        then ukf_tell dev (ukf_release_delay_slot (fusion_slot r))
                        else dev)
                       (<[Z.to_nat (fusion_slot r) := released s]> (delay_slots dev))))
            as Hwf1.
          { destruct (use_count (released s) =? 0).
            - apply (proj1 (wf_device_set_slot dev _ s _ _ Hwf Hs (released_slot_id s))).
            - apply (proj2 (wf_device_set_slot dev _ s _ [] Hwf Hs (released_slot_id s))). }
          split; [exact Hwf1|].
          split; [destruct (use_count (released s) =? 0); reflexivity|].
          split; [destruct (use_count (released s) =? 0); reflexivity|].
          apply get_matching_none; [exact Hwf1| |left; reflexivity].
          unfold wf_dev_info, NUM_POSE_DELAY_SLOTS. simpl. lia.
        + exists dev, r. rewrite release_none by eauto.
          split; [reflexivity|]. split; [exact Hwf|].
          split; [reflexivity|]. split; [reflexivity|].
          apply get_matching_none; eauto. }
    rewrite Hrel. cbn [mbind outcome_mbind outcome_bind]. rewrite Hi1.
    rewrite array_set_Done by assumption. cbn [mbind outcome_mbind outcome_bind].
    exists d1. eexists. split; [reflexivity|].
    split; [exact Hwf1|]. split; [exact Hi1|]. split; [exact Hp1|].
    intros _. exists r1. rewrite Hi1. split; [|exact Hg].
    simpl. apply list_lookup_insert_eq. exact Hlen.
  - exists dev, e. split; [reflexivity|]. split; [exact Hwf|].
    split; [reflexivity|]. split; [reflexivity|]. intros Hlt. lia.
Qed.

(** With a record that has no slot of its own, a pose update and a release
    change nothing. *)
Lemma spent_release dev e :
  spent dev e -> 0 <= index dev ->
  rift_tracked_device_frame_release dev e = Done (dev, e).
Proof.
  intros Hsp Hix. unfold rift_tracked_device_frame_release.
  destruct (Z.ltb_spec (index dev) (info_n_devices e)) as [Hlt|Hge]; [|reflexivity].
  destruct (Hsp Hlt) as (r & Hr & Hg).
  rewrite (array_get_Done _ _ r Hix Hr). cbn [mbind outcome_mbind outcome_bind].
  unfold rift_tracked_device_exposure_release_locked. rewrite Hg.
  cbn [mbind outcome_mbind outcome_bind mret outcome_ret].
  rewrite array_set_Done by (lia || (eapply lookup_lt_Some; exact Hr)).
  cbn [mbind outcome_mbind outcome_bind mret outcome_ret].
  rewrite set_info_devices_same; [reflexivity|].
  apply list_insert_id. exact Hr.
Qed.

Section PoseAcceptance.
Context `{Collaborators} `{SensorCollaborators}.

Lemma spent_pose_update dev e pose :
  spent dev e -> 0 <= index dev -> pending_imu_observations dev = [] ->
  exists pose', rift_tracked_device_model_pose_update dev e pose = Done (dev, pose').
Proof.
  intros Hsp Hix Hp. unfold rift_tracked_device_model_pose_update.
  rewrite DeviceMore.send_imu_debug_spec, (set_pending_same dev Hp).
  destruct (Z.ltb_spec (index dev) (info_n_devices e)) as [Hlt|Hge];
    [|eexists; reflexivity].
  destruct (Hsp Hlt) as (r & Hr & Hg).
  rewrite (array_get_Done _ _ r Hix Hr). cbn [mbind outcome_mbind outcome_bind].
  rewrite Hg. eexists. reflexivity.
Qed.

Lemma model_pose_update_total dev e pose :
  wf_device dev -> wf_exposure_info e -> 0 <= index dev ->
  exists dA pose',
    rift_tracked_device_model_pose_update dev e pose = Done (dA, pose') /\
    wf_device dA /\ index dA = index dev /\ pending_imu_observations dA = [].
Proof.
  intros Hwf (Hn & Hinfos) Hix.
  destruct (Z.ltb_spec (index dev) (info_n_devices e)) as [Hlt|Hge].
  - destruct (lookup_lt_is_Some_2 (info_devices e) (Z.to_nat (index dev)))
      as [r Hr]; [lia|].
    pose proof (proj1 (Forall_lookup _ _) Hinfos _ _ Hr) as Hk.
    destruct (DeviceMore.model_pose_update_cases dev e pose r Hwf Hk (conj Hix Hlt) Hr)
      as [Hyes Hno].
    destruct (slot_cases dev r Hwf Hk) as [E | (s & Hne & Hs)].
    + do 2 eexists. split; [apply Hno; left; exact E|]. repeat split; apply Hwf.
    + destruct (slot_matches s r) eqn:Hm.
      * do 2 eexists. split; [apply (Hyes s Hne Hs Hm)|]. repeat split; apply Hwf.
      * do 2 eexists. split; [apply Hno; right; eauto|]. repeat split; apply Hwf.
  - unfold rift_tracked_device_model_pose_update.
    rewrite DeviceMore.send_imu_debug_spec. cbn [index set_pending].
    destruct (Z.ltb_spec (index dev) (info_n_devices e)); [lia|].
    do 2 eexists. split; [reflexivity|]. repeat split; apply Hwf.
Qed.

(** X19. The camera pose is set once.  Whatever a pose evaluation finds, a
    sensor that has its camera pose is left exactly as it is; and a sensor
    that does not have it yet passes no observation on: the device (its
    filter, its delay slots) and the frame are left as they are. *)
Theorem camera_pose_set_once
    (sensor s' : rift_sensor_ctx) (dev d' : rift_tracked_device_priv) (leds : rift_leds)
    (frame f' : rift_sensor_capture_frame)
    (ds ds' : rift_sensor_frame_device_state) :
  update_device_pose sensor dev leds frame ds = Done (s', d', f', ds') ->
  (have_camera_pose sensor = true -> s' = sensor) /\
  (have_camera_pose sensor = false -> d' = dev /\ f' = frame) /\
  s' = set_camera_pose sensor (have_camera_pose s') (camera_pose s').
Proof.
  unfold update_device_pose.
  destruct (bwobs frame) as [blobs|]; [|discriminate].
  cbn [mbind outcome_mbind outcome_bind mret outcome_ret].
  match goal with |- context [good_pose_match ?m] => destruct (good_pose_match m) end.
  - destruct (have_camera_pose sensor) eqn:Hcam.
    + destruct (rift_tracked_device_model_pose_update _ _ _) as [[dA pA]| |];
        cbn [mbind outcome_mbind outcome_bind]; try discriminate.
      destruct (rift_tracked_device_frame_release _ _) as [[dB eB]| |];
        cbn [mbind outcome_mbind outcome_bind]; try discriminate.
      intros [= <- <- <- <-].
      split; [reflexivity|]. split; [discriminate|].
      destruct sensor; simpl in *; subst; reflexivity.
    + match goal with |- context [if ?b then _ else _] => destruct b end;
        intros [= <- <- <- <-];
        (split; [discriminate|]); (split; [split; reflexivity|]);
        destruct sensor; simpl in *; subst; reflexivity.
  - intros [= <- <- <- <-].
    split; [reflexivity|]. split; [split; reflexivity|].
    destruct sensor; reflexivity.
Qed.

(** X20. A frame reports the pose of a device to the filter at most once.
    When a pose is accepted by a sensor that has its camera pose, the pose
    update and the release that follows complete, the device is marked as
    found in the frame, and the frame's record of the device is left without
    a slot of its own: any later pose evaluation for this device on this
    frame leaves the sensor, the device (filter and slot counts included) and
    the frame as they are. *)
Theorem pose_reported_once
    (sensor : rift_sensor_ctx) (dev : rift_tracked_device_priv) (leds : rift_leds)
    (frame : rift_sensor_capture_frame) (ds : rift_sensor_frame_device_state)
    (blobs : blobservation) :
  wf_device dev -> 0 <= index dev ->
  wf_exposure_info (frame_exposure_info frame) ->
  have_camera_pose sensor = true -> bwobs frame = Some blobs ->
  good_pose_match
    (rift_evaluate_pose (score ds) (final_cam_pose ds) blobs (base_id dev) leds
       (camera_matrix sensor) (dist_coeffs sensor) (dist_fisheye sensor)) = true ->
  exists d1 f1 ds1,
    update_device_pose sensor dev leds frame ds = Done (sensor, d1, f1, ds1) /\
    found_device_pose ds1 = true /\
    spent d1 (frame_exposure_info f1) /\
    forall leds2 ds2, exists ds2',
      update_device_pose sensor d1 leds2 f1 ds2 = Done (sensor, d1, f1, ds2').
Proof.
  intros Hwf Hix Hwe Hcam Hb Hgood.
  destruct (model_pose_update_total dev (frame_exposure_info frame)
              (oposef_apply (final_cam_pose ds) (camera_pose sensor)) Hwf Hwe Hix)
    as (dA & pA & HA & HwfA & HiA & HpA).
  destruct (frame_release_dev_total dA (frame_exposure_info frame) HwfA Hwe)
    as (d1 & e1 & HB & Hwf1 & Hi1 & Hp1 & Hsp); [lia|].
  exists d1, (set_frame_exposure_info frame (exposure_info_valid frame) e1).
  eexists. split.
  { unfold update_device_pose. rewrite Hb.
    cbn [mbind outcome_mbind outcome_bind mret outcome_ret].
    cbn [score set_score]. rewrite Hgood, Hcam, HA.
    cbn [mbind outcome_mbind outcome_bind]. rewrite HB. reflexivity. }
  split; [reflexivity|]. split; [exact Hsp|].
  intros leds2 ds2.
  unfold update_device_pose. cbn [bwobs set_frame_exposure_info]. rewrite Hb.
  cbn [mbind outcome_mbind outcome_bind mret outcome_ret].
  cbn [score set_score].
  match goal with |- context [good_pose_match ?m] => destruct (good_pose_match m) end;
    [|eexists; reflexivity].
  rewrite Hcam. cbn [frame_exposure_info set_frame_exposure_info].
  destruct (spent_pose_update d1 e1
              (oposef_apply (final_cam_pose ds2) (camera_pose sensor)) Hsp)
    as (p2 & H2); [lia|congruence|].
  rewrite H2. cbn [mbind outcome_mbind outcome_bind].
  rewrite (spent_release d1 e1 Hsp) by lia.
  eexists. reflexivity.
Qed.

End PoseAcceptance.

Lemma camera_pose_set_once_witness :
  (have_camera_pose sensor_ex = true ->
   set_camera_pose sensor_ex true (final_cam_pose dev_state_ex) = sensor_ex) /\
  (have_camera_pose sensor_ex = false ->
   dev_ex (ring_ex 0) 0 = dev_ex (ring_ex 0) 0 /\ frame_ex = frame_ex) /\
  set_camera_pose sensor_ex true (final_cam_pose dev_state_ex) =
    set_camera_pose sensor_ex
      (have_camera_pose (set_camera_pose sensor_ex true (final_cam_pose dev_state_ex)))
      (camera_pose (set_camera_pose sensor_ex true (final_cam_pose dev_state_ex))).
Proof.
  apply (@camera_pose_set_once collab_ex sensor_collab_ex
           sensor_ex (set_camera_pose sensor_ex true (final_cam_pose dev_state_ex))
           (dev_ex (ring_ex 0) 0) (dev_ex (ring_ex 0) 0) tt
           frame_ex frame_ex dev_state_ex dev_state_seen_ex).
  reflexivity.
Defined.

Lemma pose_reported_once_witness :
  exists d1 f1 ds1,
    @update_device_pose collab_ex sensor_collab_ex sensor_located_ex
      (dev_ex (ring_ex 1) 2000) tt frame_7_ex dev_state_ex
      = Done (sensor_located_ex, d1, f1, ds1) /\
    found_device_pose ds1 = true /\
    spent d1 (frame_exposure_info f1) /\
    forall leds2 ds2, exists ds2',
      @update_device_pose collab_ex sensor_collab_ex sensor_located_ex d1 leds2 f1 ds2
        = Done (sensor_located_ex, d1, f1, ds2').
Proof.
  apply (@pose_reported_once collab_ex sensor_collab_ex sensor_located_ex
           (dev_ex (ring_ex 1) 2000) tt frame_7_ex dev_state_ex tt).
  - apply wf_dev_ex.
  - simpl. lia.
  - exact (proj1 (proj2 wf_patch_ex)).
  - reflexivity.
  - reflexivity.
  - reflexivity.
Defined.

End SensorMore.
(** ** The tracker's loops over its devices *)

Module TrackerLoopMore.
Import Pose Tracker TrackerSetup Examples MoreExamples TrackerFacts DelaySlotMore.

(** What a loop over the devices with one exposure info leaves for device
    [k], [dev] before: the device after, and the record after. *)
Lemma device_info_loop
    (op : rift_tracked_device_priv -> rift_tracked_device_exposure_info ->
          outcome (rift_tracked_device_priv * rift_tracked_device_exposure_info))
    (pre post : rift_tracked_device_priv -> rift_tracked_device_priv)
    (Pd : rift_tracked_device_priv -> Prop)
    (body : Z -> list rift_tracked_device_priv * option rift_tracker_exposure_info ->
            outcome (list rift_tracked_device_priv * option rift_tracker_exposure_info))
    (ctx : rift_tracker_ctx) (e : rift_tracker_exposure_info) :
  (forall i devs info,
     body i (devs, info) =
     (dev ← array_get devs i;
      '(dev', info') ← with_device_info op i (pre dev) info;
      devs' ← array_set devs i (post dev');
      mret (devs', info'))) ->
  (forall dev r, Pd dev -> wf_dev_info r ->
     exists dev' r', op (pre dev) r = Done (dev', r')) ->
  0 <= n_devices ctx <= Z.of_nat (length (devices ctx)) ->
  Forall Pd (devices ctx) -> wf_exposure_info e ->
  exists devs' e',
    for_loop body 0 (Z.to_nat (n_devices ctx)) (devices ctx, Some e)
      = Done (devs', Some e') /\
    length devs' = length (devices ctx) /\
    same_exposure e' e /\
    length (info_devices e') = length (info_devices e) /\
    (forall k dev, Z.of_nat k < n_devices ctx -> devices ctx !! k = Some dev ->
       if Z.of_nat k <? info_n_devices e then
         exists r dev' r',
           info_devices e !! k = Some r /\ op (pre dev) r = Done (dev', r') /\
           devs' !! k = Some (post dev') /\ info_devices e' !! k = Some r'
       else devs' !! k = Some (post (pre dev)) /\
            info_devices e' !! k = info_devices e !! k) /\
    (forall k, n_devices ctx <= Z.of_nat k ->
       devs' !! k = devices ctx !! k /\
       info_devices e' !! k = info_devices e !! k).
Proof.
  intros Hbody Hop Hn HPd (Hne & Hwe).
  pose (R := fun (k : nat) (dev : rift_tracked_device_priv)
      (d' : option rift_tracked_device_priv)
      (r' : option rift_tracked_device_exposure_info) =>
      if Z.of_nat k <? info_n_devices e then
        exists r dev1 r1,
          info_devices e !! k = Some r /\ op (pre dev) r = Done (dev1, r1) /\
          d' = Some (post dev1) /\ r' = Some r1
      else d' = Some (post (pre dev)) /\ r' = info_devices e !! k).
  pose (Inv := fun (j : Z)
      (st : list rift_tracked_device_priv * option rift_tracker_exposure_info) =>
      exists devs e1, st = (devs, Some e1) /\
        length devs = length (devices ctx) /\
        same_exposure e1 e /\
        length (info_devices e1) = length (info_devices e) /\
        (forall k, j <= Z.of_nat k ->
           devs !! k = devices ctx !! k /\
           info_devices e1 !! k = info_devices e !! k) /\
        (forall k dev, Z.of_nat k < j -> devices ctx !! k = Some dev ->
           R k dev (devs !! k) (info_devices e1 !! k))).
  destruct (for_loop_inv body Inv (Z.to_nat (n_devices ctx)) 0 (devices ctx, Some e))
    as (st & Hrun & Hinv).
  - exists (devices ctx), e. repeat split; try reflexivity. intros; lia.
  - intros j st Hj (devs & e1 & -> & Hl & Hse & Hle & Hun & Hdone).
    assert (Z.of_nat (Z.to_nat j) = j) as Hjk by lia.
    destruct (Hun (Z.to_nat j)) as (Hd & Hr); [lia|].
    destruct (lookup_lt_is_Some_2 (devices ctx) (Z.to_nat j)) as [dev Hdev]; [lia|].
    pose proof (proj1 (Forall_lookup _ _) HPd _ _ Hdev) as HP.
    assert (info_n_devices e1 = info_n_devices e) as Hn1 by apply Hse.
    assert (Z.to_nat j < length devs)%nat as Hjl
      by (rewrite Hl; eapply lookup_lt_Some; exact Hdev).
    rewrite Hbody.
    rewrite (outcome_bind_Done _ _ dev) by (apply array_get_Done; [lia|congruence]).
    destruct (Z.ltb_spec j (info_n_devices e)) as [Hlt|Hge].
    + destruct (lookup_lt_is_Some_2 (info_devices e) (Z.to_nat j)) as [r Hrj]; [lia|].
      pose proof (proj1 (Forall_lookup _ _) Hwe _ _ Hrj) as Hwr.
      destruct (Hop dev r HP Hwr) as (dev1 & r1 & Hrun1).
      rewrite (outcome_bind_Done _ _ _
                 (with_device_info_run op j (pre dev) e1 r dev1 r1
                    ltac:(lia) ltac:(congruence) Hrun1)).
      cbv beta iota.
      rewrite (outcome_bind_Done _ _ (<[Z.to_nat j := post dev1]> devs))
        by (apply array_set_Done; [lia|exact Hjl]).
      eexists. split; [reflexivity|].
      do 2 eexists. split; [reflexivity|].
      split; [rewrite length_insert; exact Hl|].
      split; [exact (same_exposure_trans _ _ _ (same_exposure_set _ _) Hse)|].
      split; [simpl; rewrite length_insert; exact Hle|]. split.
      * intros k Hk. destruct (Hun k) as (Hd' & Hr'); [lia|].
        rewrite list_lookup_insert_ne by lia. simpl.
        rewrite list_lookup_insert_ne by lia. auto.
      * intros k dev' Hk Hdev'.
        destruct (decide (k = Z.to_nat j)) as [->|Hne'].
        -- rewrite Hdev in Hdev'. injection Hdev' as <-.
           unfold R. rewrite Hjk.
           destruct (Z.ltb_spec j (info_n_devices e)); [|lia].
           exists r, dev1, r1. split; [exact Hrj|]. split; [exact Hrun1|].
           split; [apply list_lookup_insert_eq; exact Hjl|].
           simpl. apply list_lookup_insert_eq.
           rewrite Hle. eapply lookup_lt_Some. exact Hrj.
        -- rewrite list_lookup_insert_ne by congruence. simpl.
           rewrite list_lookup_insert_ne by congruence.
           apply Hdone; [lia|exact Hdev'].
    + rewrite (outcome_bind_Done _ _ _
                 (with_device_info_skip op j (pre dev) e1 ltac:(lia))).
      cbv beta iota.
      rewrite (outcome_bind_Done _ _ (<[Z.to_nat j := post (pre dev)]> devs))
        by (apply array_set_Done; [lia|exact Hjl]).
      eexists. split; [reflexivity|].
      do 2 eexists. split; [reflexivity|].
      split; [rewrite length_insert; exact Hl|].
      split; [exact Hse|]. split; [exact Hle|]. split.
      * intros k Hk. destruct (Hun k) as (Hd' & Hr'); [lia|].
        rewrite list_lookup_insert_ne by lia. auto.
      * intros k dev' Hk Hdev'.
        destruct (decide (k = Z.to_nat j)) as [->|Hne'].
        -- rewrite Hdev in Hdev'. injection Hdev' as <-.
           unfold R. rewrite Hjk.
           destruct (Z.ltb_spec j (info_n_devices e)); [lia|].
           split; [apply list_lookup_insert_eq; exact Hjl|exact Hr].
        -- rewrite list_lookup_insert_ne by congruence.
           apply Hdone; [lia|exact Hdev'].
  - destruct Hinv as (devs & e1 & -> & Hl & Hse & Hle & Hun & Hdone).
    exists devs, e1. split; [exact Hrun|].
    split; [exact Hl|]. split; [exact Hse|]. split; [exact Hle|]. split.
    + intros k dev Hk Hdev. specialize (Hdone k dev ltac:(lia) Hdev).
      unfold R in Hdone.
      destruct (Z.of_nat k <? info_n_devices e).
      * destruct Hdone as (r & dev1 & r1 & H1 & H2 & H3 & H4). eauto 10.
      * exact Hdone.
    + intros k Hk. apply Hun. lia.
Qed.

(** The same loop with no exposure info ([info == NULL]). *)
Lemma device_loop_none
    (op : rift_tracked_device_priv -> rift_tracked_device_exposure_info ->
          outcome (rift_tracked_device_priv * rift_tracked_device_exposure_info))
    (pre post : rift_tracked_device_priv -> rift_tracked_device_priv)
    (body : Z -> list rift_tracked_device_priv * option rift_tracker_exposure_info ->
            outcome (list rift_tracked_device_priv * option rift_tracker_exposure_info))
    (ctx : rift_tracker_ctx) :
  (forall i devs info,
     body i (devs, info) =
     (dev ← array_get devs i;
      '(dev', info') ← with_device_info op i (pre dev) info;
      devs' ← array_set devs i (post dev');
      mret (devs', info'))) ->
  0 <= n_devices ctx <= Z.of_nat (length (devices ctx)) ->
  exists devs',
    for_loop body 0 (Z.to_nat (n_devices ctx)) (devices ctx, None) = Done (devs', None) /\
    length devs' = length (devices ctx) /\
    (forall k dev, Z.of_nat k < n_devices ctx -> devices ctx !! k = Some dev ->
       devs' !! k = Some (post (pre dev))) /\
    (forall k, n_devices ctx <= Z.of_nat k -> devs' !! k = devices ctx !! k).
Proof.
  intros Hbody Hn.
  pose (Inv := fun (j : Z)
      (st : list rift_tracked_device_priv * option rift_tracker_exposure_info) =>
      exists devs, st = (devs, None) /\
        length devs = length (devices ctx) /\
        (forall k, j <= Z.of_nat k -> devs !! k = devices ctx !! k) /\
        (forall k dev, Z.of_nat k < j -> devices ctx !! k = Some dev ->
           devs !! k = Some (post (pre dev)))).
  destruct (for_loop_inv body Inv (Z.to_nat (n_devices ctx)) 0 (devices ctx, None))
    as (st & Hrun & Hinv).
  - exists (devices ctx). repeat split; try reflexivity. intros; lia.
  - intros j st Hj (devs & -> & Hl & Hun & Hdone).
    destruct (lookup_lt_is_Some_2 (devices ctx) (Z.to_nat j)) as [dev Hdev]; [lia|].
    assert (Z.to_nat j < length devs)%nat as Hjl
      by (rewrite Hl; eapply lookup_lt_Some; exact Hdev).
    rewrite Hbody.
    rewrite (outcome_bind_Done _ _ dev)
      by (apply array_get_Done; [lia|rewrite Hun by lia; exact Hdev]).
    cbn [with_device_info mbind outcome_mbind outcome_bind mret outcome_ret].
    rewrite array_set_Done by (lia || exact Hjl).
    eexists. split; [reflexivity|]. eexists. split; [reflexivity|].
    split; [rewrite length_insert; exact Hl|]. split.
    + intros k Hk. rewrite list_lookup_insert_ne by lia. apply Hun. lia.
    + intros k dev' Hk Hdev'. destruct (decide (k = Z.to_nat j)) as [->|Hne].
      * rewrite Hdev in Hdev'. injection Hdev' as <-.
        apply list_lookup_insert_eq. exact Hjl.
      * rewrite list_lookup_insert_ne by congruence. apply Hdone; [lia|exact Hdev'].
  - destruct Hinv as (devs & -> & Hl & Hun & Hdone).
    exists devs. split; [exact Hrun|]. split; [exact Hl|]. split.
    + intros k dev Hk Hdev. apply Hdone; [lia|exact Hdev].
    + intros k Hk. apply Hun. lia.
Qed.

Lemma claimable_send dev :
  claimable dev -> claimable (rift_tracked_device_send_imu_debug dev).
Proof. rewrite DeviceMore.send_imu_debug_spec. intros Hc. exact Hc. Qed.

Lemma ring_ok_send dev :
  ring_ok dev -> ring_ok (rift_tracked_device_send_imu_debug dev).
Proof. rewrite DeviceMore.send_imu_debug_spec. intros Hc. exact Hc. Qed.

Lemma wf_device_send dev :
  wf_device dev -> wf_device (rift_tracked_device_send_imu_debug dev).
Proof. rewrite DeviceMore.send_imu_debug_spec. intros Hc. exact Hc. Qed.

Lemma delay_slots_send dev :
  delay_slots (rift_tracked_device_send_imu_debug dev) = delay_slots dev.
Proof. rewrite DeviceMore.send_imu_debug_spec. reflexivity. Qed.

(** The start of a frame, device by device. *)
Lemma frame_start_run ctx e :
  wf_tracker ctx -> wf_exposure_info e ->
  exists ctx' e',
    rift_tracker_frame_start ctx (Some e) = Done (ctx', Some e') /\
    ctx' = set_devices ctx (devices ctx') /\
    length (devices ctx') = length (devices ctx) /\
    same_exposure e' e /\
    length (info_devices e') = length (info_devices e) /\
    (forall k dev, Z.of_nat k < n_devices ctx -> devices ctx !! k = Some dev ->
       if Z.of_nat k <? info_n_devices e then
         exists r dev' r',
           info_devices e !! k = Some r /\
           rift_tracked_device_exposure_claim
             (rift_tracked_device_send_imu_debug dev) r = Done (dev', r') /\
           devices ctx' !! k = Some dev' /\ info_devices e' !! k = Some r'
       else devices ctx' !! k = Some (rift_tracked_device_send_imu_debug dev) /\
            info_devices e' !! k = info_devices e !! k) /\
    (forall k, n_devices ctx <= Z.of_nat k ->
       devices ctx' !! k = devices ctx !! k /\
       info_devices e' !! k = info_devices e !! k).
Proof.
  intros (Hn & Hdevs) Hwe. unfold rift_tracker_frame_start.
  match goal with
  | |- context [for_loop ?b 0 _ _] =>
      destruct (device_info_loop rift_tracked_device_exposure_claim
                  rift_tracked_device_send_imu_debug (fun d => d) claimable b ctx e)
        as (devs' & e' & Hrun & Hl & Hse & Hle & Hdev & Hrest)
  end.
  - intros i devs info. reflexivity.
  - intros dev r Hc Hk. apply claim_total; [apply claimable_send; exact Hc|exact Hk].
  - exact Hn.
  - exact Hdevs.
  - exact Hwe.
  - rewrite Hrun. exists (set_devices ctx devs'), e'.
    split; [reflexivity|]. split; [reflexivity|]. auto.
Qed.

(** The release of a frame, device by device. *)
Lemma frame_release_run ctx e :
  0 <= n_devices ctx <= Z.of_nat (length (devices ctx)) ->
  Forall wf_device (devices ctx) -> wf_exposure_info e ->
  exists ctx' e',
    rift_tracker_frame_release ctx (Some e) = Done (ctx', Some e') /\
    ctx' = set_devices ctx (devices ctx') /\
    length (devices ctx') = length (devices ctx) /\
    same_exposure e' e /\
    length (info_devices e') = length (info_devices e) /\
    (forall k dev, Z.of_nat k < n_devices ctx -> devices ctx !! k = Some dev ->
       if Z.of_nat k <? info_n_devices e then
         exists r dev' r',
           info_devices e !! k = Some r /\
           rift_tracked_device_exposure_release_locked dev r = Done (dev', r') /\
           devices ctx' !! k = Some (rift_tracked_device_send_imu_debug dev') /\
           info_devices e' !! k = Some r'
       else devices ctx' !! k = Some (rift_tracked_device_send_imu_debug dev) /\
            info_devices e' !! k = info_devices e !! k) /\
    (forall k, n_devices ctx <= Z.of_nat k ->
       devices ctx' !! k = devices ctx !! k /\
       info_devices e' !! k = info_devices e !! k).
Proof.
  intros Hn Hdevs Hwe. unfold rift_tracker_frame_release.
  match goal with
  | |- context [for_loop ?b 0 _ _] =>
      destruct (device_info_loop rift_tracked_device_exposure_release_locked
                  (fun d => d) rift_tracked_device_send_imu_debug wf_device b ctx e)
        as (devs' & e' & Hrun & Hl & Hse & Hle & Hdev & Hrest)
  end.
  - intros i devs info. reflexivity.
  - intros dev r Hc Hk.
    destruct (release_total dev r Hc Hk) as (d1 & r1 & Hr & _). eauto.
  - exact Hn.
  - exact Hdevs.
  - exact Hwe.
  - rewrite Hrun. exists (set_devices ctx devs'), e'.
    split; [reflexivity|]. split; [reflexivity|]. auto.
Qed.


Lemma frame_start_keeps (Q : rift_tracked_device_priv -> Prop) ctx e ctx' e' :
  (forall dev r d1 r1, Q dev -> wf_dev_info r ->
     rift_tracked_device_exposure_claim dev r = Done (d1, r1) -> Q d1) ->
  (forall dev, Q dev -> Q (rift_tracked_device_send_imu_debug dev)) ->
  wf_tracker ctx -> wf_exposure_info e ->
  rift_tracker_frame_start ctx (Some e) = Done (ctx', Some e') ->
  Forall Q (devices ctx) -> Forall Q (devices ctx').
Proof.
  intros Hcl Hsend Hwt Hwe Heq HQ.
  destruct (frame_start_run ctx e Hwt Hwe)
    as (c1 & e1 & Hrun & _ & Hl & _ & _ & Hdev & Hrest).
  rewrite Hrun in Heq. injection Heq as <- <-.
  apply Forall_lookup. intros k d' Hk.
  destruct (lookup_lt_is_Some_2 (devices ctx) k) as [dev Hd];
    [rewrite <- Hl; eapply lookup_lt_Some; exact Hk|].
  pose proof (proj1 (Forall_lookup _ _) HQ _ _ Hd) as Hq.
  destruct (Z.lt_ge_cases (Z.of_nat k) (n_devices ctx)) as [Hlt|Hge].
  - specialize (Hdev k dev Hlt Hd).
    destruct (Z.of_nat k <? info_n_devices e).
    + destruct Hdev as (r & d1 & r1 & Hr & Hop & Hd1 & _).
      rewrite Hd1 in Hk. injection Hk as <-.
      apply (Hcl _ r d1 r1 (Hsend dev Hq)); [|exact Hop].
      exact (proj1 (Forall_lookup _ _) (proj2 Hwe) _ _ Hr).
    + destruct Hdev as (Hd1 & _). rewrite Hd1 in Hk. injection Hk as <-.
      apply Hsend. exact Hq.
  - destruct (Hrest k Hge) as (Hd1 & _). rewrite Hd1, Hd in Hk.
    injection Hk as <-. exact Hq.
Qed.

Lemma claimable_wf_device l : Forall claimable l -> Forall wf_device l.
Proof. intros H. eapply Forall_impl; [exact H|]. intros d Hc. apply Hc. Qed.


Lemma release_keeps_ring_ok dev r d1 r1 :
  ring_ok dev -> wf_dev_info r ->
  rift_tracked_device_exposure_release_locked dev r = Done (d1, r1) ->
  ring_ok d1 /\ wf_dev_info r1.
Proof.
  intros Hc Hk Heq.
  destruct (release_ring_ok dev r Hc Hk) as (d & i & Hr & Hc1).
  rewrite Hr in Heq. injection Heq as <- <-. exact Hc1.
Qed.

Lemma claim_keeps_ring_ok dev r d1 r1 :
  ring_ok dev /\ claimable dev -> wf_dev_info r ->
  rift_tracked_device_exposure_claim dev r = Done (d1, r1) ->
  ring_ok d1 /\ wf_dev_info r1.
Proof.
  intros (Hok & Hc) Hk Heq.
  destruct (claim_ring_ok dev r Hok Hc Hk) as (d & i & Hr & Hc1).
  rewrite Hr in Heq. injection Heq as <- <-. exact Hc1.
Qed.


(** What the start of a frame leaves: devices with property [Q] when they had
    [P], and well-formed records. *)
Lemma frame_start_post (P Q : rift_tracked_device_priv -> Prop) ctx e ctx' e' :
  (forall dev r d1 r1, P dev -> wf_dev_info r ->
     rift_tracked_device_exposure_claim dev r = Done (d1, r1) ->
     Q d1 /\ wf_dev_info r1) ->
  (forall dev, P dev -> P (rift_tracked_device_send_imu_debug dev)) ->
  (forall dev, P dev -> Q dev) ->
  wf_tracker ctx -> wf_exposure_info e ->
  rift_tracker_frame_start ctx (Some e) = Done (ctx', Some e') ->
  Forall P (devices ctx) ->
  Forall Q (devices ctx') /\ wf_exposure_info e'.
Proof.
  intros Hcl Hsend HPQ Hwt Hwe Heq HP.
  destruct (frame_start_run ctx e Hwt Hwe)
    as (c1 & e1 & Hrun & _ & Hl & Hse & Hle & Hdev & Hrest).
  rewrite Hrun in Heq. injection Heq as <- <-.
  split.
  - apply Forall_lookup. intros k d' Hk.
    destruct (lookup_lt_is_Some_2 (devices ctx) k) as [dev Hd];
      [rewrite <- Hl; eapply lookup_lt_Some; exact Hk|].
    pose proof (proj1 (Forall_lookup _ _) HP _ _ Hd) as Hp.
    destruct (Z.lt_ge_cases (Z.of_nat k) (n_devices ctx)) as [Hlt|Hge].
    + specialize (Hdev k dev Hlt Hd).
      destruct (Z.of_nat k <? info_n_devices e).
      * destruct Hdev as (r & d1 & r1 & Hr & Hop & Hd1 & _).
        rewrite Hd1 in Hk. injection Hk as <-.
        apply (Hcl _ r d1 r1 (Hsend dev Hp)); [|exact Hop].
        exact (proj1 (Forall_lookup _ _) (proj2 Hwe) _ _ Hr).
      * destruct Hdev as (Hd1 & _). rewrite Hd1 in Hk. injection Hk as <-.
        apply HPQ, Hsend, Hp.
    + destruct (Hrest k Hge) as (Hd1 & _). rewrite Hd1, Hd in Hk.
      injection Hk as <-. apply HPQ, Hp.
  - destruct Hwe as (Hn & Hinfos). split.
    + destruct Hse as (_ & _ & _ & _ & ->). rewrite Hle. exact Hn.
    + apply Forall_lookup. intros k r' Hk.
      destruct (Z.lt_ge_cases (Z.of_nat k) (n_devices ctx)) as [Hlt|Hge].
      * destruct (lookup_lt_is_Some_2 (devices ctx) k) as [dev Hd];
          [destruct Hwt; lia|].
        pose proof (proj1 (Forall_lookup _ _) HP _ _ Hd) as Hp.
        specialize (Hdev k dev Hlt Hd).
        destruct (Z.of_nat k <? info_n_devices e).
        -- destruct Hdev as (r & d1 & r1 & Hr & Hop & _ & Hr1).
           rewrite Hr1 in Hk. injection Hk as <-.
           apply (Hcl _ r d1 r1 (Hsend dev Hp)); [|exact Hop].
           exact (proj1 (Forall_lookup _ _) Hinfos _ _ Hr).
        -- destruct Hdev as (_ & Hr1). rewrite Hr1 in Hk.
           exact (proj1 (Forall_lookup _ _) Hinfos _ _ Hk).
      * destruct (Hrest k Hge) as (_ & Hr1). rewrite Hr1 in Hk.
        exact (proj1 (Forall_lookup _ _) Hinfos _ _ Hk).
Qed.

Lemma ring_ok_wf_device dev : ring_ok dev -> wf_device dev.
Proof. intros H. apply H. Qed.

(** A frame start and then a frame release with the exposure info the start
    left. *)
Lemma frame_start_then_release ctx e :
  wf_tracker ctx -> Forall ring_ok (devices ctx) -> wf_exposure_info e ->
  exists ctx1 e1 ctx2 e2,
    rift_tracker_frame_start ctx (Some e) = Done (ctx1, Some e1) /\
    rift_tracker_frame_release ctx1 (Some e1) = Done (ctx2, Some e2) /\
    n_devices ctx2 = n_devices ctx /\
    (forall k dev, devices ctx !! k = Some dev ->
       exists dev2, devices ctx2 !! k = Some dev2 /\
         use_count <$> delay_slots dev2 = use_count <$> delay_slots dev) /\
    (forall k r2, Z.of_nat k < n_devices ctx -> Z.of_nat k < info_n_devices e ->
       info_devices e2 !! k = Some r2 -> fusion_slot r2 = -1).
Proof.
  intros Hwt Hok Hwe.
  destruct (frame_start_run ctx e Hwt Hwe)
    as (ctx1 & e1 & Hrun1 & Hc1 & Hl1 & Hse1 & Hle1 & Hdev1 & Hrest1).
  assert (Forall (fun d => ring_ok d /\ claimable d) (devices ctx)) as HP.
  { apply Forall_lookup. intros k d Hd. split.
    - exact (proj1 (Forall_lookup _ _) Hok _ _ Hd).
    - exact (proj1 (Forall_lookup _ _) (proj2 Hwt) _ _ Hd). }
  destruct (frame_start_post (fun d => ring_ok d /\ claimable d) ring_ok
              ctx e ctx1 e1) as (Hok1 & Hwe1); try assumption.
  { exact claim_keeps_ring_ok. }
  { intros dev (H1 & H2). split; [apply ring_ok_send|apply claimable_send]; assumption. }
  { intros dev (H1 & _). exact H1. }
  assert (n_devices ctx1 = n_devices ctx) as Hn1 by (rewrite Hc1; reflexivity).
  assert (0 <= n_devices ctx1 <= Z.of_nat (length (devices ctx1))) as Hnl1
    by (rewrite Hn1, Hl1; apply Hwt).
  assert (Forall wf_device (devices ctx1)) as Hwf1
    by (eapply Forall_impl; [exact Hok1|exact ring_ok_wf_device]).
  destruct (frame_release_run ctx1 e1 Hnl1 Hwf1 Hwe1)
    as (ctx2 & e2 & Hrun2 & Hc2 & Hl2 & Hse2 & Hle2 & Hdev2 & Hrest2).
  assert (info_n_devices e1 = info_n_devices e) as Hin1 by apply Hse1.
  exists ctx1, e1, ctx2, e2. split; [exact Hrun1|]. split; [exact Hrun2|].
  split; [rewrite Hc2; exact Hn1|].
  assert (forall k dev, Z.of_nat k < n_devices ctx -> Z.of_nat k < info_n_devices e ->
            devices ctx !! k = Some dev ->
            exists dev2 r2, devices ctx2 !! k = Some dev2 /\
              info_devices e2 !! k = Some r2 /\ fusion_slot r2 = -1 /\
              use_count <$> delay_slots dev2 = use_count <$> delay_slots dev) as Hboth.
  { intros k dev Hlt Hlti Hd.
    pose proof (Hdev1 k dev Hlt Hd) as H1.
    destruct (Z.ltb_spec (Z.of_nat k) (info_n_devices e)); [|lia].
    destruct H1 as (r & d1 & r1 & Hr & Hcl & Hd1 & Hr1).
    pose proof (Hdev2 k d1 ltac:(lia) Hd1) as H2. rewrite Hin1 in H2.
    destruct (Z.ltb_spec (Z.of_nat k) (info_n_devices e)); [|lia].
    destruct H2 as (r' & d2 & r2 & Hr' & Hre & Hd2 & Hr2).
    rewrite Hr1 in Hr'. injection Hr' as <-.
    pose proof (proj1 (Forall_lookup _ _) HP _ _ Hd) as (Hokd & Hcd).
    pose proof (proj1 (Forall_lookup _ _) (proj2 Hwe) _ _ Hr) as Hwr.
    destruct (claim_then_release (rift_tracked_device_send_imu_debug dev) r
                (ring_ok_send _ Hokd) (claimable_send _ Hcd) Hwr)
      as (d1' & r1' & d2' & r2' & Hcl' & Hre' & Hfs & Hcnt & _).
    rewrite Hcl in Hcl'. injection Hcl' as <- <-.
    rewrite Hre in Hre'. injection Hre' as <- <-.
    exists (rift_tracked_device_send_imu_debug d2), r2.
    split; [exact Hd2|]. split; [exact Hr2|]. split; [exact Hfs|].
    rewrite delay_slots_send, Hcnt, delay_slots_send. reflexivity. }
  split.
  - intros k dev Hd.
    destruct (Z.lt_ge_cases (Z.of_nat k) (n_devices ctx)) as [Hlt|Hge].
    + destruct (Z.lt_ge_cases (Z.of_nat k) (info_n_devices e)) as [Hlti|Hgei].
      * destruct (Hboth k dev Hlt Hlti Hd) as (dev2 & r2 & Hd2 & _ & _ & Hcnt). eauto.
      * pose proof (Hdev1 k dev Hlt Hd) as H1.
        destruct (Z.ltb_spec (Z.of_nat k) (info_n_devices e)); [lia|].
        destruct H1 as (Hd1 & _).
        pose proof (Hdev2 k _ ltac:(lia) Hd1) as H2. rewrite Hin1 in H2.
        destruct (Z.ltb_spec (Z.of_nat k) (info_n_devices e)); [lia|].
        destruct H2 as (Hd2 & _). eexists. split; [exact Hd2|].
        rewrite !delay_slots_send. reflexivity.
    + destruct (Hrest1 k Hge) as (Hd1 & _).
      destruct (Hrest2 k ltac:(lia)) as (Hd2 & _).
      exists dev. split; [congruence|reflexivity].
  - intros k r2 Hlt Hlti Hr2.
    destruct (lookup_lt_is_Some_2 (devices ctx) k) as [dev Hd];
      [destruct Hwt; lia|].
    destruct (Hboth k dev Hlt Hlti Hd) as (dev2 & r2' & _ & Hr2' & Hfs & _).
    congruence.
Qed.

(** The loop of [rift_tracker_frame_captured]. *)
Lemma device_loop_flush ctx :
  0 <= n_devices ctx <= Z.of_nat (length (devices ctx)) ->
  exists devs',
    rift_tracker_frame_captured ctx = Done (set_devices ctx devs') /\
    length devs' = length (devices ctx) /\
    (forall k dev, Z.of_nat k < n_devices ctx -> devices ctx !! k = Some dev ->
       devs' !! k = Some (rift_tracked_device_send_imu_debug dev)) /\
    (forall k, n_devices ctx <= Z.of_nat k -> devs' !! k = devices ctx !! k).
Proof.
  intros Hn. unfold rift_tracker_frame_captured.
  match goal with
  | |- context [for_loop ?b 0 _ _] => set (body := b)
  end.
  pose (Inv := fun (j : Z) (devs : list rift_tracked_device_priv) =>
      length devs = length (devices ctx) /\
      (forall k, j <= Z.of_nat k -> devs !! k = devices ctx !! k) /\
      (forall k dev, Z.of_nat k < j -> devices ctx !! k = Some dev ->
         devs !! k = Some (rift_tracked_device_send_imu_debug dev))).
  destruct (for_loop_inv body Inv (Z.to_nat (n_devices ctx)) 0 (devices ctx))
    as (devs & Hrun & Hl & Hun & Hdone).
  - repeat split; try reflexivity. intros; lia.
  - intros j devs Hj (Hl & Hun & Hdone).
    destruct (lookup_lt_is_Some_2 (devices ctx) (Z.to_nat j)) as [dev Hdev]; [lia|].
    assert (Z.to_nat j < length devs)%nat as Hjl
      by (rewrite Hl; eapply lookup_lt_Some; exact Hdev).
    unfold body.
    rewrite (outcome_bind_Done _ _ dev)
      by (apply array_get_Done; [lia|rewrite Hun by lia; exact Hdev]).
    rewrite array_set_Done by (lia || exact Hjl).
    eexists. split; [reflexivity|].
    split; [rewrite length_insert; exact Hl|]. split.
    + intros k Hk. rewrite list_lookup_insert_ne by lia. apply Hun. lia.
    + intros k dev' Hk Hdev'. destruct (decide (k = Z.to_nat j)) as [->|Hne].
      * rewrite Hdev in Hdev'. injection Hdev' as <-.
        apply list_lookup_insert_eq. exact Hjl.
      * rewrite list_lookup_insert_ne by congruence. apply Hdone; [lia|exact Hdev'].
  - rewrite Hrun. exists devs. split; [reflexivity|]. split; [exact Hl|]. split.
    + intros k dev Hk Hdev. apply Hdone; [lia|exact Hdev].
    + intros k Hk. apply Hun. lia.
Qed.

(** Two lists of devices with the same entries. *)
Lemma same_devices (l1 l2 l : list rift_tracked_device_priv) n
    (f : rift_tracked_device_priv -> rift_tracked_device_priv) :
  (forall k dev, Z.of_nat k < n -> l !! k = Some dev -> l1 !! k = Some (f dev)) ->
  (forall k, n <= Z.of_nat k -> l1 !! k = l !! k) ->
  (forall k dev, Z.of_nat k < n -> l !! k = Some dev -> l2 !! k = Some (f dev)) ->
  (forall k, n <= Z.of_nat k -> l2 !! k = l !! k) ->
  n <= Z.of_nat (length l) ->
  l1 = l2.
Proof.
  intros H1 R1 H2 R2 Hn. apply list_eq. intros k.
  destruct (Z.lt_ge_cases (Z.of_nat k) n) as [Hlt|Hge].
  - destruct (lookup_lt_is_Some_2 l k) as [dev Hd]; [lia|].
    rewrite (H1 k dev Hlt Hd), (H2 k dev Hlt Hd). reflexivity.
  - rewrite R1, R2 by exact Hge. reflexivity.
Qed.

(** X21. The start of a frame with an exposure info, on a well-formed
    tracker: it completes; each device that the exposure info knows (its
    number is below the info's device count) has its pending IMU
    observations flushed and then its record claimed, and the exposure info
    handed back carries the record as the claim left it; a device that came
    online after the exposure is only flushed; devices beyond the tracker's
    count are untouched. *)
Theorem frame_start_claims (ctx : rift_tracker_ctx) (e : rift_tracker_exposure_info) :
  wf_tracker ctx -> wf_exposure_info e ->
  exists ctx' e',
    rift_tracker_frame_start ctx (Some e) = Done (ctx', Some e') /\
    ctx' = set_devices ctx (devices ctx') /\
    length (devices ctx') = length (devices ctx) /\
    same_exposure e' e /\
    length (info_devices e') = length (info_devices e) /\
    (forall k dev, Z.of_nat k < n_devices ctx -> devices ctx !! k = Some dev ->
       if Z.of_nat k <? info_n_devices e then
         exists r dev' r',
           info_devices e !! k = Some r /\
           rift_tracked_device_exposure_claim
             (rift_tracked_device_send_imu_debug dev) r = Done (dev', r') /\
           devices ctx' !! k = Some dev' /\ info_devices e' !! k = Some r'
       else devices ctx' !! k = Some (rift_tracked_device_send_imu_debug dev) /\
            info_devices e' !! k = info_devices e !! k) /\
    (forall k, n_devices ctx <= Z.of_nat k ->
       devices ctx' !! k = devices ctx !! k /\
       info_devices e' !! k = info_devices e !! k).
Proof. exact (frame_start_run ctx e). Qed.

(** X22. The release of a frame with an exposure info, on a tracker whose
    devices have well-formed rings: it completes; each device that the
    exposure info knows has its record released and then its pending IMU
    observations flushed, and the exposure info handed back carries the
    record as the release left it; the other devices of the tracker are only
    flushed. *)
Theorem frame_release_releases (ctx : rift_tracker_ctx) (e : rift_tracker_exposure_info) :
  0 <= n_devices ctx <= Z.of_nat (length (devices ctx)) ->
  Forall wf_device (devices ctx) -> wf_exposure_info e ->
  exists ctx' e',
    rift_tracker_frame_release ctx (Some e) = Done (ctx', Some e') /\
    ctx' = set_devices ctx (devices ctx') /\
    length (devices ctx') = length (devices ctx) /\
    same_exposure e' e /\
    length (info_devices e') = length (info_devices e) /\
    (forall k dev, Z.of_nat k < n_devices ctx -> devices ctx !! k = Some dev ->
       if Z.of_nat k <? info_n_devices e then
         exists r dev' r',
           info_devices e !! k = Some r /\
           rift_tracked_device_exposure_release_locked dev r = Done (dev', r') /\
           devices ctx' !! k = Some (rift_tracked_device_send_imu_debug dev') /\
           info_devices e' !! k = Some r'
       else devices ctx' !! k = Some (rift_tracked_device_send_imu_debug dev) /\
            info_devices e' !! k = info_devices e !! k) /\
    (forall k, n_devices ctx <= Z.of_nat k ->
       devices ctx' !! k = devices ctx !! k /\
       info_devices e' !! k = info_devices e !! k).
Proof. exact (frame_release_run ctx e). Qed.

(** X23. A frame's claims are balanced by its release.  On a well-formed
    tracker whose rings are in good order, a frame start followed by a frame
    release with the exposure info the start handed back both complete; every
    device ends with every use count at the value it had before the start,
    and the records of the devices the exposure info knows end with
    [fusion_slot = -1]. *)
Theorem frame_start_release_balance
    (ctx : rift_tracker_ctx) (e : rift_tracker_exposure_info) :
  wf_tracker ctx -> Forall ring_ok (devices ctx) -> wf_exposure_info e ->
  exists ctx1 e1 ctx2 e2,
    rift_tracker_frame_start ctx (Some e) = Done (ctx1, Some e1) /\
    rift_tracker_frame_release ctx1 (Some e1) = Done (ctx2, Some e2) /\
    n_devices ctx2 = n_devices ctx /\
    (forall k dev, devices ctx !! k = Some dev ->
       exists dev2, devices ctx2 !! k = Some dev2 /\
         use_count <$> delay_slots dev2 = use_count <$> delay_slots dev) /\
    (forall k r2, Z.of_nat k < n_devices ctx -> Z.of_nat k < info_n_devices e ->
       info_devices e2 !! k = Some r2 -> fusion_slot r2 = -1).
Proof. exact (frame_start_then_release ctx e). Qed.

(** X24. Without exposure info there is no accounting.  A frame start and a
    frame release with no exposure info, and a frame capture, each complete
    and do the same thing: the pending IMU observations of the tracker's
    devices are flushed, and nothing else changes (no delay slot, no use
    count, no filter). *)
Theorem no_exposure_info_no_accounting (ctx : rift_tracker_ctx) :
  0 <= n_devices ctx <= Z.of_nat (length (devices ctx)) ->
  exists devs',
    rift_tracker_frame_start ctx None = Done (set_devices ctx devs', None) /\
    rift_tracker_frame_release ctx None = Done (set_devices ctx devs', None) /\
    rift_tracker_frame_captured ctx = Done (set_devices ctx devs') /\
    length devs' = length (devices ctx) /\
    (forall k dev, Z.of_nat k < n_devices ctx -> devices ctx !! k = Some dev ->
       devs' !! k = Some (set_pending dev [])) /\
    (forall k, n_devices ctx <= Z.of_nat k -> devs' !! k = devices ctx !! k).
Proof.
  intros Hn.
  destruct (device_loop_flush ctx Hn) as (d3 & H3 & Hl3 & Hd3 & Hr3).
  assert (exists d1, rift_tracker_frame_start ctx None = Done (set_devices ctx d1, None) /\
            (forall k dev, Z.of_nat k < n_devices ctx -> devices ctx !! k = Some dev ->
               d1 !! k = Some (rift_tracked_device_send_imu_debug dev)) /\
            (forall k, n_devices ctx <= Z.of_nat k -> d1 !! k = devices ctx !! k))
    as (d1 & H1 & Hd1 & Hr1).
  { unfold rift_tracker_frame_start.
    match goal with
    | |- context [for_loop ?b 0 _ _] =>
        destruct (device_loop_none rift_tracked_device_exposure_claim
                    rift_tracked_device_send_imu_debug (fun d => d) b ctx)
          as (d1 & Hrun & _ & Hd & Hr)
    end; [intros; reflexivity|exact Hn|].
    rewrite Hrun. exists d1. split; [reflexivity|]. split; assumption. }
  assert (exists d2, rift_tracker_frame_release ctx None = Done (set_devices ctx d2, None) /\
            (forall k dev, Z.of_nat k < n_devices ctx -> devices ctx !! k = Some dev ->
               d2 !! k = Some (rift_tracked_device_send_imu_debug dev)) /\
            (forall k, n_devices ctx <= Z.of_nat k -> d2 !! k = devices ctx !! k))
    as (d2 & H2 & Hd2 & Hr2).
  { unfold rift_tracker_frame_release.
    match goal with
    | |- context [for_loop ?b 0 _ _] =>
        destruct (device_loop_none rift_tracked_device_exposure_release_locked
                    (fun d => d) rift_tracked_device_send_imu_debug b ctx)
          as (d2 & Hrun & _ & Hd & Hr)
    end; [intros; reflexivity|exact Hn|].
    rewrite Hrun. exists d2. split; [reflexivity|]. split; assumption. }
  assert (d1 = d3) as -> by (eapply same_devices; eauto; lia).
  assert (d2 = d3) as -> by (eapply same_devices; eauto; lia).
  exists d3. split; [exact H1|]. split; [exact H2|]. split; [exact H3|].
  split; [exact Hl3|]. split; [|exact Hr3].
  intros k dev Hk Hdev. rewrite <- DeviceMore.send_imu_debug_spec.
  apply Hd3; assumption.
Qed.

Lemma ring_ok_patch_ex : Forall ring_ok (devices tracker_patch_ex).
Proof.
  repeat constructor; simpl; try lia; try reflexivity; try discriminate.
  intros [|[|[|k]]] s; simpl; intros [= <-]; reflexivity.
Qed.

Lemma frame_start_claims_witness :
  exists ctx' e',
    rift_tracker_frame_start tracker_patch_ex (Some exposure_7_ex)
      = Done (ctx', Some e') /\
    ctx' = set_devices tracker_patch_ex (devices ctx') /\
    length (devices ctx') = length (devices tracker_patch_ex) /\
    same_exposure e' exposure_7_ex /\
    length (info_devices e') = length (info_devices exposure_7_ex) /\
    (forall k dev, Z.of_nat k < n_devices tracker_patch_ex ->
       devices tracker_patch_ex !! k = Some dev ->
       if Z.of_nat k <? info_n_devices exposure_7_ex then
         exists r dev' r',
           info_devices exposure_7_ex !! k = Some r /\
           rift_tracked_device_exposure_claim
             (rift_tracked_device_send_imu_debug dev) r = Done (dev', r') /\
           devices ctx' !! k = Some dev' /\ info_devices e' !! k = Some r'
       else devices ctx' !! k = Some (rift_tracked_device_send_imu_debug dev) /\
            info_devices e' !! k = info_devices exposure_7_ex !! k) /\
    (forall k, n_devices tracker_patch_ex <= Z.of_nat k ->
       devices ctx' !! k = devices tracker_patch_ex !! k /\
       info_devices e' !! k = info_devices exposure_7_ex !! k).
Proof.
  apply (frame_start_claims tracker_patch_ex exposure_7_ex).
  - exact (proj1 SensorFacts.wf_patch_ex).
  - exact (proj1 (proj2 SensorFacts.wf_patch_ex)).
Defined.

Lemma frame_release_releases_witness :
  exists ctx' e',
    rift_tracker_frame_release tracker_patch_ex (Some exposure_7_ex)
      = Done (ctx', Some e') /\
    ctx' = set_devices tracker_patch_ex (devices ctx') /\
    length (devices ctx') = length (devices tracker_patch_ex) /\
    same_exposure e' exposure_7_ex /\
    length (info_devices e') = length (info_devices exposure_7_ex) /\
    (forall k dev, Z.of_nat k < n_devices tracker_patch_ex ->
       devices tracker_patch_ex !! k = Some dev ->
       if Z.of_nat k <? info_n_devices exposure_7_ex then
         exists r dev' r',
           info_devices exposure_7_ex !! k = Some r /\
           rift_tracked_device_exposure_release_locked dev r = Done (dev', r') /\
           devices ctx' !! k = Some (rift_tracked_device_send_imu_debug dev') /\
           info_devices e' !! k = Some r'
       else devices ctx' !! k = Some (rift_tracked_device_send_imu_debug dev) /\
            info_devices e' !! k = info_devices exposure_7_ex !! k) /\
    (forall k, n_devices tracker_patch_ex <= Z.of_nat k ->
       devices ctx' !! k = devices tracker_patch_ex !! k /\
       info_devices e' !! k = info_devices exposure_7_ex !! k).
Proof.
  apply (frame_release_releases tracker_patch_ex exposure_7_ex).
  - simpl. lia.
  - exact (claimable_wf_device _ (proj2 (proj1 SensorFacts.wf_patch_ex))).
  - exact (proj1 (proj2 SensorFacts.wf_patch_ex)).
Defined.

Lemma frame_start_release_balance_witness :
  exists ctx1 e1 ctx2 e2,
    rift_tracker_frame_start tracker_patch_ex (Some exposure_7_ex)
      = Done (ctx1, Some e1) /\
    rift_tracker_frame_release ctx1 (Some e1) = Done (ctx2, Some e2) /\
    n_devices ctx2 = n_devices tracker_patch_ex /\
    (forall k dev, devices tracker_patch_ex !! k = Some dev ->
       exists dev2, devices ctx2 !! k = Some dev2 /\
         use_count <$> delay_slots dev2 = use_count <$> delay_slots dev) /\
    (forall k r2, Z.of_nat k < n_devices tracker_patch_ex ->
       Z.of_nat k < info_n_devices exposure_7_ex ->
       info_devices e2 !! k = Some r2 -> fusion_slot r2 = -1).
Proof.
  apply (frame_start_release_balance tracker_patch_ex exposure_7_ex).
  - exact (proj1 SensorFacts.wf_patch_ex).
  - exact ring_ok_patch_ex.
  - exact (proj1 (proj2 SensorFacts.wf_patch_ex)).
Defined.

Lemma no_exposure_info_no_accounting_witness :
  exists devs',
    rift_tracker_frame_start tracker_patch_ex None
      = Done (set_devices tracker_patch_ex devs', None) /\
    rift_tracker_frame_release tracker_patch_ex None
      = Done (set_devices tracker_patch_ex devs', None) /\
    rift_tracker_frame_captured tracker_patch_ex
      = Done (set_devices tracker_patch_ex devs') /\
    length devs' = length (devices tracker_patch_ex) /\
    (forall k dev, Z.of_nat k < n_devices tracker_patch_ex ->
       devices tracker_patch_ex !! k = Some dev ->
       devs' !! k = Some (set_pending dev [])) /\
    (forall k, n_devices tracker_patch_ex <= Z.of_nat k ->
       devs' !! k = devices tracker_patch_ex !! k).
Proof.
  apply (no_exposure_info_no_accounting tracker_patch_ex). simpl. lia.
Defined.

End TrackerLoopMore.
(** ** Device registration and the tracker's exposure state *)

Module TrackerSetupMore.
Import Pose Tracker TrackerSetup Examples MoreExamples TrackerFacts DelaySlotMore
  TrackerLoopMore.

Lemma init_delay_slots_spec slots :
  length slots = Z.to_nat NUM_POSE_DELAY_SLOTS ->
  exists a b c,
    slots = [a; b; c] /\
    init_delay_slots slots =
    Done [mk_slot 0 false (use_count a) (slot_device_time_ns a);
          mk_slot 1 false (use_count b) (slot_device_time_ns b);
          mk_slot 2 false (use_count c) (slot_device_time_ns c)].
Proof.
  intros Hl. destruct slots as [|a [|b [|c [|]]]]; try discriminate Hl.
  exists a, b, c. split; reflexivity.
Qed.

(** X25. Registering a device.  On a tracker with a free entry in its device
    array, [rift_tracker_add_device] completes and raises the device count by
    one; the new entry has the given id and IMU pose, a filter started
    afresh, all its times at 0, a fresh output filter, and three delay slots
    that hold their own index and are not valid, with the use counts the
    memory held (a ring in good order when these were 0).  The other entries
    and the tracker's exposure state are untouched. *)
Theorem add_device_registers
    (ctx : rift_tracker_ctx) (device_id : Z) (imu_pose : posef)
    (next : rift_tracked_device_priv) :
  0 <= n_devices ctx < Z.of_nat (length (devices ctx)) ->
  Z.of_nat (length (devices ctx)) <= 255 ->
  devices ctx !! Z.to_nat (n_devices ctx) = Some next ->
  length (delay_slots next) = Z.to_nat NUM_POSE_DELAY_SLOTS ->
  exists ctx' dev,
    rift_tracker_add_device ctx device_id imu_pose = Done ctx' /\
    n_devices ctx' = n_devices ctx + 1 /\
    have_exposure_info ctx' = have_exposure_info ctx /\
    exposure_info ctx' = exposure_info ctx /\
    length (devices ctx') = length (devices ctx) /\
    devices ctx' !! Z.to_nat (n_devices ctx) = Some dev /\
    (forall k, k <> Z.to_nat (n_devices ctx) -> devices ctx' !! k = devices ctx !! k) /\
    base_id dev = device_id /\ fusion_to_model dev = imu_pose /\
    index dev = index next /\ ukf_fusion dev = [] /\
    device_time_ns dev = 0 /\ last_observed_pose_ts dev = 0 /\
    last_reported_pose dev = 0 /\ pose_output_filter dev = exp_filter_pose_init /\
    Forall (fun s => valid s = false) (delay_slots dev) /\
    use_count <$> delay_slots dev = use_count <$> delay_slots next /\
    (0 <= delay_slot_index next < NUM_POSE_DELAY_SLOTS ->
     wf_device dev /\
     (Forall (fun s => use_count s = 0) (delay_slots next) -> ring_ok dev)).
Proof.
  intros Hn Hmax Hnext Hl.
  destruct (init_delay_slots_spec _ Hl) as (a & b & c & Hs & Hinit).
  unfold rift_tracker_add_device.
  destruct (Z.ltb_spec (n_devices ctx) (Z.of_nat (length (devices ctx)))); [|lia].
  cbn [c_assert mbind outcome_mbind outcome_bind].
  rewrite (array_get_Done _ _ next) by (lia || exact Hnext).
  cbn [mbind outcome_mbind outcome_bind]. rewrite Hinit.
  cbn [mbind outcome_mbind outcome_bind].
  rewrite array_set_Done by lia.
  cbn [mbind outcome_mbind outcome_bind mret outcome_ret].
  do 2 eexists. split; [reflexivity|]. cbn [n_devices have_exposure_info exposure_info devices].
  split; [apply Z.mod_small; lia|].
  split; [reflexivity|]. split; [reflexivity|].
  split; [apply length_insert|].
  split; [apply list_lookup_insert_eq; lia|].
  split; [intros k Hk; apply list_lookup_insert_ne; congruence|].
  cbn.
  do 8 (split; [reflexivity|]).
  split; [repeat constructor|].
  split; [rewrite Hs; reflexivity|].
  intros Hix. assert (wf_device
    (mk_dev device_id (index next) [] (delay_slot_index next)
       [mk_slot 0 false (use_count a) (slot_device_time_ns a);
        mk_slot 1 false (use_count b) (slot_device_time_ns b);
        mk_slot 2 false (use_count c) (slot_device_time_ns c)]
       imu_pose (last_device_ts next) 0 0 (last_observed_pose next) 0
       (reported_pose next) (model_pose next) exp_filter_pose_init
       (pending_imu_observations next))) as Hwf.
  { split; [reflexivity|]. split; [|exact Hix].
    intros [|[|[|k]]] s; simpl; intros [= <-]; reflexivity. }
  split; [exact Hwf|].
  intros Hzero. split; [exact Hwf|]. rewrite Hs in Hzero.
  apply Forall_cons in Hzero as (Ha & Hzero).
  apply Forall_cons in Hzero as (Hb & Hzero).
  apply Forall_cons in Hzero as (Hc & _).
  repeat constructor; simpl; lia.
Qed.

Lemma add_device_registers_witness :
  exists ctx' dev,
    rift_tracker_add_device tracker_two_ex 5 pose_ex = Done ctx' /\
    n_devices ctx' = n_devices tracker_two_ex + 1 /\
    have_exposure_info ctx' = have_exposure_info tracker_two_ex /\
    exposure_info ctx' = exposure_info tracker_two_ex /\
    length (devices ctx') = length (devices tracker_two_ex) /\
    devices ctx' !! Z.to_nat (n_devices tracker_two_ex) = Some dev /\
    (forall k, k <> Z.to_nat (n_devices tracker_two_ex) ->
               devices ctx' !! k = devices tracker_two_ex !! k) /\
    base_id dev = 5 /\ fusion_to_model dev = pose_ex /\
    index dev = index dev_zero_ex /\ ukf_fusion dev = [] /\
    device_time_ns dev = 0 /\ last_observed_pose_ts dev = 0 /\
    last_reported_pose dev = 0 /\ pose_output_filter dev = exp_filter_pose_init /\
    Forall (fun s => valid s = false) (delay_slots dev) /\
    use_count <$> delay_slots dev = use_count <$> delay_slots dev_zero_ex /\
    (0 <= delay_slot_index dev_zero_ex < NUM_POSE_DELAY_SLOTS ->
     wf_device dev /\
     (Forall (fun s => use_count s = 0) (delay_slots dev_zero_ex) -> ring_ok dev)).
Proof.
  apply (add_device_registers tracker_two_ex 5 pose_ex dev_zero_ex).
  - simpl. lia.
  - simpl. lia.
  - reflexivity.
  - reflexivity.
Defined.

Section WithCollaborators.
Context `{Collaborators}.

(** An exposure edge for one device: it completes on a ring in good order,
    leaves such a ring, and stamps the record with the device time. *)
Lemma update_exposure_total dev r0 :
  ring_ok dev ->
  exists dev1 r1,
    rift_tracked_device_update_exposure dev r0 = Done (dev1, r1) /\
    ring_ok dev1 /\ wf_dev_info r1 /\
    info_device_time_ns r1 = device_time_ns dev.
Proof.
  intros Hok.
  destruct (update_exposure_ring_ok dev r0 Hok) as (dev1 & r1 & Hu & Hok1 & Hw1).
  exists dev1, r1. split; [exact Hu|]. split; [exact Hok1|]. split; [exact Hw1|].
  destruct (free_or_busy dev) as [Hfree | Hbusy].
  - destruct (update_exposure_alloc dev r0 (proj1 Hok) Hfree)
      as (d & r & k & s & Hu' & _ & _ & _ & Ht & _).
    rewrite Hu in Hu'. injection Hu' as <- <-. exact Ht.
  - destruct (update_exposure_busy dev r0 (proj1 Hok) Hbusy)
      as (d & r & Hu' & _ & Ht & _).
    rewrite Hu in Hu'. injection Hu' as <- <-. exact Ht.
Qed.

(** X26. The tracker's exposure state.  An exposure report with the counter
    the tracker already holds changes only the LED pattern phase: no device
    is touched and [have_exposure_info] stays as it was (so a first report
    with counter 0 is not taken up).  A report with another counter completes
    on a tracker whose rings are in good order: the exposure info is replaced
    (time, HMD timestamp, counter, phase, the tracker's device count), every
    device of the tracker gets its exposure edge and has its pending IMU
    observations flushed, its record is stamped with its device time, and the
    rings stay in good order. *)
Theorem tracker_update_exposure
    (ctx : rift_tracker_ctx) (now exposure_count exposure_hmd_ts phase : Z) :
  0 <= n_devices ctx <= Z.of_nat (length (devices ctx)) ->
  n_devices ctx <= Z.of_nat (length (info_devices (exposure_info ctx))) ->
  Forall ring_ok (devices ctx) ->
  (count (exposure_info ctx) = exposure_count ->
   rift_tracker_update_exposure_locked ctx now exposure_count exposure_hmd_ts phase =
   Done (mk_tracker (have_exposure_info ctx)
           (mk_exposure_info (local_ts (exposure_info ctx)) (hmd_ts (exposure_info ctx))
              (count (exposure_info ctx)) phase
              (info_n_devices (exposure_info ctx)) (info_devices (exposure_info ctx)))
           (devices ctx) (n_devices ctx),
         false)) /\
  (count (exposure_info ctx) <> exposure_count ->
   exists ctx',
     rift_tracker_update_exposure_locked ctx now exposure_count exposure_hmd_ts phase
       = Done (ctx', true) /\
     have_exposure_info ctx' = true /\
     n_devices ctx' = n_devices ctx /\
     local_ts (exposure_info ctx') = now /\
     hmd_ts (exposure_info ctx') = exposure_hmd_ts /\
     count (exposure_info ctx') = exposure_count /\
     led_pattern_phase (exposure_info ctx') = phase /\
     info_n_devices (exposure_info ctx') = n_devices ctx /\
     length (devices ctx') = length (devices ctx) /\
     Forall ring_ok (devices ctx') /\
     (forall k dev, Z.of_nat k < n_devices ctx -> devices ctx !! k = Some dev ->
        exists r0 dev1 r1,
          info_devices (exposure_info ctx) !! k = Some r0 /\
          rift_tracked_device_update_exposure dev r0 = Done (dev1, r1) /\
          devices ctx' !! k = Some (rift_tracked_device_send_imu_debug dev1) /\
          info_devices (exposure_info ctx') !! k = Some r1 /\
          wf_dev_info r1 /\ info_device_time_ns r1 = device_time_ns dev) /\
     (forall k, n_devices ctx <= Z.of_nat k ->
        devices ctx' !! k = devices ctx !! k /\
        info_devices (exposure_info ctx') !! k
          = info_devices (exposure_info ctx) !! k)).
Proof.
  intros Hn Hni Hok. unfold rift_tracker_update_exposure_locked.
  set (e0 := exposure_info ctx).
  assert (forall b : bool,
            (if b then mk_exposure_info (local_ts e0) (hmd_ts e0) (count e0) phase
                         (info_n_devices e0) (info_devices e0)
             else e0) =
            (if b then mk_exposure_info (local_ts e0) (hmd_ts e0) (count e0) phase
                         (info_n_devices e0) (info_devices e0)
             else mk_exposure_info (local_ts e0) (hmd_ts e0) (count e0)
                    (led_pattern_phase e0) (info_n_devices e0) (info_devices e0)))
    as Heta by (intros b; destruct e0; reflexivity).
  cbv zeta. rewrite Heta. clear Heta.
  assert (forall b : bool, count
            (if b then mk_exposure_info (local_ts e0) (hmd_ts e0) (count e0) phase
                         (info_n_devices e0) (info_devices e0)
             else mk_exposure_info (local_ts e0) (hmd_ts e0) (count e0)
                    (led_pattern_phase e0) (info_n_devices e0) (info_devices e0))
          = count e0) as Hcnt by (intros []; reflexivity).
  assert (forall b : bool, info_devices
            (if b then mk_exposure_info (local_ts e0) (hmd_ts e0) (count e0) phase
                         (info_n_devices e0) (info_devices e0)
             else mk_exposure_info (local_ts e0) (hmd_ts e0) (count e0)
                    (led_pattern_phase e0) (info_n_devices e0) (info_devices e0))
          = info_devices e0) as Hinf by (intros []; reflexivity).
  rewrite Hcnt, Hinf.
  split.
  - intros Heq. destruct (Z.eqb_spec (count e0) exposure_count); [|contradiction].
    cbn [negb]. cbn [mret outcome_ret]. f_equal. f_equal. f_equal.
    destruct (Z.eqb_spec (led_pattern_phase e0) phase) as [<-|]; reflexivity.
  - intros Hne. destruct (Z.eqb_spec (count e0) exposure_count); [contradiction|].
    cbn [negb].
    match goal with
    | |- context [for_loop ?b 0 _ _] => set (body := b)
    end.
    pose (Inv := fun (j : Z)
        (st : list rift_tracked_device_priv * list rift_tracked_device_exposure_info) =>
        length st.1 = length (devices ctx) /\
        length st.2 = length (info_devices e0) /\
        Forall ring_ok st.1 /\
        (forall k, j <= Z.of_nat k ->
           st.1 !! k = devices ctx !! k /\ st.2 !! k = info_devices e0 !! k) /\
        (forall k dev, Z.of_nat k < j -> devices ctx !! k = Some dev ->
           exists r0 dev1 r1,
             info_devices e0 !! k = Some r0 /\
             rift_tracked_device_update_exposure dev r0 = Done (dev1, r1) /\
             st.1 !! k = Some (rift_tracked_device_send_imu_debug dev1) /\
             st.2 !! k = Some r1 /\
             wf_dev_info r1 /\ info_device_time_ns r1 = device_time_ns dev)).
    destruct (for_loop_inv body Inv (Z.to_nat (n_devices ctx)) 0
                (devices ctx, info_devices e0))
      as ([devs infos] & Hrun & Hl & Hli & Hok' & Hun & Hdone).
    + repeat split; try reflexivity; try exact Hok. intros; lia.
    + intros j [devs infos] Hj (Hl & Hli & Hok' & Hun & Hdone). simpl in *.
      destruct (Hun (Z.to_nat j)) as (Hd & Hr); [lia|].
      destruct (lookup_lt_is_Some_2 (devices ctx) (Z.to_nat j)) as [dev Hdev]; [lia|].
      destruct (lookup_lt_is_Some_2 (info_devices e0) (Z.to_nat j)) as [r0 Hr0];
        [unfold e0; lia|].
      pose proof (proj1 (Forall_lookup _ _) Hok _ _ Hdev) as Hokd.
      destruct (update_exposure_total dev r0 Hokd) as (dev1 & r1 & Hu & Hok1 & Hw1 & Ht1).
      assert (Z.to_nat j < length devs)%nat as Hjl
        by (rewrite Hl; eapply lookup_lt_Some; exact Hdev).
      assert (Z.to_nat j < length infos)%nat as Hjli
        by (rewrite Hli; eapply lookup_lt_Some; exact Hr0).
      unfold body.
      rewrite (outcome_bind_Done _ _ dev) by (apply array_get_Done; [lia|congruence]).
      rewrite (outcome_bind_Done _ _ r0) by (apply array_get_Done; [lia|congruence]).
      rewrite (outcome_bind_Done _ _ _ Hu). cbv beta iota zeta.
      rewrite (outcome_bind_Done _ _
                 (<[Z.to_nat j := rift_tracked_device_send_imu_debug dev1]> devs))
        by (apply array_set_Done; [lia|exact Hjl]).
      rewrite (outcome_bind_Done _ _ (<[Z.to_nat j := r1]> infos))
        by (apply array_set_Done; [lia|exact Hjli]).
      eexists. split; [reflexivity|]. unfold Inv. simpl.
      split; [rewrite length_insert; exact Hl|].
      split; [rewrite length_insert; exact Hli|].
      split; [apply Forall_insert; [exact Hok'|apply ring_ok_send; exact Hok1]|].
      split.
      * intros k Hk. rewrite !list_lookup_insert_ne by lia. apply Hun. lia.
      * intros k dev' Hk Hdev'. destruct (decide (k = Z.to_nat j)) as [->|Hnk].
        -- rewrite Hdev in Hdev'. injection Hdev' as <-.
           exists r0, dev1, r1. rewrite !list_lookup_insert_eq by assumption. auto 10.
        -- rewrite !list_lookup_insert_ne by congruence. apply Hdone; [lia|exact Hdev'].
    + simpl in *. rewrite Hrun. cbv beta iota. cbn [mret outcome_ret].
      eexists. split; [reflexivity|]. simpl.
      do 7 (split; [reflexivity|]). split; [exact Hl|]. split; [exact Hok'|]. split.
      * intros k dev Hk Hdev. apply Hdone; [lia|exact Hdev].
      * intros k Hk. apply Hun. lia.
Qed.

End WithCollaborators.

Lemma tracker_update_exposure_witness :
  (count (exposure_info tracker_patch_ex) = 8 ->
   @rift_tracker_update_exposure_locked collab_ex tracker_patch_ex 1500 8 8000 1 =
   Done (mk_tracker (have_exposure_info tracker_patch_ex)
           (mk_exposure_info (local_ts (exposure_info tracker_patch_ex))
              (hmd_ts (exposure_info tracker_patch_ex))
              (count (exposure_info tracker_patch_ex)) 1
              (info_n_devices (exposure_info tracker_patch_ex))
              (info_devices (exposure_info tracker_patch_ex)))
           (devices tracker_patch_ex) (n_devices tracker_patch_ex),
         false)) /\
  (count (exposure_info tracker_patch_ex) <> 8 ->
   exists ctx',
     @rift_tracker_update_exposure_locked collab_ex tracker_patch_ex 1500 8 8000 1
       = Done (ctx', true) /\
     have_exposure_info ctx' = true /\
     n_devices ctx' = n_devices tracker_patch_ex /\
     local_ts (exposure_info ctx') = 1500 /\
     hmd_ts (exposure_info ctx') = 8000 /\
     count (exposure_info ctx') = 8 /\
     led_pattern_phase (exposure_info ctx') = 1 /\
     info_n_devices (exposure_info ctx') = n_devices tracker_patch_ex /\
     length (devices ctx') = length (devices tracker_patch_ex) /\
     Forall ring_ok (devices ctx') /\
     (forall k dev, Z.of_nat k < n_devices tracker_patch_ex ->
        devices tracker_patch_ex !! k = Some dev ->
        exists r0 dev1 r1,
          info_devices (exposure_info tracker_patch_ex) !! k = Some r0 /\
          @rift_tracked_device_update_exposure collab_ex dev r0 = Done (dev1, r1) /\
          devices ctx' !! k = Some (rift_tracked_device_send_imu_debug dev1) /\
          info_devices (exposure_info ctx') !! k = Some r1 /\
          wf_dev_info r1 /\ info_device_time_ns r1 = device_time_ns dev) /\
     (forall k, n_devices tracker_patch_ex <= Z.of_nat k ->
        devices ctx' !! k = devices tracker_patch_ex !! k /\
        info_devices (exposure_info ctx') !! k
          = info_devices (exposure_info tracker_patch_ex) !! k)).
Proof.
  apply (@tracker_update_exposure collab_ex tracker_patch_ex 1500 8 8000 1).
  - simpl. lia.
  - simpl. lia.
  - exact ring_ok_patch_ex.
Defined.

End TrackerSetupMore.
(** ** The circulation of the capture frames *)

Module PipelineMore.
Import Pose Tracker TrackerSetup FrameQueue Sensor SensorPipeline Examples MoreExamples
  FrameQueueFacts FrameQueueMore TrackerFacts DelaySlotMore TrackerLoopMore.







Section WithCollaborators.
Context `{Collaborators} `{SensorCollaborators} `{Libm}.



(** X27. Setting up the frame pool.  [rift_sensor_new], given an array of
    four frames, completes its set-up of the pool: every frame carries its
    index as id, all four frames are queued for capture in index order, the
    two analysis queues are empty, no frame is being captured into, and no
    frame is counted as dropped.  The pool is then in good order. *)
Theorem sensor_new_fills_capture_queue (sensor : rift_sensor_ctx) :
  length (frames sensor) = Z.to_nat NUM_CAPTURE_BUFFERS ->
  length (data (capture_frame_q sensor)) = Z.to_nat QUEUE_SIZE ->
  length (data (fast_analysis_q sensor)) = Z.to_nat QUEUE_SIZE ->
  length (data (long_analysis_q sensor)) = Z.to_nat QUEUE_SIZE ->
  exists sensor',
    rift_sensor_new_frames sensor = Done sensor' /\
    pool_ok sensor' None None /\
    queue_entries (capture_frame_q sensor') = [Some 0; Some 1; Some 2; Some 3]%nat /\
    queue_entries (fast_analysis_q sensor') = [] /\
    queue_entries (long_analysis_q sensor') = [] /\
    cur_capture_frame sensor' = None /\ dropped_frames sensor' = 0 /\
    have_camera_pose sensor' = false /\ long_analysis_busy sensor' = false /\
    frames sensor' =
      imap (fun i f => set_frame_id f (Z.of_nat i)) (frames sensor).
Proof.
  intros Hf Hc Hfa Hl.
  destruct sensor as [sid cv1 fr cm fe dc cur [cd ch ct] dr [fd fh ft] [ld lh lt] busy hp cp].
  simpl in *.
  destruct fr as [|f0 [|f1 [|f2 [|f3 [|]]]]]; try discriminate Hf.
  destruct cd as [|c0 [|c1 [|c2 [|c3 [|c4 [|]]]]]]; try discriminate Hc.
  destruct fd as [|a0 [|a1 [|a2 [|a3 [|a4 [|]]]]]]; try discriminate Hfa.
  destruct ld as [|l0 [|l1 [|l2 [|l3 [|l4 [|]]]]]]; try discriminate Hl.
  eexists. split; [vm_compute; reflexivity|].
  split.
  { split; [reflexivity|].
    split; [repeat split; try reflexivity; discriminate|].
    split; [repeat split; try reflexivity; discriminate|].
    split; [repeat split; try reflexivity; discriminate|].
    split; [vm_compute; reflexivity|]. split; [reflexivity|].
    vm_compute. discriminate. }
  repeat split; reflexivity.
Qed.

End WithCollaborators.

(** *** What the callbacks need of the tracker *)








(** *** The frames *)



Section Circulation.
Context `{Collaborators} `{SensorCollaborators} `{Libm}.



End Circulation.

Section Callbacks.
Context `{Collaborators} `{SensorCollaborators} `{Libm}.




End Callbacks.

Section Captured.
Context `{Collaborators} `{SensorCollaborators} `{Libm}.


End Captured.

Section CapturedCallback.
Context `{Collaborators} `{SensorCollaborators} `{Libm}.



End CapturedCallback.

Section AnalysisThreads.
Context `{Collaborators} `{SensorCollaborators} `{Libm}.







End AnalysisThreads.




Lemma sensor_new_fills_capture_queue_witness :
  exists sensor',
    rift_sensor_new_frames sensor_four_ex = Done sensor' /\
    pool_ok sensor' None None /\
    queue_entries (capture_frame_q sensor') = [Some 0; Some 1; Some 2; Some 3]%nat /\
    queue_entries (fast_analysis_q sensor') = [] /\
    queue_entries (long_analysis_q sensor') = [] /\
    cur_capture_frame sensor' = None /\ dropped_frames sensor' = 0 /\
    have_camera_pose sensor' = false /\ long_analysis_busy sensor' = false /\
    frames sensor' =
      imap (fun i f => set_frame_id f (Z.of_nat i)) (frames sensor_four_ex).
Proof.
  apply (sensor_new_fills_capture_queue sensor_four_ex); reflexivity.
Defined.



Section Threads.
Context `{Collaborators} `{SensorCollaborators} `{Libm}.


End Threads.


End PipelineMore.
